(** * Inventory consistency core of the sales and products routers

    A shallow embedding of [server/routers/sales.py] and
    [server/routers/products.py]: the handlers [create_sale], [update_sale],
    [delete_sale], [create_product], [update_product], [delete_product] and
    [update_product_stock], written over an explicit connection state in a
    small state-and-exception monad, followed by the properties of the
    stock accounting protocol. *)

From Stdlib Require Import ZArith List String Bool Lia Permutation Sorted.
Import ListNotations.
Open Scope Z_scope.

(** ** Rows and tables *)

(** A row of [products].  The timestamp columns [created_at] and
    [updated_at] are left out: no handler reads them back into a decision. *)
Record Product := mkProduct {
  p_id : Z;
  p_userId : Z;
  p_name : string;
  p_description : option string;
  p_stock : Z;
  p_unit : string;
  p_supplierId : option Z;
  p_version : Z
}.

(** A row of [sales].  [totalSalePrice] is only stored and returned. *)
Record Sale := mkSale {
  s_id : Z;
  s_userId : Z;
  s_productName : string;
  s_quantity : Z;
  s_customerId : option Z;
  s_saleDate : option string;
  s_totalSalePrice : option Z;
  s_note : option string
}.

(** [customers] and [suppliers] are only probed for existence, by
    [(id, userId)]. *)
Record Database := mkDatabase {
  products : list Product;
  sales : list Sale;
  customers : list (Z * Z);
  suppliers : list (Z * Z)
}.

(** ** Request bodies *)

Record SaleCreate := mkSaleCreate {
  sc_productName : string;
  sc_quantity : Z;
  sc_customerId : option Z;
  sc_saleDate : option string;
  sc_totalSalePrice : option Z;
  sc_note : option string
}.

Record SaleUpdate := mkSaleUpdate {
  su_productName : option string;
  su_quantity : option Z;
  su_customerId : option Z;
  su_saleDate : option string;
  su_totalSalePrice : option Z;
  su_note : option string
}.

Record ProductCreate := mkProductCreate {
  pc_name : string;
  pc_description : option string;
  pc_stock : Z;
  pc_unit : string;
  pc_supplierId : option Z
}.

Record ProductUpdate := mkProductUpdate {
  pu_name : option string;
  pu_description : option string;
  pu_stock : option Z;
  pu_unit : option string;
  pu_supplierId : option Z;
  pu_version : option Z
}.

Record ProductStockUpdate := mkProductStockUpdate {
  psu_quantity : Z;
  psu_version : Z
}.

(** ** Statements that write *)

(** The [SET] list of an [UPDATE products]: the columns the statement
    assigns.  Every such statement of the two routers also carries
    [version = version + 1]. *)
Record ProductAssign := mkProductAssign {
  set_name : option string;
  set_description : option string;
  set_stock : option Z;
  set_unit : option string;
  set_supplierId : option (option Z)
}.

Record SaleAssign := mkSaleAssign {
  set_productName : option string;
  set_quantity : option Z;
  set_saleDate : option string;
  set_customerId : option (option Z);
  set_totalSalePrice : option Z;
  set_note : option string
}.

Definition stock_only (n : Z) : ProductAssign :=
  mkProductAssign None None (Some n) None None.

(** [UpdateProducts a id user ver] is
    [UPDATE products SET a, version = version + 1 WHERE id = ? AND userId = ?],
    with [AND version = ?] when [ver] is given. *)
Inductive Statement :=
| InsertSale (user : Z) (d : SaleCreate)
| UpdateSales (a : SaleAssign) (id user : Z)
| DeleteSales (id user : Z)
| InsertProduct (user : Z) (d : ProductCreate)
| UpdateProducts (a : ProductAssign) (id user : Z) (ver : option Z)
| DeleteProducts (id user : Z).

Definition or_keep {A} (o : option A) (old : A) : A :=
  match o with Some v => v | None => old end.

Definition assign_product (a : ProductAssign) (p : Product) : Product :=
  {| p_id := p_id p;
     p_userId := p_userId p;
     p_name := or_keep (set_name a) (p_name p);
     p_description :=
       match set_description a with Some d => Some d | None => p_description p end;
     p_stock := or_keep (set_stock a) (p_stock p);
     p_unit := or_keep (set_unit a) (p_unit p);
     p_supplierId := or_keep (set_supplierId a) (p_supplierId p);
     p_version := p_version p + 1 |}.

Definition assign_sale (a : SaleAssign) (s : Sale) : Sale :=
  {| s_id := s_id s;
     s_userId := s_userId s;
     s_productName := or_keep (set_productName a) (s_productName s);
     s_quantity := or_keep (set_quantity a) (s_quantity s);
     s_customerId := or_keep (set_customerId a) (s_customerId s);
     s_saleDate :=
       match set_saleDate a with Some d => Some d | None => s_saleDate s end;
     s_totalSalePrice :=
       match set_totalSalePrice a with Some d => Some d | None => s_totalSalePrice s end;
     s_note := match set_note a with Some d => Some d | None => s_note s end |}.

(** The [WHERE] clauses. *)
Definition product_where (id user : Z) (ver : option Z) (p : Product) : bool :=
  (p_id p =? id) && (p_userId p =? user) &&
  match ver with Some v => p_version p =? v | None => true end.

Definition sale_where (id user : Z) (s : Sale) : bool :=
  (s_id s =? id) && (s_userId s =? user).

(** Row id given to an inserted row: one more than the largest id in use,
    1 in an empty table. *)
Definition next_rowid (ids : list Z) : Z :=
  match ids with
  | [] => 1
  | x :: r => 1 + fold_right Z.max x r
  end.

Definition count_rows {A} (f : A -> bool) (l : list A) : Z :=
  Z.of_nat (List.length (filter f l)).

Definition update_rows {A} (f : A -> bool) (g : A -> A) (l : list A) : list A :=
  map (fun x => if f x then g x else x) l.

Definition delete_rows {A} (f : A -> bool) (l : list A) : list A :=
  filter (fun x => negb (f x)) l.

Record Cursor := mkCursor { rowcount : Z; lastrowid : Z }.

Definition with_products (db : Database) (ps : list Product) : Database :=
  mkDatabase ps (sales db) (customers db) (suppliers db).

Definition with_sales (db : Database) (ss : list Sale) : Database :=
  mkDatabase (products db) ss (customers db) (suppliers db).

(** What a statement the store accepts does to the tables: the new tables
    and the cursor. *)
Definition apply_statement (st : Statement) (db : Database) : Database * Cursor :=
  match st with
  | InsertSale user d =>
      let id := next_rowid (map s_id (sales db)) in
      (with_sales db
         (sales db ++
          [mkSale id user (sc_productName d) (sc_quantity d) (sc_customerId d)
                  (sc_saleDate d) (sc_totalSalePrice d) (sc_note d)]),
       mkCursor 1 id)
  | UpdateSales a id user =>
      (with_sales db (update_rows (sale_where id user) (assign_sale a) (sales db)),
       mkCursor (count_rows (sale_where id user) (sales db)) 0)
  | DeleteSales id user =>
      (with_sales db (delete_rows (sale_where id user) (sales db)),
       mkCursor (count_rows (sale_where id user) (sales db)) 0)
  | InsertProduct user d =>
      let id := next_rowid (map p_id (products db)) in
      (with_products db
         (products db ++
          [mkProduct id user (pc_name d) (pc_description d) (pc_stock d)
                     (pc_unit d) (pc_supplierId d) 1]),
       mkCursor 1 id)
  | UpdateProducts a id user ver =>
      (with_products db
         (update_rows (product_where id user ver) (assign_product a) (products db)),
       mkCursor (count_rows (product_where id user ver) (products db)) 0)
  | DeleteProducts id user =>
      (with_products db (delete_rows (product_where id user None) (products db)),
       mkCursor (count_rows (product_where id user None) (products db)) 0)
  end.

(** ** Queries *)

Definition select_product_by_name (user : Z) (name : string) (db : Database)
  : option Product :=
  find (fun p => (p_userId p =? user) && String.eqb (p_name p) name) (products db).

Definition select_product (id user : Z) (db : Database) : option Product :=
  find (product_where id user None) (products db).

Definition select_product_by_id (id : Z) (db : Database) : option Product :=
  find (fun p => p_id p =? id) (products db).

Definition select_other_product_by_name (user : Z) (name : string) (id : Z)
    (db : Database) : option Product :=
  find (fun p => (p_userId p =? user) && String.eqb (p_name p) name
                 && negb (p_id p =? id)) (products db).

Definition select_sale (id user : Z) (db : Database) : option Sale :=
  find (sale_where id user) (sales db).

Definition select_sale_by_id (id : Z) (db : Database) : option Sale :=
  find (fun s => s_id s =? id) (sales db).

Definition is_some {A} (o : option A) : bool :=
  match o with Some _ => true | None => false end.

Definition exists_owned (id user : Z) (t : list (Z * Z)) : bool :=
  existsb (fun r => (fst r =? id) && (snd r =? user)) t.

(** Modelled from the spec: the [UNIQUE (userId, name)] constraint of
    [products], declared in [server/database.py], which is not among the
    sources (section 6: [name UNIQUE per userId]).  An [INSERT] breaks it
    when the user already has a product of that name; an [UPDATE] that sets
    the name breaks it when it changes a row and another product of the
    user holds that name. *)
Definition breaks_unique (st : Statement) (db : Database) : bool :=
  match st with
  | InsertProduct user d => is_some (select_product_by_name user (pc_name d) db)
  | UpdateProducts a id user ver =>
      match set_name a with
      | Some name =>
          (0 <? count_rows (product_where id user ver) (products db))
          && is_some (select_other_product_by_name user name id db)
      | None => false
      end
  | _ => false
  end.

(** One statement against the tables: the new tables and the cursor, or
    [None] when the store refuses the statement (an [IntegrityError]) and
    leaves the tables as they are.  Integers are unbounded here; the 64-bit
    range of the store's [INTEGER] columns is not part of the tables. *)
Definition run_statement (st : Statement) (db : Database) : option (Database * Cursor) :=
  if breaks_unique st db then None else Some (apply_statement st db).

(** ** Errors *)

(** The [detail] of each [HTTPException] the handlers raise, and the
    response status it is raised with. *)
Inductive Detail :=
| SaleNotFound
| ProductNotFound
| ProductNameUnknown (name : string)
| StockShort (current requested : Z)
| StockShortAtWrite
| CustomerUnknown
| SupplierUnknown
| NoFields
| NameTaken (name : string)
| StockChanged
| OldStockChanged
| VersionMismatch (current yours : Z)
| Unexpected.

Definition status_code (d : Detail) : Z :=
  match d with
  | SaleNotFound | ProductNotFound => 404
  | ProductNameUnknown _ | StockShort _ _ | StockShortAtWrite
  | CustomerUnknown | SupplierUnknown | NoFields | NameTaken _ => 400
  | StockChanged | OldStockChanged | VersionMismatch _ _ => 409
  | Unexpected => 500
  end.

(** The error taxonomy of the specification, section 7. *)
Inductive ErrorKind :=
| InvalidReference
| InsufficientStock
| VersionConflict
| NotFound
| BadRequest
| UnexpectedError.

Definition error_kind (d : Detail) : ErrorKind :=
  match d with
  | SaleNotFound | ProductNotFound => NotFound
  | ProductNameUnknown _ | CustomerUnknown | SupplierUnknown => InvalidReference
  | StockShort _ _ | StockShortAtWrite => InsufficientStock
  | StockChanged | OldStockChanged | VersionMismatch _ _ => VersionConflict
  | NoFields | NameTaken _ => BadRequest
  | Unexpected => UnexpectedError
  end.

(** ** The connection *)

Inductive Event :=
| Executed (st : Statement) (matched : Z)
| Committed
| RolledBack.

(** Modelled from the spec: the pooled connection of [server/database.py],
    which is not among the sources.  Sections 4.4 and 5: a unit of work
    begins at the first writing statement, commit publishes it, rollback
    discards it; other writers may have committed between this request's
    reads and the start of its unit of work, never during it.

    [store] is what this connection reads; [saved] holds, inside a unit of
    work, the tables to return to on rollback; [total_changes] counts the
    rows changed on this connection since it was opened; [log] lists the
    writes, newest first. *)
Record Connection := mkConnection {
  store : Database;
  saved : option Database;
  total_changes : Z;
  log : list Event
}.

Inductive Result (A : Type) :=
| Ok (a : A)
| Raise (e : Detail).
Arguments Ok {A} a.
Arguments Raise {A} e.

Definition M (A : Type) : Type := Connection -> Result A * Connection.

Definition ret {A} (a : A) : M A := fun c => (Ok a, c).

Definition bind {A B} (m : M A) (k : A -> M B) : M B :=
  fun c => match m c with
           | (Ok a, c') => k a c'
           | (Raise e, c') => (Raise e, c')
           end.

Definition raise {A} (e : Detail) : M A := fun c => (Raise e, c).

Definition try_except {A} (m : M A) (handler : Detail -> M A) : M A :=
  fun c => match m c with
           | (Ok a, c') => (Ok a, c')
           | (Raise e, c') => handler e c'
           end.

Definition query {A} (q : Database -> A) : M A := fun c => (Ok (q (store c)), c).

Definition get_total_changes : M Z := fun c => (Ok (total_changes c), c).

Definition when (b : bool) (m : M unit) : M unit := if b then m else ret tt.

Declare Scope conn_scope.
Delimit Scope conn_scope with conn.
Notation "x <- m ;; k" := (bind m (fun x => k))
  (at level 100, m at next level, right associativity) : conn_scope.
Notation "m ;; k" := (bind m (fun _ => k))
  (at level 100, right associativity) : conn_scope.
Open Scope conn_scope.

(** [conn.commit()] and [conn.rollback()] *)
Definition committed (c : Connection) : Connection :=
  mkConnection (store c) None (total_changes c) (Committed :: log c).

Definition rolled_back (c : Connection) : Connection :=
  mkConnection (match saved c with Some d => d | None => store c end)
               None (total_changes c) (RolledBack :: log c).

Section Handlers.

(** What the other connections commit between this request's reads and the
    start of its unit of work. *)
Variable others : Database -> Database.

(** The implicit start of a unit of work in front of a writing statement:
    the tables as the other connections left them become both what this
    connection works on and what a rollback returns to. *)
Definition begun (c : Connection) : Connection :=
  match saved c with
  | Some _ => c
  | None =>
      let d := others (store c) in
      mkConnection d (Some d) (total_changes c) (log c)
  end.

Definition cursor_of (st : Statement) (c : Connection) : Cursor :=
  snd (apply_statement st (store (begun c))).

Definition executed (st : Statement) (c : Connection) : Connection :=
  let c0 := begun c in
  let n := rowcount (cursor_of st c) in
  mkConnection (fst (apply_statement st (store c0))) (saved c0)
               (total_changes c0 + n) (Executed st n :: log c0).

(** [conn.execute] of a writing statement.  A statement the store refuses
    raises inside the unit of work it opened; the handlers' [except
    Exception] turns that into status 500. *)
Definition execute (st : Statement) : M Cursor :=
  fun c => match run_statement st (store (begun c)) with
           | Some _ => (Ok (cursor_of st c), executed st c)
           | None => (Raise Unexpected, begun c)
           end.

Definition commit : M unit := fun c => (Ok tt, committed c).

Definition rollback : M unit := fun c => (Ok tt, rolled_back c).

(** [row = cursor.fetchone()] followed by [row[0]]: a missing row is a
    [TypeError], which the outer [except Exception] turns into status 500. *)
Definition fetched {A} (o : option A) : M A :=
  match o with Some r => ret r | None => raise Unexpected end.

(** *** sales.py *)

Definition create_sale (sale_data : SaleCreate) (user_id : Z) : M Sale :=
  product <- query (select_product_by_name user_id (sc_productName sale_data)) ;;
  match product with
  | None => raise (ProductNameUnknown (sc_productName sale_data))
  | Some product =>
      let product_id := p_id product in
      let current_stock := p_stock product in
      let product_version := p_version product in
      when (current_stock <? sc_quantity sale_data)
           (raise (StockShort current_stock (sc_quantity sale_data))) ;;
      match sc_customerId sale_data with
      | Some cid =>
          known <- query (fun db => exists_owned cid user_id (customers db)) ;;
          when (negb known) (raise CustomerUnknown)
      | None => ret tt
      end ;;
      sale_id <-
        try_except
          (sale_cursor <- execute (InsertSale user_id sale_data) ;;
           let sale_id := lastrowid sale_cursor in
           let new_stock := current_stock - sc_quantity sale_data in
           when (new_stock <? 0) (raise StockShortAtWrite) ;;
           update_cursor <-
             execute (UpdateProducts (stock_only new_stock) product_id user_id
                                     (Some product_version)) ;;
           when (rowcount update_cursor =? 0) (raise StockChanged) ;;
           commit ;;
           ret sale_id)
          (fun e => rollback ;; raise e) ;;
      row <- query (select_sale_by_id sale_id) ;;
      fetched row
  end.

(** [sale_data.productName and sale_data.productName != old_product_name]:
    the new name when the request carries a non-empty name that differs
    from the stored one. *)
Definition changed_name (requested : option string) (old : string) : option string :=
  match requested with
  | Some n => if negb (String.eqb n "") && negb (String.eqb n old) then Some n else None
  | None => None
  end.

(** The [SET] list [update_sale] builds; customer id 0 is stored as NULL. *)
Definition sale_fields (sale_data : SaleUpdate) : SaleAssign :=
  mkSaleAssign (su_productName sale_data) (su_quantity sale_data)
               (su_saleDate sale_data)
               (match su_customerId sale_data with
                | Some cid => Some (if cid =? 0 then None else Some cid)
                | None => None
                end)
               (su_totalSalePrice sale_data) (su_note sale_data).

Definition no_sale_fields (a : SaleAssign) : bool :=
  match set_productName a, set_quantity a, set_saleDate a,
        set_customerId a, set_totalSalePrice a, set_note a with
  | None, None, None, None, None, None => true
  | _, _, _, _, _, _ => false
  end.

Definition update_sale (sale_id : Z) (sale_data : SaleUpdate) (user_id : Z) : M Sale :=
  row <- query (select_sale sale_id user_id) ;;
  match row with
  | None => raise SaleNotFound
  | Some row =>
      let old_quantity := s_quantity row in
      let old_product_name := s_productName row in
      let new_quantity := or_keep (su_quantity sale_data) old_quantity in
      new_product <-
        match changed_name (su_productName sale_data) old_product_name with
        | Some name =>
            found <- query (select_product_by_name user_id name) ;;
            match found with
            | None => raise (ProductNameUnknown name)
            | Some p => ret p
            end
        | None =>
            found <- query (select_product_by_name user_id old_product_name) ;;
            match found with
            | None => raise (ProductNameUnknown old_product_name)
            | Some p => ret p
            end
        end ;;
      let product_id := p_id new_product in
      let current_stock := p_stock new_product in
      let product_version := p_version new_product in
      let quantity_diff := old_quantity - new_quantity in
      when (new_quantity >? old_quantity)
           (let additional_needed := new_quantity - old_quantity in
            when (current_stock <? additional_needed)
                 (raise (StockShort current_stock additional_needed))) ;;
      match su_customerId sale_data with
      | Some cid =>
          when (negb (cid =? 0))
               (known <- query (fun db => exists_owned cid user_id (customers db)) ;;
                when (negb known) (raise CustomerUnknown))
      | None => ret tt
      end ;;
      try_except
        (let update_fields := sale_fields sale_data in
         when (no_sale_fields update_fields) (raise NoFields) ;;
         execute (UpdateSales update_fields sale_id user_id) ;;
         when (negb (quantity_diff =? 0))
              (let new_stock := current_stock + quantity_diff in
               when (new_stock <? 0) (raise StockShortAtWrite) ;;
               match changed_name (su_productName sale_data) old_product_name with
               | Some _ =>
                   old_product <- query (select_product_by_name user_id old_product_name) ;;
                   match old_product with
                   | Some old_product =>
                       let old_new_stock := p_stock old_product + old_quantity in
                       execute (UpdateProducts (stock_only old_new_stock)
                                  (p_id old_product) user_id
                                  (Some (p_version old_product))) ;;
                       changes <- get_total_changes ;;
                       when (changes =? 0) (raise OldStockChanged)
                   | None => ret tt
                   end
               | None => ret tt
               end ;;
               update_cursor <-
                 execute (UpdateProducts (stock_only new_stock) product_id user_id
                                         (Some product_version)) ;;
               when (rowcount update_cursor =? 0) (raise StockChanged)) ;;
         commit)
        (fun e => rollback ;; raise e) ;;
      row <- query (select_sale_by_id sale_id) ;;
      fetched row
  end.

Definition delete_sale (sale_id : Z) (user_id : Z) : M unit :=
  sale <- query (select_sale sale_id user_id) ;;
  match sale with
  | None => raise SaleNotFound
  | Some sale =>
      let product_name := s_productName sale in
      let quantity := s_quantity sale in
      product <- query (select_product_by_name user_id product_name) ;;
      match product with
      | None => ret tt
      | Some product =>
          try_except
            (let new_stock := p_stock product + quantity in
             update_cursor <-
               execute (UpdateProducts (stock_only new_stock) (p_id product) user_id
                                       (Some (p_version product))) ;;
             when (rowcount update_cursor =? 0) (raise StockChanged))
            (fun e => rollback ;; raise e)
      end ;;
      execute (DeleteSales sale_id user_id) ;;
      commit
  end.

(** *** products.py *)

(** [row[7] if row[7] else 1] *)
Definition version_or_1 (v : Z) : Z := if v =? 0 then 1 else v.

(** [ProductResponse(..., version=row[7] if row[7] else 1, ...)] *)
Definition product_response (row : Product) : Product :=
  mkProduct (p_id row) (p_userId row) (p_name row) (p_description row)
            (p_stock row) (p_unit row) (p_supplierId row)
            (version_or_1 (p_version row)).

Definition create_product (product_data : ProductCreate) (user_id : Z) : M Product :=
  existing <- query (select_product_by_name user_id (pc_name product_data)) ;;
  when (is_some existing) (raise (NameTaken (pc_name product_data))) ;;
  match pc_supplierId product_data with
  | Some sid =>
      known <- query (fun db => exists_owned sid user_id (suppliers db)) ;;
      when (negb known) (raise SupplierUnknown)
  | None => ret tt
  end ;;
  cursor <- execute (InsertProduct user_id product_data) ;;
  let product_id := lastrowid cursor in
  commit ;;
  row <- query (select_product_by_id product_id) ;;
  row <- fetched row ;;
  ret (product_response row).

(** The [SET] list [update_product] builds; supplier id 0 is stored as NULL. *)
Definition product_fields (product_data : ProductUpdate) : ProductAssign :=
  mkProductAssign (pu_name product_data) (pu_description product_data)
                  (pu_stock product_data) (pu_unit product_data)
                  (match pu_supplierId product_data with
                   | Some sid => Some (if sid =? 0 then None else Some sid)
                   | None => None
                   end).

Definition no_product_fields (a : ProductAssign) : bool :=
  match set_name a, set_description a, set_stock a, set_unit a, set_supplierId a with
  | None, None, None, None, None => true
  | _, _, _, _, _ => false
  end.

Definition differs (sid : Z) (stored : option Z) : bool :=
  match stored with Some r => negb (sid =? r) | None => true end.

Definition update_product (product_id : Z) (product_data : ProductUpdate)
    (user_id : Z) : M Product :=
  row <- query (select_product product_id user_id) ;;
  match row with
  | None => raise ProductNotFound
  | Some row =>
      let current_version := version_or_1 (p_version row) in
      match pu_version product_data with
      | Some v =>
          when (negb (v =? current_version))
               (raise (VersionMismatch current_version v))
      | None => ret tt
      end ;;
      match changed_name (pu_name product_data) (p_name row) with
      | Some name =>
          taken <- query (select_other_product_by_name user_id name product_id) ;;
          when (is_some taken) (raise (NameTaken name))
      | None => ret tt
      end ;;
      match pu_supplierId product_data with
      | Some sid =>
          when (differs sid (p_supplierId row) && negb (sid =? 0))
               (known <- query (fun db => exists_owned sid user_id (suppliers db)) ;;
                when (negb known) (raise SupplierUnknown))
      | None => ret tt
      end ;;
      let update_fields := product_fields product_data in
      when (no_product_fields update_fields) (raise NoFields) ;;
      execute (UpdateProducts update_fields product_id user_id None) ;;
      commit ;;
      row <- query (select_product_by_id product_id) ;;
      row <- fetched row ;;
      ret (product_response row)
  end.

Definition delete_product (product_id : Z) (user_id : Z) : M unit :=
  product <- query (select_product product_id user_id) ;;
  match product with
  | None => raise ProductNotFound
  | Some _ =>
      execute (DeleteProducts product_id user_id) ;;
      commit
  end.

Definition update_product_stock (product_id : Z) (stock_data : ProductStockUpdate)
    (user_id : Z) : M Product :=
  row <- query (select_product product_id user_id) ;;
  match row with
  | None => raise ProductNotFound
  | Some row =>
      let current_stock := p_stock row in
      let current_version := version_or_1 (p_version row) in
      when (negb (psu_version stock_data =? current_version))
           (raise (VersionMismatch current_version (psu_version stock_data))) ;;
      let new_stock := current_stock + psu_quantity stock_data in
      when (new_stock <? 0)
           (raise (StockShort current_stock (Z.abs (psu_quantity stock_data)))) ;;
      execute (UpdateProducts (stock_only new_stock) product_id user_id
                              (Some current_version)) ;;
      changes <- get_total_changes ;;
      when (changes =? 0) (raise StockChanged) ;;
      commit ;;
      row <- query (select_product_by_id product_id) ;;
      row <- fetched row ;;
      ret (product_response row)
  end.

(** *** Requests *)

Inductive Request :=
| CreateSale (user : Z) (d : SaleCreate)
| UpdateSale (user sale_id : Z) (d : SaleUpdate)
| DeleteSale (user sale_id : Z)
| CreateProduct (user : Z) (d : ProductCreate)
| UpdateProduct (user product_id : Z) (d : ProductUpdate)
| DeleteProduct (user product_id : Z)
| UpdateProductStock (user product_id : Z) (d : ProductStockUpdate).

Inductive Response :=
| SaleData (s : Sale)
| ProductData (p : Product)
| NoData.

Definition handle (r : Request) : M Response :=
  match r with
  | CreateSale user d => s <- create_sale d user ;; ret (SaleData s)
  | UpdateSale user id d => s <- update_sale id d user ;; ret (SaleData s)
  | DeleteSale user id => delete_sale id user ;; ret NoData
  | CreateProduct user d => p <- create_product d user ;; ret (ProductData p)
  | UpdateProduct user id d => p <- update_product id d user ;; ret (ProductData p)
  | DeleteProduct user id => delete_product id user ;; ret NoData
  | UpdateProductStock user id d =>
      p <- update_product_stock id d user ;; ret (ProductData p)
  end.

(** Modelled from the spec: the scope exit of [pool.get_connection()]
    (section 4.1), which hands the connection back on every exit path; a
    unit of work the handler left open is discarded. *)
Definition release (c : Connection) : Connection :=
  mkConnection (match saved c with Some d => d | None => store c end)
               None (total_changes c) (log c).

Definition serve (r : Request) (c : Connection) : Connection :=
  release (snd (handle r c)).

Fixpoint serve_all (rs : list Request) (c : Connection) : Connection :=
  match rs with
  | [] => c
  | r :: rs' => serve_all rs' (serve r c)
  end.

End Handlers.

(** No other writer: the requests run one after the other. *)
Definition alone (db : Database) : Database := db.

Definition connect (db : Database) : Connection := mkConnection db None 0 [].

(** ** Vocabulary of the properties *)

(** [wp m Q c]: running [m] on [c] ends in a result and a connection that
    satisfy [Q].  Handlers are total functions, so this is a statement
    about the one run there is. *)
Definition wp {A} (m : M A) (Q : Result A -> Connection -> Prop) (c : Connection) : Prop :=
  Q (fst (m c)) (snd (m c)).

(** A sale (a product) with this id exists, and no row with this id belongs
    to [user]. *)
Definition sale_of_another_user (sale_id user : Z) (db : Database) : Prop :=
  (exists s, In s (sales db) /\ s_id s = sale_id) /\
  forall s, In s (sales db) -> s_id s = sale_id -> s_userId s <> user.

Definition product_of_another_user (product_id user : Z) (db : Database) : Prop :=
  (exists p, In p (products db) /\ p_id p = product_id) /\
  forall p, In p (products db) -> p_id p = product_id -> p_userId p <> user.

(** The row an [INSERT INTO sales] adds. *)
Definition new_sale (user : Z) (d : SaleCreate) (db : Database) : Sale :=
  mkSale (next_rowid (map s_id (sales db))) user (sc_productName d) (sc_quantity d)
         (sc_customerId d) (sc_saleDate d) (sc_totalSalePrice d) (sc_note d).

(** The product name a sale edit is computed against: the requested name
    when it counts as a change, the stored one otherwise. *)
Definition target_name (requested : option string) (old : string) : string :=
  match changed_name requested old with Some n => n | None => old end.

(** Statements that assign the [stock] column of existing rows, and
    statements whose [WHERE] clause tests the version. *)
Definition writes_stock (st : Statement) : bool :=
  match st with
  | UpdateProducts a _ _ _ => is_some (set_stock a)
  | _ => false
  end.

Definition version_conditioned (st : Statement) : bool :=
  match st with
  | UpdateProducts _ _ _ (Some _) => true
  | _ => false
  end.

(** The strict rule: whoever writes stock tests the version in the same
    statement. *)
Definition strict_discipline (st : Statement) : Prop :=
  writes_stock st = true -> version_conditioned st = true.

(** What each handler's [UPDATE products] looks like, for a request [r]
    arriving on connection [c] while the other connections commit [others].
    The sale handlers and [update_product_stock] assign the stock alone,
    to the value computed from the row they read, and test in the [WHERE]
    clause the version of that very row; [update_sale] reads the product
    the sale is moved away from inside its unit of work, the other rows
    before it.  [update_product] assigns the fields of the request and
    tests no version.  The other two handlers issue no such statement. *)
Definition statement_discipline (others : Database -> Database) (c : Connection)
    (r : Request) (st : Statement) : Prop :=
  match st with
  | UpdateProducts a id user ver =>
      match r with
      | CreateSale u d =>
          exists p,
            select_product_by_name u (sc_productName d) (store c) = Some p /\
            id = p_id p /\ user = u /\ ver = Some (p_version p) /\
            a = stock_only (p_stock p - sc_quantity d)
      | DeleteSale u sale_id =>
          exists s p,
            select_sale sale_id u (store c) = Some s /\
            select_product_by_name u (s_productName s) (store c) = Some p /\
            id = p_id p /\ user = u /\ ver = Some (p_version p) /\
            a = stock_only (p_stock p + s_quantity s)
      | UpdateSale u sale_id d =>
          exists s p,
            select_sale sale_id u (store c) = Some s /\
            id = p_id p /\ user = u /\ ver = Some (p_version p) /\
            ((select_product_by_name u (target_name (su_productName d) (s_productName s))
                (store c) = Some p /\
              a = stock_only
                    (p_stock p + (s_quantity s - or_keep (su_quantity d) (s_quantity s))))
             \/
             (select_product_by_name u (s_productName s) (store (begun others c)) = Some p /\
              a = stock_only (p_stock p + s_quantity s)))
      | UpdateProductStock u product_id d =>
          exists row,
            select_product product_id u (store c) = Some row /\
            id = product_id /\ user = u /\ ver = Some (psu_version d) /\
            psu_version d = version_or_1 (p_version row) /\
            a = stock_only (p_stock row + psu_quantity d)
      | UpdateProduct u product_id d =>
          ver = None /\ id = product_id /\ user = u /\ a = product_fields d
      | CreateProduct _ _ | DeleteProduct _ _ => False
      end
  | _ => True
  end.

(** [logged_since ok l0 l]: the log [l] extends [l0] by commits, rollbacks
    and statements that satisfy [ok]. *)
Inductive logged_since (ok : Statement -> Prop) (l0 : list Event) : list Event -> Prop :=
| since_now : logged_since ok l0 l0
| since_statement st n l :
    ok st -> logged_since ok l0 l -> logged_since ok l0 (Executed st n :: l)
| since_commit l : logged_since ok l0 l -> logged_since ok l0 (Committed :: l)
| since_rollback l : logged_since ok l0 l -> logged_since ok l0 (RolledBack :: l).

(** No product is below zero, and no sale has a negative quantity to give
    back. *)
Definition stock_ok (db : Database) : Prop :=
  (forall p, In p (products db) -> 0 <= p_stock p) /\
  (forall s, In s (sales db) -> 0 <= s_quantity s).

(** Requests that carry no negative stock and no negative quantity.  No
    handler checks either. *)
Definition nonnegative_request (r : Request) : Prop :=
  match r with
  | CreateSale _ d => 0 <= sc_quantity d
  | UpdateSale _ _ d => forall q, su_quantity d = Some q -> 0 <= q
  | CreateProduct _ d => 0 <= pc_stock d
  | UpdateProduct _ _ d => forall n, pu_stock d = Some n -> 0 <= n
  | DeleteSale _ _ | DeleteProduct _ _ | UpdateProductStock _ _ _ => True
  end.

(** Statements that write no negative stock and no negative quantity. *)
Definition good_statement (st : Statement) : Prop :=
  match st with
  | InsertSale _ d => 0 <= sc_quantity d
  | UpdateSales a _ _ => forall q, set_quantity a = Some q -> 0 <= q
  | InsertProduct _ d => 0 <= pc_stock d
  | UpdateProducts a _ _ _ => forall n, set_stock a = Some n -> 0 <= n
  | DeleteSales _ _ | DeleteProducts _ _ => True
  end.

(** The tables this connection works on, and the ones a rollback would
    bring back, are both in order. *)
Definition connection_ok (c : Connection) : Prop :=
  stock_ok (store c) /\ forall d, saved c = Some d -> stock_ok d.

(** [id] is the key of [products]. *)
Definition ids_unique (db : Database) : Prop := NoDup (map p_id (products db)).

(** What one request can do to the products table. *)
Inductive products_step (l : list Product) : list Product -> Prop :=
| ps_same : products_step l l
| ps_update a id user ver :
    products_step l (update_rows (product_where id user ver) (assign_product a) l)
| ps_update2 a1 id1 ver1 a2 id2 ver2 user :
    id1 <> id2 ->
    products_step l
      (update_rows (product_where id2 user ver2) (assign_product a2)
         (update_rows (product_where id1 user ver1) (assign_product a1) l))
| ps_delete id user :
    products_step l (delete_rows (product_where id user None) l)
| ps_insert row :
    p_id row = next_rowid (map p_id l) -> p_version row = 1 ->
    products_step l (l ++ [row]).

(** The row with a given id. *)
Definition by_id (pid : Z) (l : list Product) : option Product :=
  find (fun p => p_id p =? pid) l.

(** The row an [INSERT INTO products] adds. *)
Definition new_product (user : Z) (d : ProductCreate) (db : Database) : Product :=
  mkProduct (next_rowid (map p_id (products db))) user (pc_name d) (pc_description d)
            (pc_stock d) (pc_unit d) (pc_supplierId d) 1.

(** ** Concrete runs *)

Module Demo.
Open Scope string_scope.

Definition apples : Product := mkProduct 1 7 "apples" None 10 "kg" None 1.
Definition pears : Product := mkProduct 2 7 "pears" None 10 "kg" None 1.
Definition sold : Sale := mkSale 1 7 "apples" 5 (Some 3) None None None.
Definition shop : Database := mkDatabase [apples; pears] [sold] [(3, 7)] [].

Definition order : SaleCreate := mkSaleCreate "apples" 4 None None None None.

Definition walk_in : SaleUpdate := mkSaleUpdate None None (Some 0) None None None.
Definition stranger : SaleUpdate := mkSaleUpdate None None (Some 9) None None None.

Definition recount : ProductUpdate :=
  mkProductUpdate None None (Some 50) None None (Some 1).
Definition rename_only : SaleUpdate :=
  mkSaleUpdate (Some "pears") None None None None None.
Definition rename_more : SaleUpdate :=
  mkSaleUpdate (Some "pears") (Some 8) None None None None.

Definition busy_day : list Request :=
  [CreateSale 7 order; DeleteSale 7 1;
   UpdateProductStock 7 2 (mkProductStockUpdate (-4) 1);
   UpdateSale 7 2 rename_more].

Definition plums : ProductCreate := mkProductCreate "plums" None 20 "kg" None.
Definition plum_season : list Request :=
  [UpdateProductStock 7 3 (mkProductStockUpdate 5 1);
   UpdateProductStock 7 3 (mkProductStockUpdate 5 1);
   CreateSale 7 (mkSaleCreate "plums" 6 None None None None);
   UpdateProduct 8 3 (mkProductUpdate (Some "prunes") None None None None None);
   UpdateProduct 7 3 (mkProductUpdate (Some "prunes") None None None None None);
   DeleteSale 7 2].

(** The sale outlived its product. *)
Definition orphaned : Database := mkDatabase [pears] [sold] [] [].

End Demo.

(** *** Reading handlers *)

Definition get_sale (sale_id user_id : Z) : M Sale :=
  row <- query (select_sale sale_id user_id) ;;
  match row with
  | None => raise SaleNotFound
  | Some row => ret row
  end.

Definition get_product (product_id user_id : Z) : M Product :=
  row <- query (select_product product_id user_id) ;;
  match row with
  | None => raise ProductNotFound
  | Some row => ret (product_response row)
  end.

(** [if search:] and the like: a missing or empty string counts as absent. *)
Definition given (o : option string) : option string :=
  match o with
  | Some s => if String.eqb s "" then None else Some s
  | None => None
  end.

(** [ORDER BY]: insertion of each row in front of the first row it may
    precede. *)
Fixpoint insert_row {A} (first : A -> A -> bool) (x : A) (l : list A) : list A :=
  match l with
  | [] => [x]
  | y :: r => if first x y then x :: y :: r else y :: insert_row first x r
  end.

Definition order_by {A} (first : A -> A -> bool) (l : list A) : list A :=
  fold_right (insert_row first) [] l.

(** [LIMIT n]: a negative limit is no limit. *)
Definition limit {A} (n : Z) (l : list A) : list A :=
  if n <? 0 then l else firstn (Z.to_nat n) l.

(** [OFFSET n]: a negative offset is no offset. *)
Definition offset_rows {A} (n : Z) (l : list A) : list A := skipn (Z.to_nat n) l.

(** Comparison of two nullable text values, NULL below every text, text
    by bytes. *)
Definition compare_text (a b : option string) : comparison :=
  match a, b with
  | None, None => Eq
  | None, Some _ => Lt
  | Some _, None => Gt
  | Some x, Some y => String.compare x y
  end.

(** [ORDER BY saleDate DESC, id DESC] *)
Definition newest_first (a b : Sale) : bool :=
  match compare_text (s_saleDate a) (s_saleDate b) with
  | Gt => true
  | Lt => false
  | Eq => s_id b <=? s_id a
  end.

(** [ORDER BY name] *)
Definition by_name (a b : Product) : bool := String.leb (p_name a) (p_name b).

Record SalePage := mkSalePage {
  items : list Sale;
  total : Z;
  page : Z;
  page_size : Z;
  total_pages : Z
}.

Section Listing.

(** The [LIKE] operator and the [date()] function of the store, which the
    sources use and do not define: [like text pattern], and the date of a
    text, NULL when it has none. *)
Variable like : string -> string -> bool.
Variable date : string -> option string.

(** [date(saleDate) >= date(?)] and [date(saleDate) <= date(?)]; a NULL on
    either side keeps the row out. *)
Definition on_or_after (sale_date : option string) (bound : string) : bool :=
  match sale_date with
  | Some d =>
      match date d, date bound with
      | Some x, Some y => String.leb y x
      | _, _ => false
      end
  | None => false
  end.

Definition on_or_before (sale_date : option string) (bound : string) : bool :=
  match sale_date with
  | Some d =>
      match date d, date bound with
      | Some x, Some y => String.leb x y
      | _, _ => false
      end
  | None => false
  end.

(** The [WHERE] clause [get_sales] builds. *)
Definition sales_where (user_id : Z) (search start_date end_date : option string)
    (customer_id : option Z) (s : Sale) : bool :=
  (s_userId s =? user_id)
  && match given search with
     | Some k => like (s_productName s) ("%" ++ k ++ "%")
     | None => true
     end
  && match given start_date with
     | Some d => on_or_after (s_saleDate s) d
     | None => true
     end
  && match given end_date with
     | Some d => on_or_before (s_saleDate s) d
     | None => true
     end
  && match customer_id with
     | Some cid =>
         if cid =? 0
         then match s_customerId s with Some k => k =? 0 | None => true end
         else match s_customerId s with Some k => k =? cid | None => false end
     | None => true
     end.

(** A page size of 0 divides by zero, which the handler's [except
    Exception] turns into status 500. *)
Definition get_sales (page page_size : Z) (search start_date end_date : option string)
    (customer_id : option Z) (user_id : Z) : M SalePage :=
  matching <- query (fun db =>
    filter (sales_where user_id search start_date end_date customer_id) (sales db)) ;;
  let total := Z.of_nat (List.length matching) in
  let offset := (page - 1) * page_size in
  if page_size =? 0 then raise Unexpected
  else
    let total_pages := (total + page_size - 1) / page_size in
    let rows := limit page_size (offset_rows offset (order_by newest_first matching)) in
    ret (mkSalePage rows total page page_size total_pages).

(** [search_all_products]: the matching products of the caller by name,
    at most 50, and their number. *)
Definition products_like (user_id : Z) (pattern : string) (p : Product) : bool :=
  (p_userId p =? user_id)
  && (like (p_name p) pattern
      || match p_description p with Some d => like d pattern | None => false end).

Definition search_all_products (search : string) (user_id : Z) : M (list Product * Z) :=
  rows <- query (fun db =>
    limit 50 (order_by by_name
                (filter (products_like user_id ("%" ++ search ++ "%")) (products db)))) ;;
  let products := map product_response rows in
  ret (products, Z.of_nat (List.length products)).

End Listing.

(** ** Vocabulary of further properties *)

Definition customer_known (cid : option Z) (user : Z) (db : Database) : Prop :=
  match cid with
  | Some id => exists_owned id user (customers db) = true
  | None => True
  end.


Definition version_current (d : ProductUpdate) (p : Product) : Prop :=
  match pu_version d with
  | Some v => v = version_or_1 (p_version p)
  | None => True
  end.

Definition update_checked (d : ProductUpdate) (p : Product) (user : Z) (db : Database) : Prop :=
  match pu_version d with
  | Some v => v = version_or_1 (p_version p)
  | None => True
  end /\
  match changed_name (pu_name d) (p_name p) with
  | Some n => select_other_product_by_name user n (p_id p) db = None
  | None => True
  end /\
  match pu_supplierId d with
  | Some sid =>
      differs sid (p_supplierId p) && negb (sid =? 0) = true ->
      exists_owned sid user (suppliers db) = true
  | None => True
  end /\
  no_product_fields (product_fields d) = false.

Definition page_items (r : Result SalePage * Connection) : list Sale :=
  match fst r with
  | Ok pg => items pg
  | Raise _ => []
  end.

Definition product_key (p : Product) : Z * string := (p_userId p, p_name p).

Definition names_unique (db : Database) : Prop :=
  NoDup (map product_key (products db)).

Definition named_request (r : Request) : Prop :=
  match r with
  | UpdateProduct _ _ d => pu_name d <> Some ""%string
  | _ => True
  end.

(** The integers the store holds in an [INTEGER] column and the driver
    binds to a statement.  The model computes with unbounded integers. *)
Definition int64 (z : Z) : Prop := - 2 ^ 63 <= z < 2 ^ 63.

(** Whether the caller's product of that name is the product [pid]. *)
Definition names_product (user : Z) (name : string) (pid : Z) (db : Database) : bool :=
  match select_product_by_name user name db with
  | Some p => p_id p =? pid
  | None => false
  end.

Definition one_if (b : bool) : Z := if b then 1 else 0.

(** The mutations of product [pid] a request stands for on the tables [db]:
    a stock adjustment or a general update of that product; a sale of it
    created or deleted; a sale edit that changes the quantity, for the
    product the edit is computed against and, when the sale moves, for the
    product it leaves.  A sale edit that keeps the quantity changes no
    stock. *)
Definition mutations_asked (pid : Z) (r : Request) (db : Database) : Z :=
  match r with
  | UpdateProductStock _ id _ | UpdateProduct _ id _ => one_if (id =? pid)
  | CreateSale u d => one_if (names_product u (sc_productName d) pid db)
  | DeleteSale u sale_id =>
      match select_sale sale_id u db with
      | Some s => one_if (names_product u (s_productName s) pid db)
      | None => 0
      end
  | UpdateSale u sale_id d =>
      match select_sale sale_id u db with
      | Some s =>
          if or_keep (su_quantity d) (s_quantity s) =? s_quantity s then 0
          else one_if (names_product u (target_name (su_productName d) (s_productName s))
                                     pid db)
               + match changed_name (su_productName d) (s_productName s) with
                 | Some _ => one_if (names_product u (s_productName s) pid db)
                 | None => 0
                 end
      | None => 0
      end
  | CreateProduct _ _ | DeleteProduct _ _ => 0
  end.

(** The mutations of product [pid] among the requests of [rs] that are
    answered with success, served one after the other from [c]. *)
Fixpoint successful_mutations (pid : Z) (rs : list Request) (c : Connection) : Z :=
  match rs with
  | [] => 0
  | r :: rs' =>
      match fst (handle alone r c) with
      | Ok _ => mutations_asked pid r (store c)
      | Raise _ => 0
      end + successful_mutations pid rs' (serve alone r c)
  end.

(** Requests other than the deletion of product [pid]. *)
Definition keeps_product (pid : Z) (r : Request) : Prop :=
  match r with
  | DeleteProduct _ id => id <> pid
  | _ => True
  end.

Definition versions_positive (db : Database) : Prop :=
  forall p, In p (products db) -> 1 <= p_version p.

(** The stock and the quantity a statement binds are within the store's
    integers. *)
Definition binds_int64 (st : Statement) : Prop :=
  match st with
  | InsertSale _ d => int64 (sc_quantity d)
  | UpdateSales a _ _ => forall q, set_quantity a = Some q -> int64 q
  | InsertProduct _ d => int64 (pc_stock d)
  | UpdateProducts a _ _ _ => forall n, set_stock a = Some n -> int64 n
  | DeleteSales _ _ | DeleteProducts _ _ => True
  end.

(** The rows of the other users. *)
Definition foreign (user : Z) (db : Database) : list Product * list Sale :=
  (filter (fun p => negb (p_userId p =? user)) (products db),
   filter (fun s => negb (s_userId s =? user)) (sales db)).

(** The user a request is made by. *)
Definition request_user (r : Request) : Z :=
  match r with
  | CreateSale u _ | UpdateSale u _ _ | DeleteSale u _
  | CreateProduct u _ | UpdateProduct u _ _ | DeleteProduct u _
  | UpdateProductStock u _ _ => u
  end.

(** The user a statement is scoped to. *)
Definition statement_user (st : Statement) : Z :=
  match st with
  | InsertSale u _ | UpdateSales _ _ u | DeleteSales _ u
  | InsertProduct u _ | UpdateProducts _ _ u _ | DeleteProducts _ u => u
  end.

(** ** Further concrete runs *)

Module Scenes.
Open Scope string_scope.

(** Another connection recounts the apples while a request is between its
    reads and its first write. *)
Definition rival (db : Database) : Database :=
  fst (apply_statement (UpdateProducts (stock_only 3) 1 7 None) db).


Definition too_many : SaleCreate := mkSaleCreate "apples" 11 None None None None.
Definition nothing : SaleUpdate := mkSaleUpdate None None None None None None.
Definition take_three : ProductStockUpdate := mkProductStockUpdate (-3) 1.
Definition stale_recount : ProductUpdate :=
  mkProductUpdate None None (Some 50) None None (Some 4).
Definition write_off : ProductUpdate :=
  mkProductUpdate None None (Some (-5)) None None None.
Definition returned : SaleCreate := mkSaleCreate "apples" (-20) None None None None.
Definition cleared : SaleCreate := mkSaleCreate "apples" 30 None None None None.
Definition returns : list Request :=
  [CreateSale 7 returned; CreateSale 7 cleared; DeleteSale 7 2].
Definition to_plums : ProductUpdate :=
  mkProductUpdate (Some "plums") None None None None None.

(** Another connection registers plums in the meantime. *)
Definition planter (db : Database) : Database :=
  fst (apply_statement (InsertProduct 7 Demo.plums) db).

(** The connection that has served one sale of apples. *)
Definition after_sale : Connection := serve alone (CreateSale 7 Demo.order) (connect Demo.shop).
Definition restock : ProductStockUpdate := mkProductStockUpdate 4 2.
Definition take_three_more : ProductStockUpdate := mkProductStockUpdate (-3) 2.

(** Another connection serves the restock in the meantime. *)
Definition meanwhile (db : Database) : Database :=
  store (serve alone (UpdateProductStock 7 1 restock) (connect db)).

(** An update to the empty name, which [update_product] does not take for
    a change of name, and the connection that has served it for the
    pears. *)
Definition unname : ProductUpdate := mkProductUpdate (Some "") None None None None None.
Definition one_unnamed : Connection := serve alone (UpdateProduct 7 2 unname) (connect Demo.shop).

Definition from_nowhere : ProductCreate := mkProductCreate "plums" None 20 "kg" (Some 0).

(** Two users with a product of the same name. *)
Definition market : Database :=
  mkDatabase [Demo.apples; Demo.pears; mkProduct 3 8 "apples" None 4 "kg" None 1]
             [Demo.sold; mkSale 2 8 "apples" 1 None None None None]
             [(3, 7)] [].

(** Stand-ins for the store's [LIKE] and [date()]. *)
Definition any_text (text pattern : string) : bool := true.
Definition as_written (text : string) : option string := Some text.

End Scenes.

(** * Properties *)

(** ** Reasoning about handlers *)

Lemma wp_run {A} (m : M A) Q c r c' : wp m Q c -> m c = (r, c') -> Q r c'.
Proof. unfold wp. intros H E. rewrite E in H. exact H. Qed.

Lemma wp_value {A} (m : M A) c x : wp m (fun r c' => (r, c') = x) c -> m c = x.
Proof. unfold wp. destruct (m c). exact (fun H => H). Qed.

Lemma wp_ret {A} (a : A) (Q : Result A -> Connection -> Prop) c :
  Q (Ok a) c -> wp (ret a) Q c.
Proof. exact (fun H => H). Qed.

Lemma wp_raise {A} e (Q : Result A -> Connection -> Prop) c :
  Q (Raise e) c -> wp (raise e) Q c.
Proof. exact (fun H => H). Qed.

Lemma wp_query {A} (q : Database -> A) (Q : Result A -> Connection -> Prop) c :
  Q (Ok (q (store c))) c -> wp (query q) Q c.
Proof. exact (fun H => H). Qed.

Lemma wp_get_total_changes (Q : Result Z -> Connection -> Prop) c :
  Q (Ok (total_changes c)) c -> wp get_total_changes Q c.
Proof. exact (fun H => H). Qed.

Lemma wp_bind {A B} (m : M A) (k : A -> M B) (Q : Result B -> Connection -> Prop) c :
  wp m (fun r c' => match r with
                    | Ok a => wp (k a) Q c'
                    | Raise e => Q (Raise e) c'
                    end) c ->
  wp (bind m k) Q c.
Proof.
  unfold wp, bind. destruct (m c) as [[a|e] c']; simpl; intros H; exact H.
Qed.

Lemma wp_try_except {A} (m : M A) (h : Detail -> M A) (Q : Result A -> Connection -> Prop) c :
  wp m (fun r c' => match r with
                    | Ok a => Q (Ok a) c'
                    | Raise e => wp (h e) Q c'
                    end) c ->
  wp (try_except m h) Q c.
Proof.
  unfold wp, try_except. destruct (m c) as [[a|e] c']; simpl; intros H; exact H.
Qed.

Lemma wp_when (b : bool) (m : M unit) (Q : Result unit -> Connection -> Prop) c :
  (b = true -> wp m Q c) -> (b = false -> Q (Ok tt) c) -> wp (when b m) Q c.
Proof. destruct b; intros H1 H2; [apply H1 | apply H2]; reflexivity. Qed.

Lemma wp_fetched {A} (o : option A) (Q : Result A -> Connection -> Prop) c :
  (forall r, o = Some r -> Q (Ok r) c) -> (o = None -> Q (Raise Unexpected) c) ->
  wp (fetched o) Q c.
Proof. destruct o; intros H1 H2; [apply H1 | apply H2]; reflexivity. Qed.

Section HandlerRules.

Variable others : Database -> Database.

Lemma wp_execute st (Q : Result Cursor -> Connection -> Prop) c :
  (breaks_unique st (store (begun others c)) = false ->
   Q (Ok (cursor_of others st c)) (executed others st c)) ->
  (breaks_unique st (store (begun others c)) = true ->
   Q (Raise Unexpected) (begun others c)) ->
  wp (execute others st) Q c.
Proof.
  unfold wp, execute, run_statement.
  destruct (breaks_unique st (store (begun others c))); intros H1 H2;
    [apply H2 | apply H1]; reflexivity.
Qed.

Lemma wp_commit (Q : Result unit -> Connection -> Prop) c :
  Q (Ok tt) (committed c) -> wp commit Q c.
Proof. exact (fun H => H). Qed.

Lemma wp_rollback (Q : Result unit -> Connection -> Prop) c :
  Q (Ok tt) (rolled_back c) -> wp rollback Q c.
Proof. exact (fun H => H). Qed.

Lemma store_executed st c :
  store (executed others st c) = fst (apply_statement st (store (begun others c))).
Proof. reflexivity. Qed.

Lemma saved_executed st c :
  saved (executed others st c) = saved (begun others c).
Proof. reflexivity. Qed.

Lemma saved_begun c : exists d, saved (begun others c) = Some d.
Proof.
  unfold begun. destruct (saved c) as [d|] eqn:E.
  - exists d. exact E.
  - eexists. reflexivity.
Qed.

Lemma begun_idem c : begun others (begun others c) = begun others c.
Proof. unfold begun. destruct (saved c) eqn:E; simpl; [rewrite E|]; reflexivity. Qed.

Lemma begun_executed st c :
  begun others (executed others st c) = executed others st c.
Proof.
  unfold begun at 1. rewrite saved_executed.
  destruct (saved_begun c) as [d ->]. reflexivity.
Qed.

End HandlerRules.

Ltac wp_step :=
  lazymatch goal with
  | |- wp (bind _ _) _ _ => apply wp_bind
  | |- wp (query _) _ _ => apply wp_query
  | |- wp (ret _) _ _ => apply wp_ret
  | |- wp (raise _) _ _ => apply wp_raise
  | |- wp get_total_changes _ _ => apply wp_get_total_changes
  | |- wp (try_except _ _) _ _ => apply wp_try_except
  | |- wp (execute _ _) _ _ =>
      apply wp_execute;
      [intros _ | first [ intros Hbreaks; discriminate Hbreaks | intros ? ] ]
  | |- wp commit _ _ => apply wp_commit
  | |- wp rollback _ _ => apply wp_rollback
  | |- wp (when _ _) _ _ => apply wp_when; intros ?
  | |- wp (fetched _) _ _ => apply wp_fetched; [intros ? ? | intros ?]
  | |- wp (match ?o with Some _ => _ | None => _ end) _ _ => destruct o eqn:?
  | |- wp (let _ := _ in _) _ _ => cbv zeta
  end; cbv beta.

Ltac wp_steps := repeat wp_step.

(** Boolean tests of the handlers, read as propositions. *)
Ltac tests :=
  repeat match goal with
  | H : (_ <? _) = true |- _ => apply Z.ltb_lt in H
  | H : (_ <? _) = false |- _ => apply Z.ltb_ge in H
  | H : (_ >? _) = true |- _ => rewrite Z.gtb_ltb in H
  | H : (_ >? _) = false |- _ => rewrite Z.gtb_ltb in H
  | H : (_ =? _) = true |- _ => apply Z.eqb_eq in H
  | H : (_ =? _) = false |- _ => apply Z.eqb_neq in H
  | H : negb _ = true |- _ => apply negb_true_iff in H
  | H : negb _ = false |- _ => apply negb_false_iff in H
  | H : (_ && _) = true |- _ => apply andb_true_iff in H; destruct H
  end.

(** ** Tables as lists *)

Lemma find_update_rows {A} (pred f : A -> bool) (g : A -> A) (l : list A) :
  (forall x, pred (g x) = pred x) ->
  find pred (update_rows f g l) =
  option_map (fun x => if f x then g x else x) (find pred l).
Proof.
  intros Hg. unfold update_rows. induction l as [|x l IH]; simpl; [reflexivity|].
  assert (E : pred (if f x then g x else x) = pred x)
    by (destruct (f x); [apply Hg | reflexivity]).
  rewrite E. destruct (pred x); [reflexivity | exact IH].
Qed.

Lemma count_rows_nonneg {A} (f : A -> bool) (l : list A) : 0 <= count_rows f l.
Proof. unfold count_rows. lia. Qed.

Lemma count_rows_pos {A} (f : A -> bool) (l : list A) (x : A) :
  In x l -> f x = true -> 0 < count_rows f l.
Proof.
  intros Hin Hf. unfold count_rows.
  assert (H : In x (filter f l)) by (apply filter_In; split; assumption).
  destruct (filter f l); [destruct H | simpl; lia].
Qed.

Lemma fold_max_ge (x : Z) (r : list Z) : x <= fold_right Z.max x r.
Proof. induction r; simpl; lia. Qed.

Lemma fold_max_In (x y : Z) (r : list Z) : In y r -> y <= fold_right Z.max x r.
Proof.
  induction r as [|z r IH]; simpl; [tauto|].
  intros [->|H]; [lia | specialize (IH H); lia].
Qed.

Lemma next_rowid_fresh (ids : list Z) (x : Z) : In x ids -> x < next_rowid ids.
Proof.
  destruct ids as [|y r]; [intros []|].
  unfold next_rowid. intros [E|H].
  - pose proof (fold_max_ge y r). lia.
  - pose proof (fold_max_In y x r H). lia.
Qed.

Lemma find_app_last {A} (pred : A -> bool) (l : list A) (y : A) :
  (forall x, In x l -> pred x = false) -> pred y = true ->
  find pred (l ++ [y]) = Some y.
Proof.
  intros Hl Hy. induction l as [|x l IH]; simpl.
  - rewrite Hy. reflexivity.
  - rewrite (Hl x (or_introl eq_refl)). apply IH. intros z Hz. apply Hl. right. exact Hz.
Qed.

Lemma find_none_iff {A} (pred : A -> bool) (l : list A) :
  find pred l = None <-> forall x, In x l -> pred x = false.
Proof.
  split.
  - intros H x Hin. exact (find_none pred l H x Hin).
  - intros H. induction l as [|x l IH]; simpl; [reflexivity|].
    rewrite (H x (or_introl eq_refl)). apply IH. intros z Hz. apply H. right. exact Hz.
Qed.

(** ** Scoping by owner *)

Lemma select_sale_another_user sale_id user db :
  sale_of_another_user sale_id user db -> select_sale sale_id user db = None.
Proof.
  intros [_ H]. unfold select_sale. apply find_none_iff. intros s Hin.
  unfold sale_where. destruct (Z.eqb_spec (s_id s) sale_id) as [E|E]; [|reflexivity].
  simpl. apply Z.eqb_neq. exact (H s Hin E).
Qed.

Lemma select_product_another_user product_id user db :
  product_of_another_user product_id user db ->
  select_product product_id user db = None.
Proof.
  intros [_ H]. unfold select_product. apply find_none_iff. intros p Hin.
  unfold product_where. destruct (Z.eqb_spec (p_id p) product_id) as [E|E]; [|reflexivity].
  simpl. rewrite andb_true_r. apply Z.eqb_neq. exact (H p Hin E).
Qed.

(** C8. A mutating request that names an existing sale of a different
    user is answered 404 (kind [NotFound]) by [update_sale] and
    [delete_sale], and one that names an existing product of a different
    user is answered 404 by [update_product_stock], [update_product] and
    [delete_product], whatever the request body and whatever the other
    connections do; the connection, tables included, is left exactly as it
    was. *)
Theorem wrong_owner_is_not_found
    (others : Database -> Database) (c : Connection) (user : Z) :
  (forall sale_id sale_data,
     sale_of_another_user sale_id user (store c) ->
     update_sale others sale_id sale_data user c = (Raise SaleNotFound, c)) /\
  (forall sale_id,
     sale_of_another_user sale_id user (store c) ->
     delete_sale others sale_id user c = (Raise SaleNotFound, c)) /\
  (forall product_id stock_data,
     product_of_another_user product_id user (store c) ->
     update_product_stock others product_id stock_data user c = (Raise ProductNotFound, c)) /\
  (forall product_id product_data,
     product_of_another_user product_id user (store c) ->
     update_product others product_id product_data user c = (Raise ProductNotFound, c)) /\
  (forall product_id,
     product_of_another_user product_id user (store c) ->
     delete_product others product_id user c = (Raise ProductNotFound, c)) /\
  error_kind SaleNotFound = NotFound /\ error_kind ProductNotFound = NotFound /\
  status_code SaleNotFound = 404 /\ status_code ProductNotFound = 404.
Proof.
  repeat split.
  1, 2: intros sale_id; intros;
    unfold update_sale, delete_sale, bind, query, raise;
    rewrite (select_sale_another_user sale_id user (store c)) by assumption; reflexivity.
  all: intros product_id; intros;
    unfold update_product_stock, update_product, delete_product, bind, query, raise;
    rewrite (select_product_another_user product_id user (store c)) by assumption;
    reflexivity.
Qed.

Lemma wrong_owner_is_not_found_witness :
  update_sale alone 1 Demo.walk_in 8 (connect Demo.shop)
    = (Raise SaleNotFound, connect Demo.shop) /\
  delete_sale alone 1 8 (connect Demo.shop)
    = (Raise SaleNotFound, connect Demo.shop) /\
  update_product_stock alone 2 (mkProductStockUpdate 1 1) 8 (connect Demo.shop)
    = (Raise ProductNotFound, connect Demo.shop) /\
  update_product alone 2 Demo.recount 8 (connect Demo.shop)
    = (Raise ProductNotFound, connect Demo.shop) /\
  delete_product alone 2 8 (connect Demo.shop)
    = (Raise ProductNotFound, connect Demo.shop).
Proof.
  assert (Hs : sale_of_another_user 1 8 (store (connect Demo.shop))).
  { split.
    - exists Demo.sold. split; [left; reflexivity | reflexivity].
    - intros s [<-|[]] _. vm_compute. discriminate. }
  assert (Hp : product_of_another_user 2 8 (store (connect Demo.shop))).
  { split.
    - exists Demo.pears. split; [right; left; reflexivity | reflexivity].
    - intros p [<-|[<-|[]]] _; vm_compute; discriminate. }
  destruct (wrong_owner_is_not_found alone (connect Demo.shop) 8)
    as (H1 & H2 & H3 & H4 & H5 & _).
  split; [exact (H1 1 Demo.walk_in Hs)|].
  split; [exact (H2 1 Hs)|].
  split; [exact (H3 2 (mkProductStockUpdate 1 1) Hp)|].
  split; [exact (H4 2 Demo.recount Hp) | exact (H5 2 Hp)].
Defined.

(** ** Sales against short stock *)

(** C4. When [create_sale] is refused for insufficient stock, the
    product's stock was below the requested quantity and the connection is
    exactly as before the call: no sale row was inserted, and the product's
    stock and version are the ones it had. *)
Theorem create_sale_short_stock_changes_nothing
    (others : Database -> Database) (sale_data : SaleCreate) (user : Z)
    (c c' : Connection) (e : Detail) :
  create_sale others sale_data user c = (Raise e, c') ->
  error_kind e = InsufficientStock ->
  c' = c /\
  exists p, select_product_by_name user (sc_productName sale_data) (store c) = Some p /\
            p_stock p < sc_quantity sale_data.
Proof.
  intros Hrun Hkind.
  refine (wp_run _ (fun r c1 => forall e1, r = Raise e1 ->
            error_kind e1 = InsufficientStock -> c1 = c /\ _) c _ _ _ Hrun e eq_refl Hkind).
  clear. unfold create_sale.
  wp_steps.
  all: try (intros e1 E1 K1; inversion E1; subst; try discriminate K1).
  all: try discriminate.
  all: tests.
  - split; [reflexivity|]. exists p. split; [reflexivity | assumption].
  - exfalso. lia.
  - exfalso. lia.
Qed.

Lemma create_sale_short_stock_changes_nothing_witness :
  connect Demo.shop = connect Demo.shop /\
  exists p, select_product_by_name 7 "apples" Demo.shop = Some p /\ p_stock p < 11.
Proof.
  apply (create_sale_short_stock_changes_nothing alone
           (mkSaleCreate "apples" 11 None None None None) 7
           (connect Demo.shop) (connect Demo.shop) (StockShort 10 11));
    reflexivity.
Defined.

(** ** Requests served one after the other *)

Lemma store_begun_alone c : store (begun alone c) = store c.
Proof. unfold begun. destruct (saved c); reflexivity. Qed.

Lemma store_executed_alone st c :
  store (executed alone st c) = fst (apply_statement st (store c)).
Proof. rewrite store_executed, store_begun_alone. reflexivity. Qed.

Lemma log_executed others st c :
  log (executed others st c) = Executed st (rowcount (cursor_of others st c)) :: log c.
Proof. unfold executed, begun. destruct (saved c); reflexivity. Qed.

Lemma select_product_by_name_some user name db p :
  select_product_by_name user name db = Some p ->
  In p (products db) /\ p_userId p = user /\ p_name p = name.
Proof.
  unfold select_product_by_name. intros H. apply find_some in H.
  destruct H as [Hin H]. apply andb_true_iff in H. destruct H as [Hu Hn].
  apply Z.eqb_eq in Hu. apply String.eqb_eq in Hn. auto.
Qed.

Lemma product_where_self p user :
  p_userId p = user -> product_where (p_id p) user (Some (p_version p)) p = true.
Proof.
  intros <-. unfold product_where. rewrite !Z.eqb_refl. reflexivity.
Qed.

Lemma rowcount_update_own_row c user name p a :
  select_product_by_name user name (store c) = Some p ->
  rowcount (cursor_of alone (UpdateProducts a (p_id p) user (Some (p_version p))) c) <> 0.
Proof.
  intros H. apply select_product_by_name_some in H. destruct H as (Hin & Hu & _).
  unfold cursor_of. rewrite store_begun_alone. simpl.
  pose proof (count_rows_pos _ _ p Hin (product_where_self p user Hu)). lia.
Qed.

Lemma delete_sale_with_product c sale_id user s p :
  select_sale sale_id user (store c) = Some s ->
  select_product_by_name user (s_productName s) (store c) = Some p ->
  delete_sale alone sale_id user c =
    (Ok tt, committed (executed alone (DeleteSales sale_id user)
              (executed alone (UpdateProducts (stock_only (p_stock p + s_quantity s)) (p_id p) user (Some (p_version p))) c))).
Proof.
  intros Hs Hp. apply wp_value. unfold delete_sale.
  wp_step. wp_step. rewrite Hs. wp_step. wp_step. wp_step. rewrite Hp.
  wp_steps.
  - tests. exfalso. revert H. apply (rowcount_update_own_row c user _ p _ Hp).
  - reflexivity.
Qed.

Lemma delete_sale_without_product others c sale_id user s :
  select_sale sale_id user (store c) = Some s ->
  select_product_by_name user (s_productName s) (store c) = None ->
  delete_sale others sale_id user c =
    (Ok tt, committed (executed others (DeleteSales sale_id user) c)).
Proof.
  intros Hs Hp. apply wp_value. unfold delete_sale.
  wp_step. wp_step. rewrite Hs. wp_step. wp_step. wp_step. rewrite Hp.
  wp_steps. reflexivity.
Qed.

Lemma find_delete_rows {A} (f : A -> bool) (l : list A) :
  find f (delete_rows f l) = None.
Proof.
  apply find_none_iff. intros x Hin. unfold delete_rows in Hin.
  apply filter_In in Hin. destruct Hin as [_ H]. apply negb_true_iff. exact H.
Qed.

Lemma select_by_name_updated user name a id ver db p :
  set_name a = None ->
  select_product_by_name user name db = Some p ->
  product_where id user ver p = true ->
  select_product_by_name user name (fst (apply_statement (UpdateProducts a id user ver) db))
  = Some (assign_product a p).
Proof.
  intros Ha Hp Hw. unfold select_product_by_name in *. simpl.
  rewrite find_update_rows.
  - rewrite Hp. simpl. rewrite Hw. reflexivity.
  - intros x. simpl. rewrite Ha. reflexivity.
Qed.

(** ** Deleting a sale *)



Lemma select_new_sale_by_id user d db :
  select_sale_by_id (next_rowid (map s_id (sales db)))
    (fst (apply_statement (InsertSale user d) db)) = Some (new_sale user d db).
Proof.
  unfold select_sale_by_id. simpl. apply find_app_last.
  - intros x Hin. apply Z.eqb_neq.
    pose proof (next_rowid_fresh (map s_id (sales db)) (s_id x) (in_map s_id _ _ Hin)). lia.
  - simpl. apply Z.eqb_refl.
Qed.

Lemma create_sale_alone_ok c d user s c1 :
  create_sale alone d user c = (Ok s, c1) ->
  exists p,
    select_product_by_name user (sc_productName d) (store c) = Some p /\
    sc_quantity d <= p_stock p /\
    s = new_sale user d (store c) /\
    c1 = committed
           (executed alone
              (UpdateProducts (stock_only (p_stock p - sc_quantity d)) (p_id p) user
                              (Some (p_version p)))
              (executed alone (InsertSale user d) c)).
Proof.
  intros Hrun.
  refine (wp_run _ (fun r c1 => forall s, r = Ok s -> _) c _ _ _ Hrun s eq_refl).
  clear. unfold create_sale. wp_steps.
  all: try discriminate.
  all: intros s E; inversion E; subst; clear E; tests.
  all: exists p; split; [reflexivity|]; split; [assumption|]; split; [|reflexivity].
  all: match goal with
       | H : select_sale_by_id _ _ = Some _ |- _ =>
           pose proof (select_new_sale_by_id user d (store c)) as N;
           unfold cursor_of in H; cbn [committed store] in H;
           rewrite !store_executed_alone, store_begun_alone in H;
           cbn [apply_statement snd lastrowid] in H;
           unfold select_sale_by_id in H, N; cbn [apply_statement fst with_products sales] in H, N;
           rewrite N in H; inversion H; reflexivity
       end.
Qed.

Lemma delete_rows_app_last {A} (f : A -> bool) (l : list A) (y : A) :
  (forall x, In x l -> f x = false) -> f y = true -> delete_rows f (l ++ [y]) = l.
Proof.
  intros Hl Hy. unfold delete_rows. rewrite filter_app. simpl. rewrite Hy. simpl.
  rewrite app_nil_r. induction l as [|x l IH]; simpl; [reflexivity|].
  rewrite (Hl x (or_introl eq_refl)). simpl. f_equal. apply IH.
  intros z Hz. apply Hl. right. exact Hz.
Qed.

Lemma new_sale_where user d db :
  sale_where (s_id (new_sale user d db)) user (new_sale user d db) = true.
Proof. unfold sale_where. simpl. rewrite !Z.eqb_refl. reflexivity. Qed.

Lemma old_sale_where user d db x :
  In x (sales db) -> sale_where (s_id (new_sale user d db)) user x = false.
Proof.
  intros Hin. unfold sale_where. simpl.
  pose proof (next_rowid_fresh (map s_id (sales db)) (s_id x) (in_map s_id _ _ Hin)).
  destruct (Z.eqb_spec (s_id x) (next_rowid (map s_id (sales db)))); [lia | reflexivity].
Qed.

(** ** A sale and its deletion *)

(** C7. With no request in between, [create_sale] followed by
    [delete_sale] of the sale it created leaves the product the sale names
    with the stock it had before the sale: the sale takes its quantity out
    of that row, the deletion succeeds and puts it back.  The sales table
    is the one from before as well. *)
Theorem create_then_delete_restores_stock
    (c c1 : Connection) (sale_data : SaleCreate) (user : Z) (s : Sale) (p : Product) :
  select_product_by_name user (sc_productName sale_data) (store c) = Some p ->
  create_sale alone sale_data user c = (Ok s, c1) ->
  exists c2 p1 p2,
    select_product_by_name user (sc_productName sale_data) (store c1) = Some p1 /\
    p_stock p1 = p_stock p - sc_quantity sale_data /\
    delete_sale alone (s_id s) user c1 = (Ok tt, c2) /\
    select_product_by_name user (sc_productName sale_data) (store c2) = Some p2 /\
    p_stock p2 = p_stock p /\
    p_id p2 = p_id p /\
    sales (store c2) = sales (store c).
Proof.
  intros Hp Hrun.
  destruct (create_sale_alone_ok c sale_data user s c1 Hrun) as (p' & Hp' & Hq & -> & ->).
  rewrite Hp in Hp'. inversion Hp'; subst p'; clear Hp'.
  destruct (select_product_by_name_some _ _ _ _ Hp) as (Hin & Hu & Hn).
  set (sell := UpdateProducts (stock_only (p_stock p - sc_quantity sale_data))
                 (p_id p) user (Some (p_version p))).
  set (c1 := committed (executed alone sell (executed alone (InsertSale user sale_data) c))).
  set (p1 := assign_product (stock_only (p_stock p - sc_quantity sale_data)) p).
  assert (Hp1 : select_product_by_name user (sc_productName sale_data) (store c1) = Some p1).
  { subst c1. cbn [committed store]. rewrite !store_executed_alone.
    apply select_by_name_updated; [reflexivity | exact Hp |].
    apply product_where_self. exact Hu. }
  assert (Hs1 : select_sale (s_id (new_sale user sale_data (store c))) user (store c1)
                = Some (new_sale user sale_data (store c))).
  { subst c1. cbn [committed store]. rewrite !store_executed_alone.
    unfold select_sale. cbn [apply_statement fst with_products with_sales sales].
    apply find_app_last; [apply old_sale_where | apply new_sale_where]. }
  eexists. exists p1. eexists.
  split; [exact Hp1|]. split; [reflexivity|].
  split; [apply (delete_sale_with_product c1 _ user _ p1 Hs1 Hp1)|].
  cbn [committed store]. rewrite !store_executed_alone.
  split; [|split; [|split]].
  - transitivity (select_product_by_name user (sc_productName sale_data)
      (fst (apply_statement
              (UpdateProducts (stock_only (p_stock p1 + s_quantity (new_sale user sale_data (store c))))
                              (p_id p1) user (Some (p_version p1))) (store c1))));
      [reflexivity|].
    apply select_by_name_updated; [reflexivity | exact Hp1 |].
    apply product_where_self. exact Hu.
  - simpl. lia.
  - reflexivity.
  - subst c1. cbn [committed store]. rewrite !store_executed_alone.
    cbn [apply_statement fst with_products with_sales sales].
    apply delete_rows_app_last; [apply old_sale_where | apply new_sale_where].
Qed.

Lemma create_then_delete_restores_stock_witness :
  exists c2 p2,
    delete_sale alone 2 7 (snd (create_sale alone Demo.order 7 (connect Demo.shop)))
      = (Ok tt, c2) /\
    select_product_by_name 7 "apples" (store c2) = Some p2 /\
    p_stock p2 = 10.
Proof.
  destruct (create_then_delete_restores_stock (connect Demo.shop)
              (snd (create_sale alone Demo.order 7 (connect Demo.shop)))
              Demo.order 7 (mkSale 2 7 "apples" 4 None None None None)
              Demo.apples eq_refl eq_refl)
    as (c2 & p1 & p2 & _ & _ & H1 & H2 & H3 & _).
  exists c2, p2. repeat split; assumption.
Defined.

(** ** Customer reference of an edited sale *)

Section CustomerReference.

Variable others : Database -> Database.

Lemma wp_raises {A} (m : M A) c (P : Detail -> Prop) :
  wp m (fun r c' => exists e, r = Raise e /\ c' = c /\ P e) c ->
  exists e, m c = (Raise e, c) /\ P e.
Proof.
  unfold wp. destruct (m c) as [r c']. simpl. intros (e & -> & -> & H). eauto.
Qed.

Lemma store_executed_twice st2 st1 c :
  store (executed others st2 (executed others st1 c)) =
  fst (apply_statement st2 (store (executed others st1 c))).
Proof. rewrite store_executed, begun_executed. reflexivity. Qed.

Lemma In_update_rows {A} (f : A -> bool) (g : A -> A) (l : list A) (x : A) :
  (forall y, f (g y) = f y) ->
  In x (update_rows f g l) -> f x = true -> exists y, In y l /\ f y = true /\ x = g y.
Proof.
  intros Hg Hin Hf. unfold update_rows in Hin. apply in_map_iff in Hin.
  destruct Hin as (y & E & Hy). exists y. destruct (f y) eqn:Fy.
  - auto.
  - subst x. congruence.
Qed.

Lemma sale_where_assign a id user s :
  sale_where id user (assign_sale a s) = sale_where id user s.
Proof. reflexivity. Qed.

Lemma cleared_customer a id user l x :
  set_customerId a = Some None ->
  In x (update_rows (sale_where id user) (assign_sale a) l) ->
  sale_where id user x = true -> s_customerId x = None.
Proof.
  intros Ha Hin Hw.
  destruct (In_update_rows _ _ _ _ (sale_where_assign a id user) Hin Hw) as (y & _ & _ & ->).
  simpl. rewrite Ha. reflexivity.
Qed.

End CustomerReference.

(** C10. [update_sale] with customer id 0 never answers that the customer
    is unknown, and when it succeeds every sale row with the edited id and
    owner has no customer reference left.  With a nonzero customer id that
    is not a customer of the caller, [update_sale] always fails and leaves
    the connection untouched; the failure is the unknown-customer 400 (an
    invalid reference) as soon as the earlier checks pass, that is, the
    sale is found, the product the edit is computed against is found, and
    its stock covers the extra quantity. *)
Theorem update_sale_customer_reference
    (others : Database -> Database)
    (sale_id user : Z) (sale_data : SaleUpdate) (c : Connection) (cid : Z) :
  su_customerId sale_data = Some cid ->
  (cid = 0 ->
   forall r c', update_sale others sale_id sale_data user c = (r, c') ->
     r <> Raise CustomerUnknown /\
     (forall s, r = Ok s ->
        forall x, In x (sales (store c')) -> sale_where sale_id user x = true ->
                  s_customerId x = None)) /\
  (cid <> 0 -> exists_owned cid user (customers (store c)) = false ->
   exists e, update_sale others sale_id sale_data user c = (Raise e, c) /\
     (e = CustomerUnknown \/ e = SaleNotFound \/ error_kind e = InsufficientStock \/
      exists n, e = ProductNameUnknown n) /\
     (forall s p,
        select_sale sale_id user (store c) = Some s ->
        select_product_by_name user
          (target_name (su_productName sale_data) (s_productName s)) (store c) = Some p ->
        or_keep (su_quantity sale_data) (s_quantity s) - s_quantity s <= p_stock p ->
        e = CustomerUnknown /\ error_kind e = InvalidReference /\ status_code e = 400)).
Proof.
  intros Hc. split.
  - intros -> r c' Hrun.
    assert (Hset : set_customerId (sale_fields sale_data) = Some None)
      by (unfold sale_fields; simpl; rewrite Hc; reflexivity).
    refine (wp_run _ (fun r c' => r <> Raise CustomerUnknown /\ (forall s, r = Ok s -> _)) c _ _ _ Hrun).
    clear Hrun. unfold update_sale. rewrite Hc.
    wp_steps.
    all: try match goal with H : negb (0 =? 0) = true |- _ => discriminate H end.
    all: split; [discriminate|]; try discriminate.
    all: intros s1 _ x Hin Hw; cbn [committed store] in Hin;
      rewrite ?(store_executed_twice others) in Hin;
      cbn [apply_statement fst with_products sales] in Hin;
      rewrite (store_executed others) in Hin; cbn [apply_statement fst with_sales sales] in Hin;
      exact (cleared_customer _ _ _ _ _ Hset Hin Hw).
  - intros Hnz Hex. apply wp_raises.
    unfold update_sale. rewrite Hc. wp_steps.
    all: try (exfalso; tests; congruence).
    all: eexists; split; [reflexivity|]; split; [reflexivity|]; split;
      [ first [ left; reflexivity | right; left; reflexivity
              | right; right; left; reflexivity
              | right; right; right; eexists; reflexivity ] |].
    all: intros s1 p1 E1 E2 E3; try discriminate E1; inversion E1; subst s1;
      unfold target_name in E2;
      match goal with H : changed_name _ _ = _ |- _ => rewrite H in E2 end.
    all: try congruence.
    all: try (repeat split; reflexivity).
    all: exfalso; tests; assert (p1 = p) by congruence; subst p1; lia.
Qed.

Lemma update_sale_customer_reference_witness :
  Forall (fun x => sale_where 1 7 x = true -> s_customerId x = None)
         (sales (store (snd (update_sale alone 1 Demo.walk_in 7 (connect Demo.shop))))) /\
  update_sale alone 1 Demo.stranger 7 (connect Demo.shop)
    = (Raise CustomerUnknown, connect Demo.shop).
Proof.
  split.
  - apply Forall_forall.
    exact (proj2 (proj1 (update_sale_customer_reference alone 1 7 Demo.walk_in
                           (connect Demo.shop) 0 eq_refl) eq_refl _ _ eq_refl)
                 _ eq_refl).
  - destruct (proj2 (update_sale_customer_reference alone 1 7 Demo.stranger
                       (connect Demo.shop) 9 eq_refl))
      as (e & He & _ & H3); [discriminate | reflexivity |].
    destruct (H3 Demo.sold Demo.apples eq_refl eq_refl) as (-> & _).
    + simpl. lia.
    + exact He.
Defined.

(** ** Which statements write stock *)

Lemma product_where_assign a id user p :
  product_where id user None (assign_product a p) = product_where id user None p.
Proof. reflexivity. Qed.

Lemma In_updated_products (f : Product -> bool) (g : Product -> Product) l x :
  (forall y, f (g y) = f y) ->
  In x (update_rows f g l) -> f x = true -> exists y, In y l /\ f y = true /\ x = g y.
Proof.
  intros Hg Hin Hf. unfold update_rows in Hin. apply in_map_iff in Hin.
  destruct Hin as (y & E & Hy). exists y. destruct (f y) eqn:Fy.
  - auto.
  - subst x. congruence.
Qed.

Lemma select_by_name_in_unit others user name a id u c :
  select_product_by_name user name (store (executed others (UpdateSales a id u) c))
  = select_product_by_name user name (store (begun others c)).
Proof. reflexivity. Qed.

Lemma log_begun others c : log (begun others c) = log c.
Proof. unfold begun. destruct (saved c); reflexivity. Qed.

(** The rows a handler has read, as the statement it then issues needs
    them. *)
Ltac read_rows :=
  repeat match goal with
         | H : select_product_by_name _ _ (store (executed _ (UpdateSales _ _ _) _)) = _ |- _ =>
             rewrite select_by_name_in_unit in H
         end;
  unfold target_name;
  repeat match goal with
         | H : changed_name _ _ = _ |- _ => rewrite H
         end.

Ltac discipline :=
  cbn [statement_discipline];
  first
    [ exact I
    | repeat split; reflexivity
    | eexists; split; [eassumption | repeat split; reflexivity]
    | eexists; split; [eassumption |]; tests; repeat split; congruence
    | do 2 eexists; split; [eassumption | split; [eassumption | repeat split; reflexivity]]
    | do 2 eexists; split; [eassumption |]; repeat (split; [reflexivity |]);
      read_rows; left; split; [eassumption | reflexivity]
    | do 2 eexists; split; [eassumption |]; repeat (split; [reflexivity |]);
      read_rows; right; split; [eassumption | reflexivity] ].

Ltac log_leaf :=
  repeat (cbn [committed rolled_back log] || rewrite log_executed || rewrite log_begun);
  repeat first [ apply since_now | apply since_commit | apply since_rollback
               | apply since_statement; [ discipline |] ].

Lemma updated_rows_of_update_product others product_id product_data user c p c' :
  update_product others product_id product_data user c = (Ok p, c') ->
  products (store c')
  = update_rows (product_where product_id user None)
                (assign_product (product_fields product_data))
                (products (store (begun others c))).
Proof.
  intros Hrun.
  refine (wp_run _ (fun r c' => forall p, r = Ok p -> _) c _ _ _ Hrun p eq_refl).
  clear. unfold update_product. wp_steps.
  all: try discriminate.
  all: intros ? _; cbn [committed store]; rewrite (store_executed others); reflexivity.
Qed.

(** C6, as the code has it.  Every [UPDATE products] issued by the sale
    handlers and by [update_product_stock] assigns the stock column alone
    and tests, in its [WHERE] clause, the version of the row the handler
    read and computed the new stock from; for [update_product_stock] that
    is also the version the caller sent.  Every [UPDATE products] issued by
    [update_product] assigns the fields of the request, stock included when
    the request carries one, and tests id and owner only, whether or not
    the request carries a version; when it succeeds, every row it matched
    holds the version the other connections left plus one, and the stock
    of the request when it carries one. *)
Theorem stock_statements_by_handler (others : Database -> Database) (c : Connection) :
  (forall r,
     logged_since (statement_discipline others c r) (log c)
                  (log (snd (handle others r c)))) /\
  (forall product_id product_data user p c',
     update_product others product_id product_data user c = (Ok p, c') ->
     forall x, In x (products (store c')) ->
       product_where product_id user None x = true ->
       exists y, In y (products (store (begun others c))) /\
                 product_where product_id user None y = true /\
                 p_version x = p_version y + 1 /\
                 forall n, pu_stock product_data = Some n -> p_stock x = n).
Proof.
  split.
  - intros r.
    change (wp (handle others r)
               (fun _ c' => logged_since (statement_discipline others c r) (log c) (log c')) c).
    destruct r; unfold handle; apply wp_bind.
    + unfold create_sale. wp_steps. all: log_leaf.
    + unfold update_sale. wp_steps. all: log_leaf.
    + unfold delete_sale. wp_steps. all: log_leaf.
    + unfold create_product. wp_steps. all: log_leaf.
    + unfold update_product. wp_steps. all: log_leaf.
    + unfold delete_product. wp_steps. all: log_leaf.
    + unfold update_product_stock. wp_steps. all: log_leaf.
  - intros product_id product_data user p c' Hrun x Hin Hw.
    rewrite (updated_rows_of_update_product _ _ _ _ _ _ _ Hrun) in Hin.
    destruct (In_updated_products _ _ _ _
                (fun y => eq_refl : product_where product_id user None
                                      (assign_product (product_fields product_data) y)
                                    = product_where product_id user None y) Hin Hw)
      as (y & Hy & Hwy & ->).
    exists y. split; [exact Hy|]. split; [exact Hwy|]. split; [reflexivity|].
    intros n Hn. simpl. rewrite Hn. reflexivity.
Qed.

Lemma stock_statements_by_handler_witness :
  logged_since (statement_discipline alone (connect Demo.shop) (CreateSale 7 Demo.order))
    [] (log (snd (handle alone (CreateSale 7 Demo.order) (connect Demo.shop)))) /\
  Forall (fun x => product_where 1 7 None x = true -> p_version x = 2 /\ p_stock x = 50)
    (products (store (snd (update_product alone 1 Demo.recount 7 (connect Demo.shop))))).
Proof.
  destruct (stock_statements_by_handler alone (connect Demo.shop)) as [H1 H2].
  split; [exact (H1 (CreateSale 7 Demo.order))|].
  apply Forall_forall. intros x Hin Hw.
  destruct (H2 1 Demo.recount 7 _ _ eq_refl x Hin Hw) as (y & Hy & Hwy & Hv & Hst).
  split.
  - rewrite Hv. destruct Hy as [<-|[<-|[]]]; [reflexivity | discriminate Hwy].
  - apply Hst. reflexivity.
Defined.

(** C6 as stated fails: [update_product] with a stock value, here even with
    the expected version supplied, writes the stock through a statement
    whose [WHERE] clause does not test the version. *)
Lemma general_update_writes_stock_unconditioned :
  ~ logged_since strict_discipline (log (connect Demo.shop))
      (log (snd (handle alone (UpdateProduct 7 1 Demo.recount) (connect Demo.shop)))).
Proof.
  intros H. vm_compute in H.
  inversion H as [| | l H1 |]; subst.
  inversion H1 as [|st n l Hok _| |]; subst.
  specialize (Hok eq_refl). discriminate Hok.
Qed.

(** ** Moving a sale to another product *)

Section Cross.

Variable others : Database -> Database.

Lemma total_changes_executed st c :
  total_changes (executed others st c) = total_changes c + rowcount (cursor_of others st c).
Proof. unfold executed, begun. destruct (saved c); reflexivity. Qed.

Lemma rowcount_nonneg st c : 0 <= rowcount (cursor_of others st c).
Proof.
  unfold cursor_of. destruct st; simpl; try apply count_rows_nonneg; lia.
Qed.

Lemma rowcount_own_row_in_unit st c user name p a :
  select_product_by_name user name (store (executed others st c)) = Some p ->
  0 < rowcount (cursor_of others (UpdateProducts a (p_id p) user (Some (p_version p)))
                          (executed others st c)).
Proof.
  intros H. apply select_product_by_name_some in H. destruct H as (Hin & Hu & _).
  unfold cursor_of. rewrite begun_executed. simpl.
  exact (count_rows_pos _ _ p Hin (product_where_self p user Hu)).
Qed.

(** The check after the old product's update reads [total_changes], which
    by then counts at least the row that update matched: it never fires. *)
Lemma old_stock_check_never_fires sale_id sale_data user c :
  0 <= total_changes c ->
  fst (update_sale others sale_id sale_data user c) <> Raise OldStockChanged.
Proof.
  intros Htc.
  change (wp (update_sale others sale_id sale_data user)
             (fun r _ => r <> Raise OldStockChanged) c).
  unfold update_sale. wp_steps.
  all: try discriminate.
  all: exfalso; tests.
  all: match goal with
       | H : total_changes _ = 0, Hp : select_product_by_name _ _ _ = Some ?p |- _ =>
           rewrite !total_changes_executed in H;
           pose proof (rowcount_own_row_in_unit _ _ _ _ _ (stock_only (p_stock p + s_quantity s)) Hp);
           pose proof (rowcount_nonneg (UpdateSales (sale_fields sale_data) sale_id user) c)
       end; lia.
Qed.

(** A version conflict undoes the whole unit of work: the tables are the
    ones the other connections left, the sale row and the old product's
    stock included. *)
Lemma update_sale_conflict_rolls_back sale_id sale_data user c e c' :
  saved c = None ->
  update_sale others sale_id sale_data user c = (Raise e, c') ->
  error_kind e = VersionConflict ->
  store c' = others (store c) /\ saved c' = None.
Proof.
  intros Hs Hrun Hk.
  refine (wp_run _ (fun r c' => forall e, r = Raise e -> error_kind e = VersionConflict -> _)
            c _ _ _ Hrun e eq_refl Hk).
  clear Hrun Hk. unfold update_sale. wp_steps.
  all: try discriminate.
  all: intros e1 E1 K1; inversion E1; subst; try discriminate K1.
  all: cbn [rolled_back store saved];
       repeat (rewrite begun_executed || rewrite saved_executed);
       unfold begun; rewrite Hs; split; reflexivity.
Qed.

End Cross.

(** Moving a sale to another product without changing its quantity leaves
    the whole products table as it was. *)
Lemma renamed_sale_same_quantity_moves_nothing sale_id sale_data user c s c' n :
  update_sale alone sale_id sale_data user c = (Ok s, c') ->
  (forall s0, select_sale sale_id user (store c) = Some s0 ->
     changed_name (su_productName sale_data) (s_productName s0) = Some n /\
     or_keep (su_quantity sale_data) (s_quantity s0) = s_quantity s0) ->
  products (store c') = products (store c).
Proof.
  intros Hrun.
  refine (wp_run _ (fun r c' => forall s, r = Ok s -> _ -> _) c _ _ _ Hrun s eq_refl).
  clear Hrun. unfold update_sale. wp_steps.
  all: try discriminate.
  all: intros ? _ Hsame; destruct (Hsame _ eq_refl) as [Hn Hq]; tests.
  all: try (exfalso; lia).
  all: cbn [committed store]; rewrite store_executed_alone; reflexivity.
Qed.

(** C1, at the failing input.  The sale of 5 apples is edited to name
    pears.  With the quantity left at 5 the edit succeeds and no stock
    moves: apples stay at 10 instead of getting 5 back, pears stay at 10
    instead of giving 5.  With the quantity raised to 8, apples get their 5
    back but pears give only the difference 3 and end at 7, not at 2. *)
Theorem renamed_sale_stock_is_off :
  (exists s c',
     update_sale alone 1 Demo.rename_only 7 (connect Demo.shop) = (Ok s, c') /\
     s_productName s = "pears"%string /\ s_quantity s = 5 /\
     map p_stock (products (store c')) = [10; 10]) /\
  (exists s c',
     update_sale alone 1 Demo.rename_more 7 (connect Demo.shop) = (Ok s, c') /\
     s_productName s = "pears"%string /\ s_quantity s = 8 /\
     map p_stock (products (store c')) = [15; 7]).
Proof.
  split; eexists; eexists; (split; [vm_compute; reflexivity|]);
    repeat split; reflexivity.
Qed.

(** C2, at the failing input.  The same rename with the quantity left
    unchanged issues no update of either product: the only statement of the
    unit of work is the update of the sale row. *)
Theorem renamed_sale_issues_no_stock_update :
  exists s c' n,
    update_sale alone 1 Demo.rename_only 7 (connect Demo.shop) = (Ok s, c') /\
    log c' = [Committed; Executed (UpdateSales (sale_fields Demo.rename_only) 1 7) n].
Proof.
  eexists; eexists; eexists. split; vm_compute; reflexivity.
Qed.

(** ** Stock stays non-negative *)

Lemma In_update_rows_cases {A} (f : A -> bool) (g : A -> A) (l : list A) (x : A) :
  In x (update_rows f g l) -> In x l \/ exists y, In y l /\ x = g y.
Proof.
  unfold update_rows. intros H. apply in_map_iff in H. destruct H as (y & E & Hy).
  destruct (f y); subst x; [right; exists y; auto | left; exact Hy].
Qed.

Lemma In_delete_rows {A} (f : A -> bool) (l : list A) (x : A) :
  In x (delete_rows f l) -> In x l.
Proof. unfold delete_rows. intros H. apply filter_In in H. tauto. Qed.

Lemma apply_statement_ok st db :
  good_statement st -> stock_ok db -> stock_ok (fst (apply_statement st db)).
Proof.
  intros Hg [Hp Hs]. destruct st; simpl in *; split; simpl; try assumption.
  - intros s H. apply in_app_or in H. destruct H as [H|[<-|[]]]; [auto | simpl; lia].
  - intros s H. apply In_update_rows_cases in H. destruct H as [H|(y & Hy & ->)]; [auto|].
    simpl. unfold or_keep. destruct (set_quantity a) eqn:E; [apply Hg; reflexivity | auto].
  - intros s H. apply In_delete_rows in H. auto.
  - intros p H. apply in_app_or in H. destruct H as [H|[<-|[]]]; [auto | simpl; lia].
  - intros p H. apply In_update_rows_cases in H. destruct H as [H|(y & Hy & ->)]; [auto|].
    simpl. unfold or_keep. destruct (set_stock a) eqn:E; [apply Hg; reflexivity | auto].
  - intros p H. apply In_delete_rows in H. auto.
Qed.

Section Invariant.

Variable others : Database -> Database.
Hypothesis others_ok : forall db, stock_ok db -> stock_ok (others db).

Lemma begun_ok c : connection_ok c -> connection_ok (begun others c).
Proof.
  intros Hc. unfold begun. destruct (saved c) eqn:E; [exact Hc|].
  destruct Hc as [H1 _].
  split; simpl; [auto|]. intros d Hd. inversion Hd; subst. auto.
Qed.

Lemma executed_ok st c :
  good_statement st -> connection_ok c -> connection_ok (executed others st c).
Proof.
  intros Hg Hc. apply begun_ok in Hc. destruct Hc as [H1 H2].
  split.
  - rewrite store_executed. apply apply_statement_ok; assumption.
  - rewrite saved_executed. exact H2.
Qed.

Lemma committed_ok c : connection_ok c -> connection_ok (committed c).
Proof. intros [H1 H2]. split; [exact H1 | discriminate]. Qed.

Lemma rolled_back_ok c : connection_ok c -> connection_ok (rolled_back c).
Proof.
  intros [H1 H2]. split; [|discriminate].
  simpl. destruct (saved c); [apply H2; reflexivity | exact H1].
Qed.

Lemma release_ok c : connection_ok c -> connection_ok (release c).
Proof.
  intros [H1 H2]. split; [|discriminate].
  simpl. destruct (saved c); [apply H2; reflexivity | exact H1].
Qed.

Lemma selected_stock user name c p :
  connection_ok c -> select_product_by_name user name (store c) = Some p -> 0 <= p_stock p.
Proof.
  intros [[H _] _] Hp. apply H. apply (select_product_by_name_some _ _ _ _ Hp).
Qed.

Lemma selected_stock_by_id id user c p :
  connection_ok c -> select_product id user (store c) = Some p -> 0 <= p_stock p.
Proof.
  intros [[H _] _] Hp. apply H. unfold select_product in Hp.
  apply find_some in Hp. tauto.
Qed.

Lemma selected_quantity id user c s :
  connection_ok c -> select_sale id user (store c) = Some s -> 0 <= s_quantity s.
Proof.
  intros [[_ H] _] Hs. apply H. unfold select_sale in Hs.
  apply find_some in Hs. tauto.
Qed.

Lemma sale_fields_good d id user :
  (forall q, su_quantity d = Some q -> 0 <= q) ->
  good_statement (UpdateSales (sale_fields d) id user).
Proof. intros H q E. simpl in E. apply H in E. exact E. Qed.

Lemma product_fields_good d id user ver :
  (forall n, pu_stock d = Some n -> 0 <= n) ->
  good_statement (UpdateProducts (product_fields d) id user ver).
Proof. intros H n E. simpl in E. auto. Qed.

Ltac good :=
  first
    [ apply sale_fields_good; assumption
    | apply product_fields_good; assumption
    | simpl; intros;
      repeat match goal with
             | H : Some _ = Some _ |- _ => inversion H; subst; clear H
             | H : None = Some _ |- _ => discriminate H
             end;
      tests; lia ].

Ltac ok_leaf :=
  repeat lazymatch goal with
         | |- connection_ok (committed _) => apply committed_ok
         | |- connection_ok (rolled_back _) => apply rolled_back_ok
         | |- connection_ok (executed _ _ _) => apply executed_ok; [solve [good] |]
         | |- connection_ok (begun _ _) => apply begun_ok
         | |- connection_ok _ => assumption
         end.

(** What the rows read so far say about stock and quantities. *)
Ltac facts :=
  repeat match goal with
         | Hc : connection_ok ?c, H : select_sale _ _ (store ?c) = Some ?s |- _ =>
             lazymatch goal with
             | _ : 0 <= s_quantity s |- _ => fail
             | _ => pose proof (selected_quantity _ _ _ _ Hc H)
             end
         | Hc : connection_ok ?c, H : select_product_by_name _ _ (store ?c) = Some ?p |- _ =>
             lazymatch goal with
             | _ : 0 <= p_stock p |- _ => fail
             | _ => pose proof (selected_stock _ _ _ _ Hc H)
             end
         | Hc : connection_ok ?c, H : select_product _ _ (store ?c) = Some ?p |- _ =>
             lazymatch goal with
             | _ : 0 <= p_stock p |- _ => fail
             | _ => pose proof (selected_stock_by_id _ _ _ _ Hc H)
             end
         | H : select_product_by_name _ _ (store (executed ?o ?st ?c)) = Some _ |- _ =>
             lazymatch goal with
             | _ : connection_ok (executed o st c) |- _ => fail
             | _ => assert (connection_ok (executed o st c))
                      by (apply executed_ok; [solve [good] | assumption])
             end
         end.

Lemma handle_ok r c :
  nonnegative_request r -> connection_ok c -> connection_ok (snd (handle others r c)).
Proof.
  intros Hv Hc.
  change (wp (handle others r) (fun _ c' => connection_ok c') c).
  destruct r; unfold handle; apply wp_bind; simpl in Hv.
  - unfold create_sale. wp_steps. all: facts; ok_leaf.
  - unfold update_sale. wp_steps. all: facts; ok_leaf.
  - unfold delete_sale. wp_steps. all: facts; ok_leaf.
  - unfold create_product. wp_steps. all: facts; ok_leaf.
  - unfold update_product. wp_steps. all: facts; ok_leaf.
  - unfold delete_product. wp_steps. all: facts; ok_leaf.
  - unfold update_product_stock. wp_steps. all: facts; ok_leaf.
Qed.

Lemma serve_ok r c :
  nonnegative_request r -> connection_ok c -> connection_ok (serve others r c).
Proof. intros Hv Hc. apply release_ok. apply handle_ok; assumption. Qed.

Lemma serve_all_ok rs c :
  Forall nonnegative_request rs -> connection_ok c -> connection_ok (serve_all others rs c).
Proof.
  intros Hv. revert c. induction Hv as [|r rs Hr _ IH]; intros c Hc; simpl.
  - exact Hc.
  - apply IH. apply serve_ok; assumption.
Qed.

(** A refusal for insufficient stock comes from a check in front of the
    first write. *)
Lemma short_stock_before_any_write r c e c' :
  connection_ok c ->
  handle others r c = (Raise e, c') -> error_kind e = InsufficientStock -> c' = c.
Proof.
  intros Hc Hrun Hk.
  refine (wp_run _ (fun r1 c1 => forall e1, r1 = Raise e1 ->
            error_kind e1 = InsufficientStock -> c1 = c) c _ _ _ Hrun e eq_refl Hk).
  clear Hrun Hk e c'.
  destruct r; unfold handle; apply wp_bind.
  - unfold create_sale. wp_steps.
    all: try discriminate.
    all: intros e1 E1 K1; inversion E1; subst; try discriminate K1; try reflexivity.
    all: exfalso; tests; lia.
  - unfold update_sale. wp_steps.
    all: try discriminate.
    all: intros e1 E1 K1; inversion E1; subst; try discriminate K1; try reflexivity.
    all: exfalso; facts; tests; lia.
  - unfold delete_sale. wp_steps.
    all: try discriminate.
    all: intros e1 E1 K1; inversion E1; subst; try discriminate K1; try reflexivity.
  - unfold create_product. wp_steps.
    all: try discriminate.
    all: intros e1 E1 K1; inversion E1; subst; try discriminate K1; try reflexivity.
  - unfold update_product. wp_steps.
    all: try discriminate.
    all: intros e1 E1 K1; inversion E1; subst; try discriminate K1; try reflexivity.
  - unfold delete_product. wp_steps.
    all: try discriminate.
    all: intros e1 E1 K1; inversion E1; subst; try discriminate K1; try reflexivity.
  - unfold update_product_stock. wp_steps.
    all: try discriminate.
    all: intros e1 E1 K1; inversion E1; subst; try discriminate K1; try reflexivity.
Qed.

Lemma create_sale_refuses_short_stock d user c p :
  select_product_by_name user (sc_productName d) (store c) = Some p ->
  p_stock p - sc_quantity d < 0 ->
  create_sale others d user c = (Raise (StockShort (p_stock p) (sc_quantity d)), c).
Proof.
  intros Hp Hlt. unfold create_sale, bind, query, when, raise. rewrite Hp.
  destruct (Z.ltb_spec (p_stock p) (sc_quantity d)); [reflexivity | lia].
Qed.

Lemma update_product_stock_refuses_short_stock id d user c p :
  select_product id user (store c) = Some p ->
  psu_version d = version_or_1 (p_version p) ->
  p_stock p + psu_quantity d < 0 ->
  update_product_stock others id d user c
  = (Raise (StockShort (p_stock p) (Z.abs (psu_quantity d))), c).
Proof.
  intros Hp Hv Hlt. unfold update_product_stock, bind, query, when, raise. rewrite Hp.
  rewrite Hv, Z.eqb_refl. simpl.
  destruct (Z.ltb_spec (p_stock p + psu_quantity d) 0); [reflexivity | lia].
Qed.

Lemma update_sale_refuses_short_stock id d user c s p :
  select_sale id user (store c) = Some s ->
  select_product_by_name user (target_name (su_productName d) (s_productName s)) (store c)
  = Some p ->
  0 <= p_stock p ->
  p_stock p + (s_quantity s - or_keep (su_quantity d) (s_quantity s)) < 0 ->
  update_sale others id d user c
  = (Raise (StockShort (p_stock p) (or_keep (su_quantity d) (s_quantity s) - s_quantity s)), c).
Proof.
  intros Hs Hp H0 Hlt. unfold update_sale, bind, query, when, raise, ret.
  rewrite Hs. unfold target_name in Hp.
  destruct (changed_name (su_productName d) (s_productName s)); rewrite Hp.
  all: destruct (Z.gtb_spec (or_keep (su_quantity d) (s_quantity s)) (s_quantity s)); [|lia].
  all: destruct (Z.ltb_spec (p_stock p) (or_keep (su_quantity d) (s_quantity s) - s_quantity s));
    [reflexivity | lia].
Qed.

End Invariant.

(** C3, as the code has it.  As long as the other connections keep stocks
    and quantities non-negative and no request carries a negative stock or
    a negative quantity, every sequence of requests leaves every product
    with a stock of at least 0.  A refusal for insufficient stock leaves
    the connection exactly as it was, and the three handlers that check the
    stock they computed do refuse that way whenever it would be negative:
    [create_sale], [update_product_stock] at the current version, and
    [update_sale] against the product the edit is computed for.  The other
    writes of stock are not checked. *)
Theorem stock_never_negative (others : Database -> Database) :
  (forall db, stock_ok db -> stock_ok (others db)) ->
  (forall rs c, Forall nonnegative_request rs -> connection_ok c ->
     forall p, In p (products (store (serve_all others rs c))) -> 0 <= p_stock p) /\
  (forall r c e c', connection_ok c ->
     handle others r c = (Raise e, c') -> error_kind e = InsufficientStock -> c' = c) /\
  (forall d user c p,
     select_product_by_name user (sc_productName d) (store c) = Some p ->
     p_stock p - sc_quantity d < 0 ->
     create_sale others d user c = (Raise (StockShort (p_stock p) (sc_quantity d)), c)) /\
  (forall id d user c p,
     select_product id user (store c) = Some p ->
     psu_version d = version_or_1 (p_version p) ->
     p_stock p + psu_quantity d < 0 ->
     update_product_stock others id d user c
     = (Raise (StockShort (p_stock p) (Z.abs (psu_quantity d))), c)) /\
  (forall id d user c s p,
     select_sale id user (store c) = Some s ->
     select_product_by_name user (target_name (su_productName d) (s_productName s)) (store c)
     = Some p ->
     0 <= p_stock p ->
     p_stock p + (s_quantity s - or_keep (su_quantity d) (s_quantity s)) < 0 ->
     update_sale others id d user c
     = (Raise (StockShort (p_stock p)
                 (or_keep (su_quantity d) (s_quantity s) - s_quantity s)), c)).
Proof.
  intros Hothers. split; [|split; [|split; [|split]]].
  - intros rs c Hv Hc. exact (proj1 (proj1 (serve_all_ok others Hothers rs c Hv Hc))).
  - intros r c e c'. apply short_stock_before_any_write.
  - apply create_sale_refuses_short_stock.
  - apply update_product_stock_refuses_short_stock.
  - apply update_sale_refuses_short_stock.
Qed.

Lemma shop_ok : connection_ok (connect Demo.shop).
Proof.
  split; [split|discriminate].
  - intros p [<-|[<-|[]]]; simpl; lia.
  - intros s [<-|[]]; simpl; lia.
Qed.

(** C3 as stated fails: [update_product] stores the negative stock of a
    request and answers success, and a sale of a negative quantity that is
    created and later deleted takes its quantity off a stock that has gone
    to 0 in between; neither request is refused. *)
Lemma unchecked_writes_store_negative_stock :
  (exists p c',
     update_product alone 1 Scenes.write_off 7 (connect Demo.shop) = (Ok p, c') /\
     p_stock p = -5 /\
     map p_stock (products (store c')) = [-5; 10]) /\
  (exists s1 s2,
     fst (handle alone (CreateSale 7 Scenes.returned) (connect Demo.shop))
     = Ok (SaleData s1) /\
     fst (handle alone (CreateSale 7 Scenes.cleared)
                 (serve alone (CreateSale 7 Scenes.returned) (connect Demo.shop)))
     = Ok (SaleData s2) /\
     fst (handle alone (DeleteSale 7 2)
                 (serve_all alone [CreateSale 7 Scenes.returned; CreateSale 7 Scenes.cleared]
                            (connect Demo.shop)))
     = Ok NoData /\
     map p_stock (products (store (serve_all alone Scenes.returns (connect Demo.shop))))
     = [-20; 10]).
Proof.
  split.
  - eexists. eexists. split; [vm_compute; reflexivity|]. split; reflexivity.
  - eexists. eexists. repeat split; vm_compute; reflexivity.
Qed.

Lemma stock_never_negative_witness :
  Forall (fun p => 0 <= p_stock p)
         (products (store (serve_all alone Demo.busy_day (connect Demo.shop)))).
Proof.
  apply Forall_forall.
  apply (proj1 (stock_never_negative alone (fun db H => H))).
  - repeat constructor; simpl; try lia; intros q E; inversion E; lia.
  - exact shop_ok.
Defined.

(** ** One request on the products table *)

Lemma map_id_update_rows f a l :
  map p_id (update_rows f (assign_product a) l) = map p_id l.
Proof.
  unfold update_rows. rewrite map_map. apply map_ext. intros x. destruct (f x); reflexivity.
Qed.

Lemma by_id_update_rows pid f a l :
  by_id pid (update_rows f (assign_product a) l) =
  option_map (fun x => if f x then assign_product a x else x) (by_id pid l).
Proof. unfold by_id. apply find_update_rows. reflexivity. Qed.

Lemma by_id_some pid l p : by_id pid l = Some p -> In p l /\ p_id p = pid.
Proof.
  unfold by_id. intros H. apply find_some in H. destruct H as [H1 H2].
  apply Z.eqb_eq in H2. auto.
Qed.

Lemma unique_row l p q :
  NoDup (map p_id l) -> In p l -> In q l -> p_id p = p_id q -> p = q.
Proof.
  induction l as [|x l IH]; simpl; [tauto|].
  intros Hnd Hp Hq E. inversion Hnd as [|? ? Hx Hl]; subst.
  destruct Hp as [->|Hp], Hq as [->|Hq].
  - reflexivity.
  - exfalso. apply Hx. rewrite E. apply in_map. exact Hq.
  - exfalso. apply Hx. rewrite <- E. apply in_map. exact Hp.
  - apply IH; assumption.
Qed.

Lemma NoDup_map_filter {A B} (f : A -> B) (g : A -> bool) (l : list A) :
  NoDup (map f l) -> NoDup (map f (filter g l)).
Proof.
  induction l as [|x l IH]; simpl; [auto|].
  intros H. inversion H as [|? ? Hx Hl]; subst.
  destruct (g x); simpl; [|auto].
  constructor; [|auto]. intros Hin. apply Hx.
  apply in_map_iff in Hin. destruct Hin as (y & E & Hy).
  apply filter_In in Hy. apply in_map_iff. exists y. tauto.
Qed.

Lemma by_id_app_old pid l row p : by_id pid l = Some p -> by_id pid (l ++ [row]) = Some p.
Proof.
  unfold by_id. induction l as [|x l IH]; simpl; [discriminate|].
  destruct (p_id x =? pid); [auto | exact IH].
Qed.

Lemma products_step_versions l l' :
  NoDup (map p_id l) -> products_step l l' ->
  NoDup (map p_id l') /\
  forall pid p p', by_id pid l = Some p -> by_id pid l' = Some p' ->
                   p' = p \/ p_version p' = p_version p + 1.
Proof.
  intros Hnd Hstep. destruct Hstep.
  - split; [exact Hnd|]. intros pid p p' H1 H2. left. congruence.
  - split; [rewrite map_id_update_rows; exact Hnd|].
    intros pid p p' H1 H2. rewrite by_id_update_rows, H1 in H2. simpl in H2.
    inversion H2. destruct (product_where id user ver p); [right; reflexivity | left; reflexivity].
  - split; [rewrite !map_id_update_rows; exact Hnd|].
    intros pid p p' H1 H2. rewrite !by_id_update_rows, H1 in H2. simpl in H2.
    inversion H2; clear H2.
    destruct (product_where id1 user ver1 p) eqn:W1.
    + assert (W2 : product_where id2 user ver2 (assign_product a1 p) = false).
      { unfold product_where in *. simpl.
        apply andb_true_iff in W1. destruct W1 as [W1 _].
        apply andb_true_iff in W1. destruct W1 as [W1 _]. apply Z.eqb_eq in W1.
        destruct (Z.eqb_spec (p_id p) id2); [congruence | reflexivity]. }
      rewrite W2. right. reflexivity.
    + destruct (product_where id2 user ver2 p); [right; reflexivity | left; reflexivity].
  - split; [apply NoDup_map_filter; exact Hnd|].
    intros pid p p' H1 H2. left.
    apply by_id_some in H1. apply by_id_some in H2.
    destruct H1 as [I1 E1], H2 as [I2 E2]. apply In_delete_rows in I2.
    symmetry. apply (unique_row l p p' Hnd I1 I2). congruence.
  - split.
    + rewrite map_app. simpl. apply NoDup_app.
      * exact Hnd.
      * constructor; [intros [] | constructor].
      * intros x Hx [E|[]]. subst x. rewrite H in Hx.
        pose proof (next_rowid_fresh _ _ Hx). lia.
    + intros pid p p' H1 H2. left. rewrite (by_id_app_old _ _ _ _ H1) in H2. congruence.
Qed.

Lemma saved_begun_alone c : saved c = None -> saved (begun alone c) = Some (store c).
Proof. intros H. unfold begun. rewrite H. reflexivity. Qed.

Lemma select_by_name_after_sales_update user name a id u c p :
  select_product_by_name user name (store (executed alone (UpdateSales a id u) c)) = Some p ->
  select_product_by_name user name (store c) = Some p.
Proof. rewrite store_executed_alone. exact (fun H => H). Qed.

Lemma distinct_products user n1 n2 db p1 p2 :
  ids_unique db ->
  select_product_by_name user n1 db = Some p1 ->
  select_product_by_name user n2 db = Some p2 ->
  n1 <> n2 -> p_id p1 <> p_id p2.
Proof.
  intros Hu H1 H2 Hn E.
  apply select_product_by_name_some in H1. apply select_product_by_name_some in H2.
  destruct H1 as (I1 & _ & N1), H2 as (I2 & _ & N2).
  pose proof (unique_row _ _ _ Hu I1 I2 E). congruence.
Qed.

Lemma changed_name_differs requested old n : changed_name requested old = Some n -> n <> old.
Proof.
  unfold changed_name. destruct requested as [m|]; [|discriminate].
  destruct (String.eqb_spec m ""); simpl; [discriminate|].
  destruct (String.eqb_spec m old); simpl; [discriminate|].
  intros H. inversion H. congruence.
Qed.

Ltac settle Hs :=
  cbn [release committed rolled_back store saved];
  repeat (rewrite begun_executed || rewrite saved_executed);
  rewrite ?(saved_begun_alone _ Hs), ?Hs;
  cbn [release committed rolled_back store saved];
  rewrite ?store_executed_alone;
  cbn [apply_statement fst with_products with_sales products sales].

Lemma handle_products_step r c :
  ids_unique (store c) -> saved c = None ->
  products_step (products (store c)) (products (store (serve alone r c))).
Proof.
  intros Hu Hs. unfold serve.
  change (wp (handle alone r)
             (fun _ c' => products_step (products (store c)) (products (store (release c')))) c).
  destruct r; unfold handle; apply wp_bind.
  - unfold create_sale. wp_steps. all: settle Hs.
    all: try apply ps_same. all: try apply ps_update.
  - unfold update_sale. wp_steps. all: settle Hs.
    all: try apply ps_same. all: try apply ps_update.
    all: apply ps_update2;
      match goal with
      | Hn : changed_name _ _ = Some ?n,
        H1 : select_product_by_name _ ?n (store _) = Some _,
        H0 : select_product_by_name _ _ (store (executed _ _ _)) = Some _ |- _ =>
          apply select_by_name_after_sales_update in H0;
          intro E;
          apply (distinct_products _ _ _ _ _ _ Hu H1 H0 (changed_name_differs _ _ _ Hn));
          symmetry; exact E
      end.
  - unfold delete_sale. wp_steps. all: settle Hs.
    all: try apply ps_same. all: try apply ps_update.
  - unfold create_product. wp_steps. all: settle Hs.
    all: try apply ps_same. all: apply ps_insert; reflexivity.
  - unfold update_product. wp_steps. all: settle Hs.
    all: try apply ps_same. all: try apply ps_update.
  - unfold delete_product. wp_steps. all: settle Hs.
    all: try apply ps_same. all: try apply ps_delete.
  - unfold update_product_stock. wp_steps. all: settle Hs.
    all: try apply ps_same. all: try apply ps_update.
Qed.

Lemma saved_release c : saved (release c) = None.
Proof. reflexivity. Qed.

Lemma serve_unique r c :
  ids_unique (store c) -> saved c = None -> ids_unique (store (serve alone r c)).
Proof.
  intros Hu Hs.
  exact (proj1 (products_step_versions _ _ Hu (handle_products_step r c Hu Hs))).
Qed.

Lemma select_new_product_by_id user d db :
  select_product_by_id (next_rowid (map p_id (products db)))
    (fst (apply_statement (InsertProduct user d) db)) = Some (new_product user d db).
Proof.
  unfold select_product_by_id. simpl. apply find_app_last.
  - intros x Hin. apply Z.eqb_neq.
    pose proof (next_rowid_fresh (map p_id (products db)) (p_id x) (in_map p_id _ _ Hin)). lia.
  - simpl. apply Z.eqb_refl.
Qed.

Lemma create_product_alone_ok c d user p c0 :
  create_product alone d user c = (Ok p, c0) ->
  p = product_response (new_product user d (store c)) /\
  c0 = committed (executed alone (InsertProduct user d) c).
Proof.
  intros Hrun.
  refine (wp_run _ (fun r c1 => forall p, r = Ok p -> _) c _ _ _ Hrun p eq_refl).
  clear. unfold create_product. wp_steps.
  all: try discriminate.
  all: intros q E; inversion E; subst; clear E; split; [|reflexivity].
  all: match goal with
       | H : select_product_by_id _ _ = Some _ |- _ =>
           pose proof (select_new_product_by_id user d (store c)) as N;
           unfold cursor_of in H; cbn [committed store] in H;
           rewrite !store_executed_alone, store_begun_alone in H;
           unfold select_product_by_id in H, N;
           cbn [apply_statement fst snd lastrowid with_products with_sales products] in H, N;
           rewrite N in H; inversion H; reflexivity
       end.
Qed.

(** C5, at the failing input.  After one sale the apples are at stock 6
    and version 2, and the connection that served the sale has changed two
    rows.  Two stock adjustments then carry version 2: one adds 4 and is
    served and committed on another connection between the read and the
    write of the other, which takes 3 on the first connection.  The
    second's update matches no row, but [conn.total_changes] is not 0 on
    its connection, so it answers success with the row the first one left:
    three successful mutations after the creation and a version of 3, not
    4, and a stock of 10 that misses the 3 taken. *)
Theorem unnoticed_conflict_skips_a_version :
  select_product 1 7 (store Scenes.after_sale)
  = Some (mkProduct 1 7 "apples" None 6 "kg" None 2) /\
  total_changes Scenes.after_sale = 2 /\
  fst (handle alone (UpdateProductStock 7 1 Scenes.restock)
              (connect (store Scenes.after_sale)))
  = Ok (ProductData (mkProduct 1 7 "apples" None 10 "kg" None 3)) /\
  exists c',
    handle Scenes.meanwhile (UpdateProductStock 7 1 Scenes.take_three_more)
           Scenes.after_sale
    = (Ok (ProductData (mkProduct 1 7 "apples" None 10 "kg" None 3)), c') /\
    select_product 1 7 (store (release c'))
    = Some (mkProduct 1 7 "apples" None 10 "kg" None 3).
Proof.
  split; [reflexivity|]. split; [reflexivity|]. split; [reflexivity|].
  eexists. split; [vm_compute; reflexivity | reflexivity].
Qed.

(** * Further properties *)


Lemma update_rows_none {A} (f : A -> bool) (g : A -> A) (l : list A) :
  (forall x, In x l -> f x = false) -> update_rows f g l = l.
Proof.
  intros H. unfold update_rows. induction l as [|x l IH]; simpl; [reflexivity|].
  rewrite (H x (or_introl eq_refl)). f_equal. apply IH. intros y Hy. apply H. right. exact Hy.
Qed.

(** X1. [create_sale], with no other connection writing: a sale that is accepted
    takes exactly its quantity from the stock of the product it names, which
    stays at or above zero, raises that product's version by one, and is
    appended to the sales under an id above every earlier one; its customer,
    when given, is one of the caller's, and nothing is left uncommitted. *)
Theorem create_sale_takes_quantity
    (c c1 : Connection) (sale_data : SaleCreate) (user : Z) (s : Sale) :
  create_sale alone sale_data user c = (Ok s, c1) ->
  exists p p1,
    select_product_by_name user (sc_productName sale_data) (store c) = Some p /\
    select_product_by_name user (sc_productName sale_data) (store c1) = Some p1 /\
    p_id p1 = p_id p /\
    p_stock p1 = p_stock p - sc_quantity sale_data /\
    0 <= p_stock p1 /\
    p_version p1 = p_version p + 1 /\
    sales (store c1) = sales (store c) ++ [s] /\
    s_userId s = user /\ s_productName s = sc_productName sale_data /\
    s_quantity s = sc_quantity sale_data /\
    (forall x, In x (sales (store c)) -> s_id x < s_id s) /\
    customer_known (sc_customerId sale_data) user (store c) /\
    saved c1 = None.
Proof.
  intros Hrun.
  assert (Hadm : customer_known (sc_customerId sale_data) user (store c)).
  { refine (wp_run _ (fun r _ => forall s, r = Ok s -> _) c _ _ _ Hrun s eq_refl).
    clear. unfold create_sale. wp_steps.
    all: try discriminate.
    all: intros ? _; unfold customer_known; tests; first [assumption | exact I]. }
  destruct (create_sale_alone_ok c sale_data user s c1 Hrun) as (p & Hp & Hq & -> & ->).
  destruct (select_product_by_name_some _ _ _ _ Hp) as (Hin & Hu & Hn).
  exists p, (assign_product (stock_only (p_stock p - sc_quantity sale_data)) p).
  cbn [committed store saved]. rewrite !store_executed_alone.
  split; [exact Hp|]. split.
  { apply select_by_name_updated; [reflexivity | exact Hp |].
    apply product_where_self. exact Hu. }
  repeat split; try reflexivity; try assumption.
  - simpl. lia.
  - intros x Hx. simpl.
    exact (next_rowid_fresh _ _ (in_map s_id _ _ Hx)).
Qed.

(** X2. [create_sale] checks what the sale refers to before it writes: a product
    name the caller has no product of, and a customer id (0 included) that is
    not one of the caller's customers, are refused as invalid references, and
    the connection is left exactly as it was, whatever other connections do. *)
Theorem create_sale_checks_references
    (others : Database -> Database) (c : Connection) (sale_data : SaleCreate) (user : Z) :
  (select_product_by_name user (sc_productName sale_data) (store c) = None ->
   create_sale others sale_data user c
   = (Raise (ProductNameUnknown (sc_productName sale_data)), c)) /\
  (forall p cid,
     select_product_by_name user (sc_productName sale_data) (store c) = Some p ->
     sc_quantity sale_data <= p_stock p ->
     sc_customerId sale_data = Some cid ->
     exists_owned cid user (customers (store c)) = false ->
     create_sale others sale_data user c = (Raise CustomerUnknown, c)) /\
  error_kind (ProductNameUnknown (sc_productName sale_data)) = InvalidReference /\
  error_kind CustomerUnknown = InvalidReference.
Proof.
  split; [|split; [|split; reflexivity]].
  - intros Hp. unfold create_sale, bind, query, raise. rewrite Hp. reflexivity.
  - intros p cid Hp Hq Hc Hex.
    apply wp_value. unfold create_sale. wp_step. wp_step. rewrite Hp, Hc.
    wp_steps.
    all: try reflexivity.
    all: exfalso; tests; try lia; congruence.
Qed.



Lemma find_exists {A} (f : A -> bool) (l : list A) (x : A) :
  In x l -> f x = true -> exists y, find f l = Some y.
Proof.
  intros Hin Hf. destruct (find f l) eqn:E; [eauto|].
  rewrite (find_none f l E x Hin) in Hf. discriminate.
Qed.

Lemma select_sale_some id user db s :
  select_sale id user db = Some s -> In s (sales db) /\ s_id s = id /\ s_userId s = user.
Proof.
  unfold select_sale, sale_where. intros H. apply find_some in H. destruct H as [Hin H].
  apply andb_true_iff in H. destruct H as [H1 H2].
  apply Z.eqb_eq in H1. apply Z.eqb_eq in H2. auto.
Qed.

Lemma select_product_some id user db p :
  select_product id user db = Some p -> In p (products db) /\ p_id p = id /\ p_userId p = user.
Proof.
  unfold select_product, product_where. intros H. apply find_some in H. destruct H as [Hin H].
  rewrite andb_true_r in H. apply andb_true_iff in H. destruct H as [H1 H2].
  apply Z.eqb_eq in H1. apply Z.eqb_eq in H2. auto.
Qed.

Lemma sale_by_id_after_update id user a l s :
  In s l -> s_id s = id ->
  exists r, find (fun x => s_id x =? id) (update_rows (sale_where id user) (assign_sale a) l)
            = Some r.
Proof.
  intros Hin Hid. rewrite find_update_rows by reflexivity.
  destruct (find_exists (fun x => s_id x =? id) l s Hin) as [y ->].
  - apply Z.eqb_eq. exact Hid.
  - simpl. eauto.
Qed.

Lemma product_by_id_after_update id user ver a l p :
  In p l -> p_id p = id ->
  exists r, find (fun x => p_id x =? id)
                 (update_rows (product_where id user ver) (assign_product a) l) = Some r.
Proof.
  intros Hin Hid. rewrite find_update_rows by reflexivity.
  destruct (find_exists (fun x => p_id x =? id) l p Hin) as [y ->].
  - apply Z.eqb_eq. exact Hid.
  - simpl. eauto.
Qed.


Ltac same :=
  repeat match goal with
         | H : Some _ = Some _ |- _ => inversion H; clear H; subst
         end.

Ltac dead :=
  exfalso; tests; same; try lia; try congruence; try (intuition congruence).


(** X5. [update_sale] with no field to set, for a sale and a product of the
    caller, is refused with status 400 and the store is unchanged, whatever
    other connections do. *)
Theorem update_sale_without_fields
    (others : Database -> Database) (c : Connection) (sale_id user : Z)
    (sale_data : SaleUpdate) (s : Sale) (p : Product) :
  saved c = None ->
  no_sale_fields (sale_fields sale_data) = true ->
  select_sale sale_id user (store c) = Some s ->
  select_product_by_name user (s_productName s) (store c) = Some p ->
  exists c',
    update_sale others sale_id sale_data user c = (Raise NoFields, c') /\
    store c' = store c /\ saved c' = None /\ status_code NoFields = 400.
Proof.
  intros Hsv Hno Hs Hp. exists (rolled_back c).
  assert (Hd : su_productName sale_data = None /\ su_quantity sale_data = None /\
               su_customerId sale_data = None).
  { unfold no_sale_fields, sale_fields in Hno. simpl in Hno.
    destruct (su_productName sale_data), (su_quantity sale_data),
      (su_saleDate sale_data), (su_customerId sale_data); try discriminate; auto. }
  destruct Hd as (Hn & Hq & Hc).
  split; [|split; [|split; reflexivity]].
  - apply wp_value. unfold update_sale. wp_step. wp_step. rewrite Hs.
    cbv zeta. rewrite Hn, Hq, Hc. cbn [changed_name or_keep].
    wp_steps.
    all: try reflexivity.
    all: dead.
  - cbn [rolled_back store]. rewrite Hsv. reflexivity.
Qed.

(** X6. [update_sale] refuses to touch a sale whose (new or kept) product name
    is no product of the caller: a sale whose product has been deleted cannot
    be edited, not even its note, and the connection is left as it was. *)
Theorem sale_of_a_missing_product_cannot_be_edited
    (others : Database -> Database) (c : Connection) (sale_id user : Z)
    (sale_data : SaleUpdate) (s : Sale) :
  select_sale sale_id user (store c) = Some s ->
  select_product_by_name user
    (target_name (su_productName sale_data) (s_productName s)) (store c) = None ->
  update_sale others sale_id sale_data user c
  = (Raise (ProductNameUnknown (target_name (su_productName sale_data) (s_productName s))), c).
Proof.
  intros Hs Hp. unfold target_name in *.
  unfold update_sale, bind, query, raise. rewrite Hs.
  destruct (changed_name (su_productName sale_data) (s_productName s));
    rewrite Hp; reflexivity.
Qed.

(** X7. [update_sale], with no other connection writing: when the quantity that
    results equals the stored one, an accepted update leaves the whole
    products table as it was, also when the sale is moved to another
    product, and the sales table is the stored one with the supplied fields
    set on that sale. *)
Theorem unchanged_quantity_moves_no_stock
    (c c' : Connection) (sale_id user : Z) (sale_data : SaleUpdate) (s r : Sale) :
  select_sale sale_id user (store c) = Some s ->
  or_keep (su_quantity sale_data) (s_quantity s) = s_quantity s ->
  update_sale alone sale_id sale_data user c = (Ok r, c') ->
  products (store c') = products (store c) /\
  sales (store c')
  = update_rows (sale_where sale_id user) (assign_sale (sale_fields sale_data))
                (sales (store c)).
Proof.
  intros Hs Hq Hrun.
  refine (wp_run _ (fun r c' => forall s, r = Ok s -> _) c _ _ _ Hrun r eq_refl).
  clear Hrun. unfold update_sale. wp_step. wp_step. rewrite Hs. cbv zeta. rewrite Hq.
  wp_steps.
  all: try discriminate.
  all: intros ? _; tests.
  all: try (exfalso; lia).
  all: cbn [committed store]; rewrite store_executed_alone; split; reflexivity.
Qed.

Lemma zero_changes_no_match st c :
  0 <= total_changes c -> total_changes (executed alone st c) = 0 ->
  rowcount (cursor_of alone st c) = 0.
Proof.
  intros H0 H. rewrite total_changes_executed in H.
  pose proof (rowcount_nonneg alone st c). lia.
Qed.

(** Finds the fetched row whose absence a branch assumes. *)
Ltac refetch :=
  match goal with
  | H : select_sale_by_id (lastrowid _) _ = None |- _ =>
      unfold cursor_of in H; cbn [committed store] in H;
      rewrite !store_executed_alone, store_begun_alone in H;
      cbn [apply_statement snd lastrowid] in H;
      unfold select_sale_by_id in H;
      cbn [apply_statement fst with_products with_sales sales] in H;
      match type of H with
      | find _ (sales ?db ++ [?row]) = None =>
          pose proof (select_new_sale_by_id (s_userId row)
                        (mkSaleCreate (s_productName row) (s_quantity row) (s_customerId row)
                           (s_saleDate row) (s_totalSalePrice row) (s_note row)) db) as N;
          unfold select_sale_by_id in N; cbn in N; cbn in H; congruence
      end
  | H : select_product_by_id (lastrowid _) _ = None |- _ =>
      unfold cursor_of in H; cbn [committed store] in H;
      rewrite !store_executed_alone, store_begun_alone in H;
      cbn [apply_statement snd lastrowid] in H;
      unfold select_product_by_id in H;
      cbn [apply_statement fst with_products with_sales products] in H;
      match type of H with
      | find _ (products ?db ++ [?row]) = None =>
          pose proof (select_new_product_by_id (p_userId row)
                        (mkProductCreate (p_name row) (p_description row) (p_stock row)
                           (p_unit row) (p_supplierId row)) db) as N;
          unfold select_product_by_id in N; cbn in N; cbn in H; congruence
      end
  | H : select_sale_by_id ?id _ = None, Hs : select_sale ?id ?u (store ?c) = Some ?s |- _ =>
      cbn [committed store] in H; rewrite !store_executed_alone in H;
      unfold select_sale_by_id in H;
      cbn [apply_statement fst with_products with_sales sales] in H;
      destruct (select_sale_some _ _ _ _ Hs) as (?Hin & ?Hid & _);
      match type of H with
      | find _ (update_rows _ (assign_sale ?a) ?l) = None =>
          destruct (sale_by_id_after_update id u a l s) as [? ?]; [assumption.. | congruence]
      end
  | H : select_product_by_id ?id _ = None, Hs : select_product ?id ?u (store ?c) = Some ?p |- _ =>
      cbn [committed store] in H; rewrite !store_executed_alone in H;
      unfold select_product_by_id in H;
      cbn [apply_statement fst with_products with_sales products] in H;
      destruct (select_product_some _ _ _ _ Hs) as (?Hin & ?Hid & _);
      match type of H with
      | find _ (update_rows (product_where _ _ ?v) (assign_product ?a) ?l) = None =>
          destruct (product_by_id_after_update id u v a l p) as [? ?];
          [assumption.. | congruence]
      end
  end.

Lemma count_rows_zero_inv {A} (f : A -> bool) (l : list A) :
  count_rows f l = 0 -> forall x, In x l -> f x = false.
Proof.
  intros H x Hin. destruct (f x) eqn:E; [|reflexivity].
  pose proof (count_rows_pos f l x Hin E). lia.
Qed.

Lemma unmatched_update_keeps_store a id user ver c :
  saved c = None -> 0 <= total_changes c ->
  total_changes (executed alone (UpdateProducts a id user ver) c) = 0 ->
  store (executed alone (UpdateProducts a id user ver) c) = store c.
Proof.
  intros Hs Htc H. apply zero_changes_no_match in H; [|exact Htc].
  unfold cursor_of in H. rewrite store_begun_alone in H. simpl in H.
  rewrite store_executed_alone. simpl.
  rewrite (update_rows_none _ _ _ (count_rows_zero_inv _ _ H)).
  destruct (store c); reflexivity.
Qed.

Ltac unchanged Hs Htc :=
  first
    [ reflexivity
    | settle Hs; reflexivity
    | match goal with
      | H : (total_changes _ =? 0) = true |- _ =>
          apply Z.eqb_eq in H; apply (unmatched_update_keeps_store _ _ _ _ _ Hs Htc H)
      end ].

(** X8. Every writing handler, with no other connection writing: a request that
    is answered with an error, of whatever kind, has changed nothing in the
    store, before and after the connection is released. *)
Theorem failed_request_changes_nothing
    (r : Request) (c c' : Connection) (e : Detail) :
  saved c = None -> 0 <= total_changes c ->
  handle alone r c = (Raise e, c') ->
  store c' = store c /\ store (release c') = store c.
Proof.
  intros Hs Htc Hrun.
  refine (wp_run _ (fun r1 c1 => forall e1, r1 = Raise e1 ->
            store c1 = store c /\ store (release c1) = store c)
            c _ _ _ Hrun e eq_refl).
  clear Hrun e c'.
  assert (Hopen : store (begun alone c) = store c /\
                  store (release (begun alone c)) = store c)
    by (unfold release, begun; rewrite Hs; split; reflexivity).
  destruct r; unfold handle; apply wp_bind.
  - unfold create_sale. wp_steps.
    all: try discriminate.
    all: intros e1 E1; inversion E1; subst e1; clear E1.
    all: try (split; [unchanged Hs Htc | settle Hs; reflexivity]).
    all: exfalso; refetch.
  - unfold update_sale. wp_steps.
    all: try discriminate.
    all: intros e1 E1; inversion E1; subst e1; clear E1.
    all: try (split; [unchanged Hs Htc | settle Hs; reflexivity]).
    all: exfalso; refetch.
  - unfold delete_sale. wp_steps.
    all: try discriminate.
    all: intros e1 E1; inversion E1; subst e1; clear E1.
    all: try (split; [unchanged Hs Htc | settle Hs; reflexivity]).
  - unfold create_product. wp_steps.
    all: try discriminate.
    all: intros e1 E1; inversion E1; subst e1; clear E1.
    all: try exact Hopen.
    all: try (split; [unchanged Hs Htc | settle Hs; reflexivity]).
    all: exfalso; refetch.
  - unfold update_product. wp_steps.
    all: try discriminate.
    all: intros e1 E1; inversion E1; subst e1; clear E1.
    all: try exact Hopen.
    all: try (split; [unchanged Hs Htc | settle Hs; reflexivity]).
    all: exfalso; refetch.
  - unfold delete_product. wp_steps.
    all: try discriminate.
    all: intros e1 E1; inversion E1; subst e1; clear E1.
    all: try (split; [unchanged Hs Htc | settle Hs; reflexivity]).
  - unfold update_product_stock. wp_steps.
    all: try discriminate.
    all: intros e1 E1; inversion E1; subst e1; clear E1.
    all: try (split; [unchanged Hs Htc | settle Hs; reflexivity]).
    all: exfalso; refetch.
Qed.

Lemma select_product_is_by_id id user db p :
  ids_unique db -> select_product id user db = Some p ->
  select_product_by_id id db = Some p.
Proof.
  intros Hu Hp. destruct (select_product_some _ _ _ _ Hp) as (Hin & Hid & _).
  destruct (find_exists (fun x => p_id x =? id) (products db) p Hin) as [y Hy].
  - apply Z.eqb_eq. exact Hid.
  - unfold select_product_by_id. rewrite Hy. f_equal.
    apply find_some in Hy. destruct Hy as [Hyin Hyid]. apply Z.eqb_eq in Hyid.
    apply (unique_row _ _ _ Hu Hyin Hin). congruence.
Qed.

Lemma version_or_1_pos v : 1 <= v -> version_or_1 v = v.
Proof. intros H. unfold version_or_1. destruct (Z.eqb_spec v 0); [lia | reflexivity]. Qed.

Lemma product_where_own id user p :
  p_id p = id -> p_userId p = user ->
  product_where id user (Some (p_version p)) p = true.
Proof. intros <- <-. unfold product_where. rewrite !Z.eqb_refl. reflexivity. Qed.

Lemma select_product_updated id user a ver db p :
  select_product id user db = Some p ->
  product_where id user ver p = true ->
  select_product id user (fst (apply_statement (UpdateProducts a id user ver) db))
  = Some (assign_product a p).
Proof.
  intros Hp Hw. unfold select_product in *. simpl.
  rewrite find_update_rows by reflexivity. rewrite Hp. simpl. rewrite Hw. reflexivity.
Qed.

Lemma select_product_by_id_updated id user a ver db p :
  select_product_by_id id db = Some p ->
  product_where id user ver p = true ->
  select_product_by_id id (fst (apply_statement (UpdateProducts a id user ver) db))
  = Some (assign_product a p).
Proof.
  intros Hp Hw. unfold select_product_by_id in *. simpl.
  rewrite find_update_rows by reflexivity. rewrite Hp. simpl. rewrite Hw. reflexivity.
Qed.

(** X9. [update_product_stock] at a version: a request carrying another version
    than the stored one is refused with the stored and the supplied version
    and changes nothing, whatever other connections do; a request carrying
    the stored version, with no other connection writing, and whose
    resulting stock is at least 0 and within the store's integers, sets the
    stock to the stored stock plus the supplied quantity, raises the version
    by one and leaves the sales alone. *)
Theorem update_product_stock_at_version
    (c : Connection) (product_id user : Z) (stock_data : ProductStockUpdate) (p : Product) :
  select_product product_id user (store c) = Some p ->
  (psu_version stock_data <> version_or_1 (p_version p) ->
   forall others,
     update_product_stock others product_id stock_data user c
     = (Raise (VersionMismatch (version_or_1 (p_version p)) (psu_version stock_data)), c)) /\
  (ids_unique (store c) -> 0 <= total_changes c -> 1 <= p_version p ->
   psu_version stock_data = p_version p ->
   0 <= p_stock p + psu_quantity stock_data ->
   int64 (p_stock p + psu_quantity stock_data) ->
   exists c',
     update_product_stock alone product_id stock_data user c
     = (Ok (assign_product (stock_only (p_stock p + psu_quantity stock_data)) p), c') /\
     select_product product_id user (store c')
     = Some (assign_product (stock_only (p_stock p + psu_quantity stock_data)) p) /\
     sales (store c') = sales (store c) /\ saved c' = None).
Proof.
  intros Hp. split.
  - intros Hv others. apply wp_value. unfold update_product_stock.
    wp_step. wp_step. rewrite Hp. wp_steps.
    all: try reflexivity.
    all: dead.
  - intros Hu Htc H1 Hv Hstock _.
    destruct (select_product_some _ _ _ _ Hp) as (Hin & Hid & Hus).
    pose proof (select_product_is_by_id _ _ _ _ Hu Hp) as Hbyid.
    pose proof (product_where_own _ _ p Hid Hus) as Hw.
    exists (committed (executed alone
              (UpdateProducts (stock_only (p_stock p + psu_quantity stock_data))
                              product_id user (Some (p_version p))) c)).
    split; [|split; [|split; [cbn [committed store]; rewrite store_executed_alone; reflexivity | reflexivity]]].
    + apply wp_value. unfold update_product_stock. wp_step. wp_step. rewrite Hp.
      cbv zeta. rewrite (version_or_1_pos _ H1), Hv.
      assert (Hrow : select_product_by_id product_id
                (store (committed (executed alone
                   (UpdateProducts (stock_only (p_stock p + psu_quantity stock_data))
                                   product_id user (Some (p_version p))) c)))
              = Some (assign_product (stock_only (p_stock p + psu_quantity stock_data)) p)).
      { cbn [committed store]. rewrite store_executed_alone.
        apply select_product_by_id_updated; assumption. }
      wp_steps.
      all: try (exfalso; tests; congruence || lia).
      * exfalso. tests.
        match goal with H : total_changes _ = 0 |- _ =>
          rewrite total_changes_executed in H;
          assert (0 < rowcount (cursor_of alone
                     (UpdateProducts (stock_only (p_stock p + psu_quantity stock_data))
                                     product_id user (Some (p_version p))) c))
            by (unfold cursor_of; rewrite store_begun_alone; simpl;
                apply (count_rows_pos _ _ p Hin Hw));
          lia
        end.
      * rewrite Hrow in *. same. unfold product_response. simpl.
        rewrite version_or_1_pos by lia. reflexivity.
    + cbn [committed store]. rewrite store_executed_alone.
      apply select_product_updated; assumption.
Qed.



(** X11. [create_product], with no other connection writing: an accepted product
    is appended at version 1 under an id above every earlier one, its name
    was not in use by the caller, it is found again by its id, and a second
    product of the same name is then refused. *)
Theorem create_product_registers_a_name
    (c c1 : Connection) (product_data : ProductCreate) (user : Z) (p : Product) :
  create_product alone product_data user c = (Ok p, c1) ->
  p = new_product user product_data (store c) /\
  products (store c1) = products (store c) ++ [p] /\
  select_product_by_name user (pc_name product_data) (store c) = None /\
  (forall x, In x (products (store c)) -> p_id x < p_id p) /\
  select_product (p_id p) user (store c1) = Some p /\
  forall again,
    pc_name again = pc_name product_data ->
    create_product alone again user c1 = (Raise (NameTaken (pc_name product_data)), c1).
Proof.
  intros Hrun.
  assert (Hfree : select_product_by_name user (pc_name product_data) (store c) = None).
  { refine (wp_run _ (fun r _ => forall p, r = Ok p -> _) c _ _ _ Hrun p eq_refl).
    clear. unfold create_product. wp_steps.
    all: try discriminate.
    all: intros ? _;
      destruct (select_product_by_name user (pc_name product_data) (store c));
      [discriminate | reflexivity]. }
  destruct (create_product_alone_ok c product_data user p c1 Hrun) as [-> ->].
  change (product_response (new_product user product_data (store c)))
    with (new_product user product_data (store c)) in *.
  assert (Hprods : products (store (committed (executed alone (InsertProduct user product_data) c)))
                   = products (store c) ++ [new_product user product_data (store c)]).
  { cbn [committed store]. rewrite store_executed_alone. reflexivity. }
  assert (Hfresh : forall x, In x (products (store c)) ->
                     p_id x < p_id (new_product user product_data (store c))).
  { intros x Hx. simpl. exact (next_rowid_fresh _ _ (in_map p_id _ _ Hx)). }
  split; [reflexivity|]. split; [exact Hprods|]. split; [exact Hfree|].
  split; [exact Hfresh|]. split.
  - unfold select_product. rewrite Hprods. apply find_app_last.
    + intros x Hx. unfold product_where. specialize (Hfresh x Hx).
      destruct (Z.eqb_spec (p_id x) (p_id (new_product user product_data (store c))));
        [lia | reflexivity].
    + unfold product_where. simpl. rewrite !Z.eqb_refl. reflexivity.
  - intros again Hname. apply wp_value. unfold create_product. wp_steps.
    all: try (rewrite Hname; reflexivity).
    all: exfalso;
      match goal with H : is_some _ = false |- _ => revert H end;
      unfold select_product_by_name; rewrite Hprods, Hname;
      destruct (find_exists
                  (fun q => (p_userId q =? user) && (p_name q =? pc_name product_data)%string)
                  (products (store c) ++ [new_product user product_data (store c)])
                  (new_product user product_data (store c))) as [y ->];
      [ apply in_or_app; right; left; reflexivity
      | simpl; rewrite Z.eqb_refl, String.eqb_refl; reflexivity
      | discriminate ].
Qed.

(** X12. The supplier reference of a product: [create_product] refuses every
    supplier id, 0 included, that is not one of the caller's suppliers and
    changes nothing; [update_product] never refuses supplier id 0, which
    clears the supplier of the product it updates, and never checks a
    supplier id equal to the stored one. *)
Theorem product_supplier_reference
    (others : Database -> Database) (c : Connection) (user : Z) :
  (forall product_data sid,
     select_product_by_name user (pc_name product_data) (store c) = None ->
     pc_supplierId product_data = Some sid ->
     exists_owned sid user (suppliers (store c)) = false ->
     create_product others product_data user c = (Raise SupplierUnknown, c)) /\
  (forall product_id product_data r c',
     pu_supplierId product_data = Some 0 ->
     update_product others product_id product_data user c = (r, c') ->
     r <> Raise SupplierUnknown /\
     (forall p, r = Ok p ->
        forall x, In x (products (store c')) ->
                  product_where product_id user None x = true -> p_supplierId x = None)) /\
  (forall product_id product_data p sid,
     select_product product_id user (store c) = Some p ->
     pu_supplierId product_data = Some sid -> p_supplierId p = Some sid ->
     fst (update_product others product_id product_data user c) <> Raise SupplierUnknown).
Proof.
  split; [|split].
  - intros d sid Hfree Hsid Hex. apply wp_value. unfold create_product. rewrite Hsid.
    wp_steps.
    all: try reflexivity.
    all: exfalso; tests; try congruence.
    all: match goal with H : is_some _ = true |- _ => rewrite Hfree in H; discriminate H end.
  - intros id d r c' Hsid Hrun.
    assert (Hset : set_supplierId (product_fields d) = Some None)
      by (unfold product_fields; simpl; rewrite Hsid; reflexivity).
    refine (wp_run _ (fun r c' => r <> Raise SupplierUnknown /\ (forall p, r = Ok p -> _))
              c _ _ _ Hrun).
    clear Hrun. unfold update_product. rewrite Hsid. wp_steps.
    all: try match goal with
             | H : differs 0 _ && negb (0 =? 0) = true |- _ =>
                 rewrite andb_false_r in H; discriminate H
             end.
    all: split; [discriminate|]; try discriminate.
    all: intros ? _ x Hin Hw; cbn [committed store] in Hin;
      rewrite (store_executed others) in Hin;
      cbn [apply_statement fst with_products products] in Hin;
      destruct (In_updated_products _ _ _ _ (product_where_assign _ id user) Hin Hw)
        as (y & _ & _ & ->);
      unfold assign_product; cbn [p_supplierId]; rewrite Hset; reflexivity.
  - intros id d p sid Hp Hsid Hsame.
    change (wp (update_product others id d user) (fun r _ => r <> Raise SupplierUnknown) c).
    unfold update_product. wp_step. wp_step. rewrite Hp. cbv zeta. rewrite Hsid.
    wp_steps.
    all: try discriminate.
    all: exfalso;
      match goal with
      | H : differs _ _ && _ = true |- _ =>
          rewrite Hsame in H; simpl in H; rewrite Z.eqb_refl in H; discriminate H
      end.
Qed.

(** X13. [update_product] refuses, without changing the connection and
    whatever other connections do: first a supplied version that is not the
    stored one; then, the version being current, a new name another product of
    the caller already has, and a request with no field to set. *)
Theorem update_product_refusals
    (others : Database -> Database) (c : Connection) (product_id user : Z)
    (product_data : ProductUpdate) (p : Product) :
  select_product product_id user (store c) = Some p ->
  (forall v, pu_version product_data = Some v -> v <> version_or_1 (p_version p) ->
     update_product others product_id product_data user c
     = (Raise (VersionMismatch (version_or_1 (p_version p)) v), c)) /\
  (forall n q, version_current product_data p ->
     changed_name (pu_name product_data) (p_name p) = Some n ->
     select_other_product_by_name user n product_id (store c) = Some q ->
     update_product others product_id product_data user c = (Raise (NameTaken n), c)) /\
  (version_current product_data p ->
   no_product_fields (product_fields product_data) = true ->
   update_product others product_id product_data user c = (Raise NoFields, c)).
Proof.
  intros Hp. split; [|split].
  - intros v Hv Hne. apply wp_value. unfold update_product. wp_step. wp_step. rewrite Hp.
    cbv zeta. rewrite Hv. wp_steps.
    all: try reflexivity.
    all: dead.
  - intros n q Hadm Hn Hq. unfold version_current in Hadm.
    apply wp_value. unfold update_product. wp_step. wp_step. rewrite Hp.
    cbv zeta. rewrite Hn. wp_steps.
    all: try reflexivity.
    all: exfalso; tests; same; try congruence.
    all: match goal with H : is_some _ = false |- _ => rewrite Hq in H; discriminate H end.
  - intros Hadm Hno. unfold version_current in Hadm.
    assert (Hd : pu_name product_data = None /\ pu_supplierId product_data = None).
    { unfold no_product_fields, product_fields in Hno. simpl in Hno.
      destruct (pu_name product_data), (pu_description product_data),
        (pu_stock product_data), (pu_unit product_data), (pu_supplierId product_data);
        try discriminate; auto. }
    destruct Hd as [Hn Hsup].
    apply wp_value. unfold update_product. wp_step. wp_step. rewrite Hp.
    cbv zeta. rewrite Hn, Hsup. cbn [changed_name]. wp_steps.
    all: try reflexivity.
    all: dead.
Qed.

Lemma update_not_refused others c d id user :
  saved c = None ->
  (forall name, pu_name d = Some name ->
     select_other_product_by_name user name id (others (store c)) = None) ->
  breaks_unique (UpdateProducts (product_fields d) id user None) (store (begun others c))
  = false.
Proof.
  intros Hs Hfree. unfold begun. rewrite Hs. cbn [store breaks_unique product_fields set_name].
  destruct (pu_name d) as [name|]; [|reflexivity].
  rewrite (Hfree name eq_refl). apply andb_false_r.
Qed.

Lemma update_refused others c d id user name q row :
  saved c = None ->
  pu_name d = Some name ->
  select_other_product_by_name user name id (others (store c)) = Some q ->
  select_product_by_id id (others (store c)) = Some row -> p_userId row = user ->
  breaks_unique (UpdateProducts (product_fields d) id user None) (store (begun others c))
  = true.
Proof.
  intros Hs Hname Hq Hrow Hown. unfold begun. rewrite Hs.
  cbn [store breaks_unique product_fields set_name]. rewrite Hname, Hq.
  unfold select_product_by_id in Hrow. apply find_some in Hrow. destruct Hrow as [Hin Hid].
  rewrite andb_true_r. apply Z.ltb_lt. apply (count_rows_pos _ _ row Hin).
  unfold product_where. rewrite Hid, Hown, Z.eqb_refl. reflexivity.
Qed.

(** X14. [update_product] against a concurrent writer: once its checks on the row
    it read have passed, it writes over whatever another connection has
    committed to that row in between.  When no other product of the caller
    holds the requested name by then, and a supplied stock is within the
    store's integers, the request succeeds, the version is the other
    connection's plus one, and a supplied stock replaces the stock the other
    connection wrote.  When another connection has given the requested name
    to another product of the caller in between, the store refuses the
    write, the request is answered with status 500, and the tables are the
    ones the other connection left. *)
Theorem update_product_writes_over_others
    (others : Database -> Database) (c : Connection) (product_id user : Z)
    (product_data : ProductUpdate) (p row : Product) :
  saved c = None ->
  select_product product_id user (store c) = Some p ->
  update_checked product_data p user (store c) ->
  select_product_by_id product_id (others (store c)) = Some row ->
  p_userId row = user ->
  ((forall name, pu_name product_data = Some name ->
      select_other_product_by_name user name product_id (others (store c)) = None) ->
   (forall n, pu_stock product_data = Some n -> int64 n) ->
   exists c',
     update_product others product_id product_data user c
     = (Ok (product_response (assign_product (product_fields product_data) row)), c') /\
     store c'
     = fst (apply_statement (UpdateProducts (product_fields product_data) product_id user None)
                            (others (store c))) /\
     saved c' = None /\
     p_version (assign_product (product_fields product_data) row) = p_version row + 1 /\
     (forall n, pu_stock product_data = Some n ->
                p_stock (assign_product (product_fields product_data) row) = n)) /\
  (forall name q, pu_name product_data = Some name ->
     select_other_product_by_name user name product_id (others (store c)) = Some q ->
     exists c',
       update_product others product_id product_data user c = (Raise Unexpected, c') /\
       store c' = others (store c) /\ store (release c') = others (store c) /\
       status_code Unexpected = 500).
Proof.
  intros Hs Hp (Hver & Hname & Hsup & Hfields) Hrow Hown.
  destruct (select_product_some _ _ _ _ Hp) as (_ & Hpid & _). rewrite Hpid in Hname.
  set (write := UpdateProducts (product_fields product_data) product_id user None).
  assert (Hchecks : forall Q,
            (wp (x <- execute others write ;; commit ;;
                 row <- query (select_product_by_id product_id) ;;
                 row <- fetched row ;; ret (product_response row)) Q c) ->
            wp (update_product others product_id product_data user) Q c).
  { intros Q HQ. unfold update_product. wp_step. wp_step. rewrite Hp. cbv zeta.
    fold write.
    repeat lazymatch goal with
           | |- wp (bind (execute _ _) _) _ _ => fail
           | _ => wp_step
           end.
    all: try exact HQ.
    all: exfalso; tests; same; try congruence.
    all: try match goal with
         | H : exists_owned _ _ _ = false |- _ =>
             rewrite Hsup in H;
             [ discriminate H
             | apply andb_true_iff; split;
               [assumption | apply negb_true_iff; apply Z.eqb_neq; assumption] ]
         end.
    all: try match goal with
         | H : is_some _ = true |- _ => rewrite Hname in H; discriminate H
         end. }
  split.
  - intros Hfree _.
    assert (Hstore : store (executed others write c)
                     = fst (apply_statement write (others (store c)))).
    { rewrite store_executed. unfold begun. rewrite Hs. reflexivity. }
    assert (Hw : product_where product_id user None row = true).
    { unfold select_product_by_id in Hrow. apply find_some in Hrow. destruct Hrow as [_ Hid].
      unfold product_where. rewrite Hid, Hown, Z.eqb_refl. reflexivity. }
    assert (Hrow' : select_product_by_id product_id (store (committed (executed others write c)))
                    = Some (assign_product (product_fields product_data) row)).
    { cbn [committed store]. rewrite Hstore.
      apply select_product_by_id_updated; assumption. }
    exists (committed (executed others write c)).
    split; [|split; [exact Hstore | split; [reflexivity | split; [reflexivity |]]]].
    + apply wp_value. apply Hchecks. wp_steps.
      all: try (rewrite Hrow' in *; same; reflexivity).
      all: exfalso.
      all: try (rewrite Hrow' in *; discriminate).
      all: match goal with
           | H : breaks_unique _ _ = true |- _ =>
               unfold write in H; rewrite (update_not_refused others c _ _ _ Hs Hfree) in H;
               discriminate H
           end.
    + intros n Hn. simpl. rewrite Hn. reflexivity.
  - intros name q Hn Hq.
    pose proof (update_refused others c _ _ _ _ _ _ Hs Hn Hq Hrow Hown) as Hb.
    exists (begun others c).
    assert (Hopen : store (begun others c) = others (store c) /\
                    store (release (begun others c)) = others (store c))
      by (unfold release, begun; rewrite Hs; split; reflexivity).
    split; [|split; [exact (proj1 Hopen) | split; [exact (proj2 Hopen) | reflexivity]]].
    apply wp_value. apply Hchecks. apply wp_bind. apply wp_execute.
    + intros Hnb. unfold write in Hnb. congruence.
    + intros _. reflexivity.
Qed.

(** X15. [delete_product], with no other connection writing: the caller's
    product is removed and the sales that name it stay; a second deletion is
    refused with status 404; a sale naming the deleted product can still be
    deleted, and that deletion touches no product. *)
Theorem delete_product_keeps_its_sales
    (c : Connection) (product_id user : Z) (p : Product) :
  select_product product_id user (store c) = Some p ->
  exists c',
    delete_product alone product_id user c = (Ok tt, c') /\
    products (store c') = delete_rows (product_where product_id user None) (products (store c)) /\
    select_product product_id user (store c') = None /\
    sales (store c') = sales (store c) /\
    saved c' = None /\
    delete_product alone product_id user c' = (Raise ProductNotFound, c') /\
    (forall sale_id s,
       select_sale sale_id user (store c) = Some s ->
       s_productName s = p_name p ->
       (forall x, In x (products (store c)) -> p_userId x = user ->
                  p_name x = p_name p -> p_id x = product_id) ->
       exists c'',
         delete_sale alone sale_id user c' = (Ok tt, c'') /\
         products (store c'') = products (store c') /\
         select_sale sale_id user (store c'') = None).
Proof.
  intros Hp.
  set (c' := committed (executed alone (DeleteProducts product_id user) c)).
  assert (Hprods : products (store c')
                   = delete_rows (product_where product_id user None) (products (store c))).
  { subst c'. cbn [committed store]. rewrite store_executed_alone. reflexivity. }
  assert (Hsales : sales (store c') = sales (store c)).
  { subst c'. cbn [committed store]. rewrite store_executed_alone. reflexivity. }
  assert (Hgone : select_product product_id user (store c') = None).
  { unfold select_product. rewrite Hprods. apply find_delete_rows. }
  exists c'. split; [|split; [exact Hprods | split; [exact Hgone | split; [exact Hsales |
                       split; [reflexivity | split]]]]].
  - apply wp_value. unfold delete_product. wp_step. wp_step. rewrite Hp. wp_steps. reflexivity.
  - unfold delete_product, bind, query, raise. rewrite Hgone. reflexivity.
  - intros sale_id s Hs Hname Hkey.
    assert (Hs' : select_sale sale_id user (store c') = Some s).
    { unfold select_sale. rewrite Hsales. exact Hs. }
    assert (Hnone : select_product_by_name user (s_productName s) (store c') = None).
    { unfold select_product_by_name. rewrite Hprods. apply find_none_iff.
      intros x Hx. unfold delete_rows in Hx. apply filter_In in Hx. destruct Hx as [Hx Hnw].
      destruct (Z.eqb_spec (p_userId x) user) as [Eu|]; [|reflexivity].
      destruct (String.eqb_spec (p_name x) (s_productName s)) as [En|]; [|reflexivity].
      exfalso. rewrite Hname in En. pose proof (Hkey x Hx Eu En) as Eid.
      unfold product_where in Hnw. rewrite Eid, Eu, !Z.eqb_refl in Hnw. discriminate Hnw. }
    exists (committed (executed alone (DeleteSales sale_id user) c')).
    split; [apply (delete_sale_without_product alone c' sale_id user s Hs' Hnone)|].
    cbn [committed store]. rewrite store_executed_alone.
    split; [reflexivity | apply find_delete_rows].
Qed.


Lemma insert_row_perm {A} (first : A -> A -> bool) x l :
  Permutation (insert_row first x l) (x :: l).
Proof.
  induction l as [|y r IH]; simpl; [apply Permutation_refl|].
  destruct (first x y); [apply Permutation_refl|].
  eapply Permutation_trans; [apply perm_skip; exact IH | apply perm_swap].
Qed.

Lemma order_by_perm {A} (first : A -> A -> bool) l : Permutation (order_by first l) l.
Proof.
  unfold order_by. induction l as [|x l IH]; simpl; [apply Permutation_refl|].
  eapply Permutation_trans; [apply insert_row_perm | apply perm_skip; exact IH].
Qed.

Lemma order_by_length {A} (first : A -> A -> bool) l :
  List.length (order_by first l) = List.length l.
Proof. apply Permutation_length. apply order_by_perm. Qed.

Section Sorting.

Context {A : Type} (first : A -> A -> bool).
Hypothesis first_total : forall x y, first x y = false -> first y x = true.

Let R (x y : A) : Prop := first x y = true.

Lemma insert_row_hd x y l :
  R y x -> HdRel R y l -> HdRel R y (insert_row first x l).
Proof.
  intros Hyx Hl. destruct l as [|z r]; simpl.
  - constructor. exact Hyx.
  - destruct (first x z); constructor; [exact Hyx | inversion Hl; assumption].
Qed.

Lemma insert_row_sorted x l : Sorted R l -> Sorted R (insert_row first x l).
Proof.
  induction l as [|y r IH]; simpl; intros Hs.
  - repeat constructor.
  - destruct (first x y) eqn:E.
    + constructor; [exact Hs | constructor; exact E].
    + inversion Hs as [|? ? Hr Hhd]; subst. constructor; [apply IH; exact Hr|].
      apply insert_row_hd; [apply first_total; exact E | exact Hhd].
Qed.

Lemma order_by_sorted l : Sorted R (order_by first l).
Proof.
  unfold order_by. induction l as [|x l IH]; simpl; [constructor|].
  apply insert_row_sorted. exact IH.
Qed.


Lemma sorted_firstn n l : Sorted R l -> Sorted R (firstn n l).
Proof.
  revert l. induction n as [|n IH]; intros l Hs; [constructor|].
  destruct l as [|x l]; [constructor|]. simpl. inversion Hs as [|? ? Hl Hhd]; subst.
  constructor; [apply IH; exact Hl|].
  destruct n; [constructor|]. destruct l as [|y l]; [constructor|]. simpl.
  constructor. inversion Hhd; assumption.
Qed.

Lemma sorted_limit n l : Sorted R l -> Sorted R (limit n l).
Proof. intros Hs. unfold limit. destruct (n <? 0); [exact Hs | apply sorted_firstn; exact Hs]. Qed.

End Sorting.



Lemma by_name_total a b : by_name a b = false -> by_name b a = true.
Proof.
  unfold by_name. intros H. destruct (String.leb_total (p_name a) (p_name b)); congruence.
Qed.

Lemma firstn_plus {A} (a b : nat) (l : list A) :
  firstn (a + b) l = firstn a l ++ firstn b (skipn a l).
Proof.
  revert l. induction a as [|a IH]; intros l; simpl; [reflexivity|].
  destruct l as [|x l]; simpl.
  - destruct b; reflexivity.
  - f_equal. apply IH.
Qed.

Lemma chunks_cover {A} (k m : nat) (l : list A) :
  List.concat (map (fun i => firstn k (skipn (i * k) l)) (seq 0 m)) = firstn (m * k) l.
Proof.
  induction m as [|m IH]; [reflexivity|].
  rewrite seq_S, map_app, concat_app, IH. simpl. rewrite app_nil_r.
  replace (k + m * k)%nat with (m * k + k)%nat by lia.
  symmetry. apply firstn_plus.
Qed.

Section ListingFacts.

Variable like : string -> string -> bool.
Variable date : string -> option string.

Lemma limit_length {A} (n : Z) (l : list A) :
  0 <= n -> Z.of_nat (List.length (limit n l)) <= n.
Proof.
  intros H. unfold limit. destruct (Z.ltb_spec n 0); [lia|].
  rewrite length_firstn. lia.
Qed.

Lemma limit_incl {A} (n : Z) (l : list A) x : In x (limit n l) -> In x l.
Proof.
  unfold limit. destruct (n <? 0); [auto|]. intros H.
  rewrite <- (firstn_skipn (Z.to_nat n) l). apply in_or_app. left. exact H.
Qed.


Lemma order_by_incl {A} (first : A -> A -> bool) (l : list A) x :
  In x (order_by first l) -> In x l.
Proof. apply Permutation_in. apply order_by_perm. Qed.

Lemma pages_bound (t ps : Z) :
  0 <= t -> 1 <= ps ->
  t <= (t + ps - 1) / ps * ps < t + ps.
Proof.
  intros Ht Hps.
  pose proof (Z.div_mod (t + ps - 1) ps ltac:(lia)) as E.
  pose proof (Z.mod_pos_bound (t + ps - 1) ps ltac:(lia)) as B.
  nia.
Qed.


(** X18. [get_sales]: the pages 1 to [total_pages] of one listing, one after the
    other, are the caller's matching sales in listing order, each exactly
    once: no sale is shown twice and none is left out. *)
Theorem get_sales_pages_cover_the_matches
    (c : Connection) (page_size : Z) (search start_date end_date : option string)
    (customer_id : option Z) (user : Z) :
  1 <= page_size ->
  let matching := filter (sales_where like date user search start_date end_date customer_id)
                         (sales (store c)) in
  let pages := Z.to_nat ((Z.of_nat (List.length matching) + page_size - 1) / page_size) in
  let listing :=
    List.concat
      (map (fun i => page_items (get_sales like date (Z.of_nat i + 1) page_size
                                   search start_date end_date customer_id user c))
           (seq 0 pages)) in
  listing = order_by newest_first matching /\ Permutation listing matching.
Proof.
  intros Hps matching pages listing.
  assert (E : listing = order_by newest_first matching).
  { subst listing.
    rewrite (map_ext _ (fun i => firstn (Z.to_nat page_size)
                                   (skipn (i * Z.to_nat page_size)
                                      (order_by newest_first matching)))).
    - rewrite chunks_cover. apply firstn_all2. rewrite order_by_length. subst pages.
      pose proof (pages_bound (Z.of_nat (List.length matching)) page_size
                    ltac:(lia) Hps) as Hb.
      nia.
    - intros i. unfold page_items, get_sales, bind, query, ret. cbn [fst].
      fold matching.
      destruct (Z.eqb_spec page_size 0); [lia|]. cbn [items].
      unfold limit, offset_rows. destruct (Z.ltb_spec page_size 0); [lia|].
      replace (Z.to_nat ((Z.of_nat i + 1 - 1) * page_size))
        with (i * Z.to_nat page_size)%nat by nia.
      reflexivity. }
  split; [exact E|]. rewrite E. apply order_by_perm.
Qed.

(** X19. [search_all_products] always succeeds and leaves the connection as it
    is; it returns at most 50 products in ascending order of name, each a
    stored product of the caller whose name or description matches the
    search text, and [count] is the number of products returned. *)
Theorem search_all_products_result (c : Connection) (search : string) (user : Z) :
  exists found,
    search_all_products like search user c
    = (Ok (found, Z.of_nat (List.length found)), c) /\
    Z.of_nat (List.length found) <= 50 /\
    Sorted (fun a b => by_name a b = true) found /\
    forall p, In p found ->
      p_userId p = user /\
      exists row, In row (products (store c)) /\ p = product_response row /\
                  products_like like user ("%" ++ search ++ "%") row = true.
Proof.
  set (rows := limit 50 (order_by by_name
                 (filter (products_like like user ("%" ++ search ++ "%"))
                         (products (store c))))).
  exists (map product_response rows).
  split; [reflexivity|]. split; [|split].
  - rewrite length_map. subst rows. apply limit_length. lia.
  - assert (Hs : Sorted (fun a b => by_name a b = true) rows).
    { subst rows. apply sorted_limit. apply order_by_sorted. exact by_name_total. }
    clear -Hs. induction Hs as [|x l Hl IH Hhd]; simpl; constructor; [exact IH|].
    destruct Hhd; simpl; constructor. assumption.
  - intros p Hin. apply in_map_iff in Hin. destruct Hin as (row & <- & Hrow).
    subst rows. apply limit_incl, order_by_incl in Hrow.
    apply filter_In in Hrow. destruct Hrow as [Hrow Hw].
    split.
    + unfold products_like in Hw. apply andb_true_iff in Hw. destruct Hw as [Hu _].
      apply Z.eqb_eq in Hu. exact Hu.
    + exists row. auto.
Qed.

End ListingFacts.

(** X16. [get_sale] and [get_product] answer not found for a row of another
    user, and leave the connection as it is; the sale [create_sale] answers
    with and the product [create_product] answers with are what a following
    [get_sale] and [get_product] of their ids return. *)
Theorem reads_are_scoped_and_find_what_was_written
    (c : Connection) (user : Z) :
  (forall sale_id, sale_of_another_user sale_id user (store c) ->
     get_sale sale_id user c = (Raise SaleNotFound, c)) /\
  (forall product_id, product_of_another_user product_id user (store c) ->
     get_product product_id user c = (Raise ProductNotFound, c)) /\
  (forall sale_data s c1,
     create_sale alone sale_data user c = (Ok s, c1) ->
     get_sale (s_id s) user c1 = (Ok s, c1)) /\
  (forall product_data p c1,
     create_product alone product_data user c = (Ok p, c1) ->
     get_product (p_id p) user c1 = (Ok p, c1)).
Proof.
  split; [|split; [|split]].
  - intros id H. unfold get_sale, bind, query, raise.
    rewrite (select_sale_another_user _ _ _ H). reflexivity.
  - intros id H. unfold get_product, bind, query, raise.
    rewrite (select_product_another_user _ _ _ H). reflexivity.
  - intros d s c1 Hrun.
    destruct (create_sale_alone_ok c d user s c1 Hrun) as (p & Hp & Hq & -> & ->).
    assert (Hs1 : select_sale (s_id (new_sale user d (store c))) user
                    (store (committed
                       (executed alone
                          (UpdateProducts (stock_only (p_stock p - sc_quantity d)) (p_id p) user
                             (Some (p_version p)))
                          (executed alone (InsertSale user d) c))))
                  = Some (new_sale user d (store c))).
    { cbn [committed store]. rewrite !store_executed_alone.
      unfold select_sale. cbn [apply_statement fst with_products with_sales sales].
      apply find_app_last; [apply old_sale_where | apply new_sale_where]. }
    unfold get_sale, bind, query, ret. rewrite Hs1. reflexivity.
  - intros d p c1 Hrun.
    destruct (create_product_alone_ok c d user p c1 Hrun) as [-> ->].
    change (product_response (new_product user d (store c)))
      with (new_product user d (store c)).
    assert (Hp1 : select_product (p_id (new_product user d (store c))) user
                    (store (committed (executed alone (InsertProduct user d) c)))
                  = Some (new_product user d (store c))).
    { cbn [committed store]. rewrite store_executed_alone.
      unfold select_product. cbn [apply_statement fst with_products products].
      apply find_app_last.
      - intros x Hx. unfold product_where.
        pose proof (next_rowid_fresh _ _ (in_map p_id _ _ Hx)).
        destruct (Z.eqb_spec (p_id x) (p_id (new_product user d (store c))));
          [simpl in *; lia | reflexivity].
      - unfold product_where. simpl. rewrite !Z.eqb_refl. reflexivity. }
    unfold get_product, bind, query, ret. rewrite Hp1. reflexivity.
Qed.


Lemma NoDup_map_map {A K} (k : A -> K) (h : A -> A) (l : list A) :
  (forall x y, In x l -> In y l -> k (h x) = k (h y) -> k x = k y) ->
  NoDup (map k l) -> NoDup (map k (map h l)).
Proof.
  induction l as [|x l IH]; simpl; intros Hinj Hnd; [constructor|].
  inversion Hnd as [|? ? Hx Hl]; subst. constructor.
  - intros Hin. apply Hx. rewrite map_map in Hin. apply in_map_iff in Hin.
    destruct Hin as (y & E & Hy). apply in_map_iff. exists y. split; [|exact Hy].
    symmetry. apply Hinj; auto.
  - apply IH; [|exact Hl]. intros a b Ha Hb. apply Hinj; auto.
Qed.

Lemma keys_stock_update f n l :
  map product_key (update_rows f (assign_product (stock_only n)) l) = map product_key l.
Proof.
  unfold update_rows. rewrite map_map. apply map_ext. intros x. destruct (f x); reflexivity.
Qed.

Lemma keys_after_insert user name l row :
  find (fun p => (p_userId p =? user) && String.eqb (p_name p) name) l = None ->
  product_key row = (user, name) ->
  NoDup (map product_key l) -> NoDup (map product_key (l ++ [row])).
Proof.
  intros Hnone Hkey Hnd. rewrite map_app. simpl. apply NoDup_app.
  - exact Hnd.
  - constructor; [intros [] | constructor].
  - intros k Hk [E|[]]. subst k. rewrite Hkey in Hk. apply in_map_iff in Hk.
    destruct Hk as (x & Ex & Hx). pose proof (find_none _ _ Hnone x Hx) as Hf.
    unfold product_key in Ex. inversion Ex as [[Eu En]].
    simpl in Hf. rewrite Eu, En, Z.eqb_refl, String.eqb_refl in Hf. discriminate Hf.
Qed.

Lemma changed_name_none_keeps requested old :
  changed_name requested old = None -> requested <> Some ""%string ->
  or_keep requested old = old.
Proof.
  unfold changed_name. destruct requested as [n|]; [|reflexivity].
  intros H Hne. simpl.
  destruct (String.eqb_spec n ""); [congruence|].
  destruct (String.eqb_spec n old); [assumption | discriminate H].
Qed.

Lemma changed_name_some requested old n :
  changed_name requested old = Some n -> requested = Some n.
Proof.
  unfold changed_name. destruct requested as [m|]; [|discriminate].
  destruct (negb (m =? "")%string && negb (m =? old)%string); [|discriminate].
  intros H. inversion H. reflexivity.
Qed.

Lemma keys_after_update id user d l p :
  NoDup (map p_id l) -> NoDup (map product_key l) ->
  In p l -> p_id p = id -> p_userId p = user ->
  pu_name d <> Some ""%string ->
  match changed_name (pu_name d) (p_name p) with
  | Some n => find (fun q => (p_userId q =? user) && String.eqb (p_name q) n
                             && negb (p_id q =? id)) l = None
  | None => True
  end ->
  NoDup (map product_key
           (update_rows (product_where id user None) (assign_product (product_fields d)) l)).
Proof.
  intros Hids Hkeys Hin Hid Hus Hne Hother. unfold update_rows.
  apply NoDup_map_map; [|exact Hkeys].
  assert (Hone : forall x, In x l -> product_where id user None x = true -> x = p).
  { intros x Hx Hw. apply (unique_row l x p Hids Hx Hin).
    unfold product_where in Hw. rewrite andb_true_r in Hw.
    apply andb_true_iff in Hw. destruct Hw as [Hw _]. apply Z.eqb_eq in Hw. congruence. }
  assert (Hnew : product_key (assign_product (product_fields d) p)
                 = (user, or_keep (pu_name d) (p_name p))).
  { unfold product_key. simpl. rewrite Hus. reflexivity. }
  intros x y Hx Hy.
  destruct (product_where id user None x) eqn:Wx, (product_where id user None y) eqn:Wy.
  - intros _. rewrite (Hone x Hx Wx), (Hone y Hy Wy). reflexivity.
  - rewrite (Hone x Hx Wx), Hnew. intros E.
    destruct (changed_name (pu_name d) (p_name p)) as [n|] eqn:Hc.
    + exfalso. rewrite (changed_name_some _ _ _ Hc) in E. simpl in E.
      pose proof (find_none _ _ Hother y Hy) as Hf. simpl in Hf.
      unfold product_key in E. inversion E as [[Eu En]].
      rewrite <- Eu, <- En, Z.eqb_refl, String.eqb_refl in Hf. simpl in Hf.
      apply negb_false_iff in Hf. unfold product_where in Wy.
      rewrite Hf, <- Eu, Z.eqb_refl in Wy. discriminate Wy.
    + rewrite (changed_name_none_keeps _ _ Hc Hne) in E. rewrite <- E.
      unfold product_key. rewrite Hus. reflexivity.
  - rewrite (Hone y Hy Wy), Hnew. intros E.
    destruct (changed_name (pu_name d) (p_name p)) as [n|] eqn:Hc.
    + exfalso. rewrite (changed_name_some _ _ _ Hc) in E. simpl in E.
      pose proof (find_none _ _ Hother x Hx) as Hf. simpl in Hf.
      unfold product_key in E. inversion E as [[Eu En]].
      rewrite Eu, En, Z.eqb_refl, String.eqb_refl in Hf. simpl in Hf.
      apply negb_false_iff in Hf. unfold product_where in Wx.
      rewrite Hf, Eu, Z.eqb_refl in Wx. discriminate Wx.
    + rewrite (changed_name_none_keeps _ _ Hc Hne) in E. rewrite E.
      unfold product_key. rewrite Hus. reflexivity.
  - exact (fun E => E).
Qed.


Lemma serve_names r c :
  named_request r -> ids_unique (store c) -> names_unique (store c) -> saved c = None ->
  names_unique (store (serve alone r c)).
Proof.
  intros Hv Hu Hn Hs. unfold serve.
  change (wp (handle alone r) (fun _ c' => names_unique (store (release c'))) c).
  unfold names_unique in *.
  destruct r; unfold handle; apply wp_bind; simpl in Hv.
  - unfold create_sale. wp_steps. all: settle Hs.
    all: rewrite ?keys_stock_update; exact Hn.
  - unfold update_sale. wp_steps. all: settle Hs.
    all: rewrite ?keys_stock_update; exact Hn.
  - unfold delete_sale. wp_steps. all: settle Hs.
    all: rewrite ?keys_stock_update; exact Hn.
  - unfold create_product. wp_steps. all: settle Hs.
    all: try exact Hn.
    all: apply (keys_after_insert user (pc_name d)); [|reflexivity | exact Hn];
      match goal with
      | H : is_some ?o = false |- _ => destruct o eqn:E; [discriminate H | exact E]
      end.
  - unfold update_product. wp_steps. all: settle Hs.
    all: try exact Hn.
    all: match goal with
         | Hp : select_product _ _ _ = Some ?p |- _ =>
             destruct (select_product_some _ _ _ _ Hp) as (Hin & Hid & Hus);
             apply (keys_after_update product_id user d _ p Hu Hn Hin Hid Hus Hv)
         end.
    all: match goal with
         | H : changed_name _ _ = _ |- _ => rewrite H
         | _ => idtac
         end.
    all: try exact I.
    all: match goal with
         | H : is_some ?o = false |- _ => destruct o eqn:E; [discriminate H | exact E]
         end.
  - unfold delete_product. wp_steps. all: settle Hs.
    all: try exact Hn.
    all: unfold delete_rows; apply NoDup_map_filter; exact Hn.
  - unfold update_product_stock. wp_steps. all: settle Hs.
    all: rewrite ?keys_stock_update; exact Hn.
Qed.

(** X20. Served one after the other with no other connection writing, the
    writing requests keep the product names of each user pairwise distinct
    and the product ids unique, provided no update asks for the empty name
    (which [update_product] takes for no name change while still writing
    it). *)
Theorem product_names_stay_unique (rs : list Request) (c : Connection) :
  Forall named_request rs ->
  ids_unique (store c) -> names_unique (store c) -> saved c = None ->
  names_unique (store (serve_all alone rs c)) /\
  ids_unique (store (serve_all alone rs c)).
Proof.
  intros Hv. revert c. induction Hv as [|r rs Hr _ IH]; intros c Hu Hn Hs; simpl.
  - split; assumption.
  - apply IH.
    + apply serve_unique; assumption.
    + apply serve_names; assumption.
    + reflexivity.
Qed.

Lemma filter_update_rows {A} (keep w : A -> bool) (g : A -> A) (l : list A) :
  (forall x, w x = true -> keep x = false /\ keep (g x) = false) ->
  filter keep (update_rows w g l) = filter keep l.
Proof.
  intros H. unfold update_rows. induction l as [|x l IH]; simpl; [reflexivity|].
  destruct (w x) eqn:W.
  - destruct (H x W) as [-> ->]. exact IH.
  - rewrite IH. reflexivity.
Qed.

Lemma filter_delete_rows {A} (keep w : A -> bool) (l : list A) :
  (forall x, w x = true -> keep x = false) ->
  filter keep (delete_rows w l) = filter keep l.
Proof.
  intros H. unfold delete_rows. induction l as [|x l IH]; simpl; [reflexivity|].
  destruct (w x) eqn:W; simpl.
  - rewrite (H x W). exact IH.
  - rewrite IH. reflexivity.
Qed.

Lemma foreign_apply_statement st db :
  foreign (statement_user st) (fst (apply_statement st db)) = foreign (statement_user st) db.
Proof.
  unfold foreign. destruct st; simpl; f_equal.
  - rewrite filter_app. simpl. rewrite Z.eqb_refl. simpl. apply app_nil_r.
  - apply filter_update_rows. intros x W. unfold sale_where in W.
    apply andb_true_iff in W. destruct W as [_ W]. simpl. rewrite W. auto.
  - apply filter_delete_rows. intros x W. unfold sale_where in W.
    apply andb_true_iff in W. destruct W as [_ W]. rewrite W. reflexivity.
  - rewrite filter_app. simpl. rewrite Z.eqb_refl. simpl. apply app_nil_r.
  - apply filter_update_rows. intros x W. unfold product_where in W.
    apply andb_true_iff in W. destruct W as [W _].
    apply andb_true_iff in W. destruct W as [_ W]. simpl. rewrite W. auto.
  - apply filter_delete_rows. intros x W. unfold product_where in W.
    apply andb_true_iff in W. destruct W as [W _].
    apply andb_true_iff in W. destruct W as [_ W]. rewrite W. reflexivity.
Qed.

Ltac settle_stores Hs :=
  cbn [release committed rolled_back store saved];
  repeat (rewrite begun_executed || rewrite saved_executed);
  rewrite ?(saved_begun_alone _ Hs), ?Hs;
  cbn [release committed rolled_back store saved];
  rewrite ?store_executed_alone.

Ltac foreign_leaf :=
  repeat match goal with
         | |- foreign ?u (fst (apply_statement ?st ?db)) = _ =>
             rewrite (foreign_apply_statement st db : foreign u _ = foreign u db)
         end;
  reflexivity.

(** X22. With no other connection writing, a request changes no row of another
    user: the products and sales of every user but the caller are the same
    before and after the request is served. *)
Theorem requests_leave_other_users_alone (r : Request) (c : Connection) :
  saved c = None ->
  foreign (request_user r) (store (serve alone r c)) = foreign (request_user r) (store c).
Proof.
  intros Hs. unfold serve.
  change (wp (handle alone r)
             (fun _ c' => foreign (request_user r) (store (release c'))
                          = foreign (request_user r) (store c)) c).
  destruct r; unfold handle; apply wp_bind; cbn [request_user].
  - unfold create_sale. wp_steps. all: settle_stores Hs; foreign_leaf.
  - unfold update_sale. wp_steps. all: settle_stores Hs; foreign_leaf.
  - unfold delete_sale. wp_steps. all: settle_stores Hs; foreign_leaf.
  - unfold create_product. wp_steps. all: settle_stores Hs; foreign_leaf.
  - unfold update_product. wp_steps. all: settle_stores Hs; foreign_leaf.
  - unfold delete_product. wp_steps. all: settle_stores Hs; foreign_leaf.
  - unfold update_product_stock. wp_steps. all: settle_stores Hs; foreign_leaf.
Qed.

Lemma total_changes_after_own_update others st c user name p a :
  0 <= total_changes c ->
  select_product_by_name user name (store (executed others st c)) = Some p ->
  total_changes (executed others (UpdateProducts a (p_id p) user (Some (p_version p)))
                   (executed others st c)) <> 0.
Proof.
  intros Htc Hp. rewrite !total_changes_executed.
  pose proof (rowcount_own_row_in_unit others st c user name p a Hp).
  pose proof (rowcount_nonneg others st c). lia.
Qed.

Ltac settle_others Hs :=
  cbn [release committed rolled_back store saved];
  repeat (rewrite begun_executed || rewrite saved_executed);
  unfold begun; rewrite ?Hs;
  cbn [release committed rolled_back store saved].

(** X21. A version conflict leaves no trace: whatever other connections do, a
    request refused as a version conflict leaves, once its connection is
    released, either the store as it was or the store as the other
    connections made it, with nothing of its own; and the conflict reported
    is never the one of [update_sale]'s check of its old product's stock
    update. *)
Theorem version_conflict_leaves_no_trace
    (others : Database -> Database) (r : Request) (c c' : Connection) (e : Detail) :
  saved c = None -> 0 <= total_changes c ->
  handle others r c = (Raise e, c') ->
  error_kind e = VersionConflict ->
  e <> OldStockChanged /\
  (store (release c') = store c \/ store (release c') = others (store c)).
Proof.
  intros Hs Htc Hrun Hk.
  refine (wp_run _ (fun r1 c1 => forall e1, r1 = Raise e1 -> error_kind e1 = VersionConflict ->
            e1 <> OldStockChanged /\
            (store (release c1) = store c \/ store (release c1) = others (store c)))
            c _ _ _ Hrun e eq_refl Hk).
  clear Hrun Hk e c'.
  destruct r; unfold handle; apply wp_bind.
  - unfold create_sale. wp_steps.
    all: try discriminate.
    all: intros e1 E1 K1; inversion E1; subst e1; clear E1; try discriminate K1.
    all: split; [discriminate|]; settle_others Hs; auto.
  - unfold update_sale. wp_steps.
    all: try discriminate.
    all: intros e1 E1 K1; inversion E1; subst e1; clear E1; try discriminate K1.
    all: try (split; [discriminate|]; settle_others Hs; auto; fail).
    all: exfalso; tests;
      match goal with
      | H : total_changes _ = 0, Hp : select_product_by_name _ _ (store (executed _ _ _)) = Some _
        |- _ => exact (total_changes_after_own_update _ _ _ _ _ _ _ Htc Hp H)
      end.
  - unfold delete_sale. wp_steps.
    all: try discriminate.
    all: intros e1 E1 K1; inversion E1; subst e1; clear E1; try discriminate K1.
    all: split; [discriminate|]; settle_others Hs; auto.
  - unfold create_product. wp_steps.
    all: try discriminate.
    all: intros e1 E1 K1; inversion E1; subst e1; clear E1; try discriminate K1.
  - unfold update_product. wp_steps.
    all: try discriminate.
    all: intros e1 E1 K1; inversion E1; subst e1; clear E1; try discriminate K1.
    all: split; [discriminate|]; settle_others Hs; auto.
  - unfold delete_product. wp_steps.
    all: try discriminate.
    all: intros e1 E1 K1; inversion E1; subst e1; clear E1; try discriminate K1.
  - unfold update_product_stock. wp_steps.
    all: try discriminate.
    all: intros e1 E1 K1; inversion E1; subst e1; clear E1; try discriminate K1.
    all: split; [discriminate|]; settle_others Hs; auto.
Qed.

(** ** Versions count the successful mutations *)

Lemma version_after_update pid p q a user ver l :
  NoDup (map p_id l) -> by_id pid l = Some p -> In q l -> p_userId q = user ->
  ver = None \/ ver = Some (p_version q) ->
  p_version (if product_where (p_id q) user ver p then assign_product a p else p)
  = p_version p + one_if (p_id q =? pid).
Proof.
  intros Hnd Hp Hq Hu Hver. apply by_id_some in Hp. destruct Hp as [Hin Hid].
  destruct (Z.eqb_spec (p_id q) pid) as [E|E]; simpl.
  - assert (p = q) by (apply (unique_row l); [assumption.. | congruence]). subst q.
    assert (W : product_where (p_id p) user ver p = true).
    { unfold product_where. rewrite Hu, !Z.eqb_refl.
      destruct Hver as [->| ->]; [reflexivity | simpl; apply Z.eqb_refl]. }
    rewrite W. reflexivity.
  - assert (W : product_where (p_id q) user ver p = false).
    { unfold product_where. destruct (Z.eqb_spec (p_id p) (p_id q)); [congruence | reflexivity]. }
    rewrite W. lia.
Qed.

Lemma version_after_two_updates pid p q1 q2 a1 a2 user l :
  NoDup (map p_id l) -> by_id pid l = Some p -> In q1 l -> In q2 l ->
  p_userId q1 = user -> p_userId q2 = user -> p_id q1 <> p_id q2 ->
  p_version
    (if product_where (p_id q2) user (Some (p_version q2))
          (if product_where (p_id q1) user (Some (p_version q1)) p
           then assign_product a1 p else p)
     then assign_product a2
            (if product_where (p_id q1) user (Some (p_version q1)) p
             then assign_product a1 p else p)
     else if product_where (p_id q1) user (Some (p_version q1)) p
          then assign_product a1 p else p)
  = p_version p + (one_if (p_id q2 =? pid) + one_if (p_id q1 =? pid)).
Proof.
  intros Hnd Hp Hq1 Hq2 Hu1 Hu2 Hne.
  pose proof (version_after_update pid p q1 a1 user (Some (p_version q1)) l
                Hnd Hp Hq1 Hu1 (or_intror eq_refl)) as V1.
  pose proof (version_after_update pid p q2 a2 user (Some (p_version q2)) l
                Hnd Hp Hq2 Hu2 (or_intror eq_refl)) as V2.
  pose proof (by_id_some _ _ _ Hp) as [Hin Hid].
  destruct (product_where (p_id q1) user (Some (p_version q1)) p) eqn:W1.
  - assert (E1 : p_id q1 = pid).
    { unfold product_where in W1. apply andb_true_iff in W1. destruct W1 as [W1 _].
      apply andb_true_iff in W1. destruct W1 as [W1 _]. apply Z.eqb_eq in W1. congruence. }
    assert (W2 : product_where (p_id q2) user (Some (p_version q2)) (assign_product a1 p)
                 = false).
    { unfold product_where. simpl.
      destruct (Z.eqb_spec (p_id p) (p_id q2)); [congruence | reflexivity]. }
    rewrite W2.
    destruct (Z.eqb_spec (p_id q2) pid); [congruence|]. simpl in *. lia.
  - rewrite V2. destruct (Z.eqb_spec (p_id q1) pid); simpl in *; lia.
Qed.

Lemma products_step_positive l l' :
  products_step l l' ->
  (forall p, In p l -> 1 <= p_version p) -> forall p, In p l' -> 1 <= p_version p.
Proof.
  intros Hstep H. destruct Hstep; intros p Hp.
  - auto.
  - apply In_update_rows_cases in Hp. destruct Hp as [Hp|(y & Hy & ->)]; [auto|].
    specialize (H y Hy). simpl. lia.
  - apply In_update_rows_cases in Hp. destruct Hp as [Hp|(y & Hy & ->)].
    + apply In_update_rows_cases in Hp. destruct Hp as [Hp|(y & Hy & ->)]; [auto|].
      specialize (H y Hy). simpl. lia.
    + apply In_update_rows_cases in Hy. destruct Hy as [Hy|(z & Hz & ->)].
      * specialize (H y Hy). simpl. lia.
      * specialize (H z Hz). simpl. lia.
  - apply In_delete_rows in Hp. auto.
  - apply in_app_or in Hp. destruct Hp as [Hp|[<-|[]]]; [auto | lia].
Qed.

Lemma serve_positive r c :
  ids_unique (store c) -> saved c = None ->
  versions_positive (store c) -> versions_positive (store (serve alone r c)).
Proof.
  intros Hu Hs Hv. exact (products_step_positive _ _ (handle_products_step r c Hu Hs) Hv).
Qed.

Lemma select_by_id_is_by_id pid db : select_product_by_id pid db = by_id pid (products db).
Proof. reflexivity. Qed.

Lemma select_by_name_in_sales_update user name a id u c :
  select_product_by_name user name (store (executed alone (UpdateSales a id u) c))
  = select_product_by_name user name (store c).
Proof. rewrite store_executed_alone. reflexivity. Qed.

(** The products a handler has read. *)
Ltac known_products :=
  repeat match goal with
         | H : context [store (executed alone (UpdateSales _ _ _) _)] |- _ =>
             rewrite select_by_name_in_sales_update in H
         end;
  repeat match goal with
         | H : select_product_by_name ?u ?n (store ?c) = Some ?q |- _ =>
             lazymatch goal with
             | _ : In q (products (store c)) |- _ => fail
             | _ => destruct (select_product_by_name_some u n (store c) q H) as (?Hin & ?Hown & ?Hname)
             end
         | H : select_product ?i ?u (store ?c) = Some ?q |- _ =>
             lazymatch goal with
             | _ : In q (products (store c)) |- _ => fail
             | _ => destruct (select_product_some i u (store c) q H) as (?Hin & ?Hid & ?Hown)
             end
         end.

Ltac by_id_leaf Hp :=
  rewrite select_by_id_is_by_id in Hp |- *;
  cbn [products with_products with_sales];
  rewrite ?by_id_update_rows, Hp; cbn [option_map];
  eexists; split; [reflexivity|].

Ltac asked :=
  unfold mutations_asked;
  repeat match goal with H : select_sale _ _ _ = Some _ |- _ => rewrite H end;
  unfold target_name, names_product;
  repeat match goal with
         | H : changed_name _ _ = _ |- _ => rewrite H
         | H : select_product_by_name _ _ _ = _ |- _ => rewrite H
         end;
  cbn [one_if]; rewrite ?Z.add_0_r.

Lemma by_id_delete_other pid id user l p :
  id <> pid -> by_id pid l = Some p ->
  by_id pid (delete_rows (product_where id user None) l) = Some p.
Proof.
  intros Hne. unfold by_id, delete_rows. induction l as [|x l IH]; simpl; [discriminate|].
  destruct (Z.eqb_spec (p_id x) pid) as [E|E].
  - intros H. inversion H; subst x; clear H.
    assert (W : product_where id user None p = false).
    { unfold product_where. destruct (Z.eqb_spec (p_id p) id); [congruence | reflexivity]. }
    rewrite W. simpl. rewrite E, Z.eqb_refl. reflexivity.
  - intros H. destruct (product_where id user None x); simpl.
    + apply IH. exact H.
    + destruct (Z.eqb_spec (p_id x) pid); [congruence|]. apply IH. exact H.
Qed.

Lemma handle_version_count r c pid p :
  ids_unique (store c) -> versions_positive (store c) -> saved c = None ->
  keeps_product pid r ->
  select_product_by_id pid (store c) = Some p ->
  wp (handle alone r)
     (fun r1 c1 =>
        exists p', select_product_by_id pid (store (release c1)) = Some p' /\
                   p_version p' = p_version p
                                  + match r1 with
                                    | Ok _ => mutations_asked pid r (store c)
                                    | Raise _ => 0
                                    end) c.
Proof.
  intros Hu Hv Hs Hk Hp.
  assert (Hsame : exists p', select_product_by_id pid (store c) = Some p' /\
                             p_version p' = p_version p + 0)
    by (exists p; split; [exact Hp | lia]).
  destruct r; unfold handle; apply wp_bind.
  - unfold create_sale. wp_steps. all: settle Hs. all: try exact Hsame.
    all: try (exfalso; refetch).
    all: known_products; by_id_leaf Hp; asked.
    all: eapply version_after_update; eauto.
  - unfold update_sale. wp_steps. all: settle Hs. all: try exact Hsame.
    all: try (exfalso; refetch).
    all: known_products; by_id_leaf Hp; asked.
    all: destruct (Z.eqb_spec (or_keep (su_quantity d) (s_quantity s)) (s_quantity s));
      tests; try (exfalso; lia); try lia.
    all: try (eapply version_after_update; solve [eauto]).
    all: try (eapply version_after_two_updates; eauto;
              match goal with
              | Hn : changed_name _ _ = Some ?n,
                H1 : select_product_by_name _ ?n (store _) = Some _,
                H0 : select_product_by_name _ (s_productName _) (store _) = Some _ |- _ =>
                  intro E;
                  apply (distinct_products _ _ _ _ _ _ Hu H1 H0 (changed_name_differs _ _ _ Hn));
                  symmetry; exact E
              end).
  - unfold delete_sale. wp_steps. all: settle Hs. all: try exact Hsame.
    all: known_products; by_id_leaf Hp; asked; try lia.
    all: eapply version_after_update; eauto.
  - unfold create_product. wp_steps. all: settle Hs. all: try exact Hsame.
    all: try (exfalso; refetch).
    all: rewrite select_by_id_is_by_id in Hp |- *; cbn [products with_products];
      rewrite (by_id_app_old _ _ _ _ Hp); exists p; split; [reflexivity | simpl; lia].
  - unfold update_product. wp_steps. all: settle Hs. all: try exact Hsame.
    all: try (exfalso; refetch).
    all: known_products; by_id_leaf Hp; asked.
    all: match goal with
         | Hid : p_id ?q = ?i |- context [one_if (?i =? _)] => rewrite <- Hid
         end.
    all: eapply version_after_update; eauto.
  - unfold delete_product. wp_steps. all: settle Hs. all: try exact Hsame.
    all: rewrite select_by_id_is_by_id in Hp |- *; cbn [products with_products];
      exists p; split; [|simpl; lia].
    all: apply by_id_delete_other; assumption.
  - unfold update_product_stock. wp_steps. all: settle Hs. all: try exact Hsame.
    all: try (exfalso; refetch).
    all: known_products; by_id_leaf Hp; asked.
    all: match goal with
         | Hid : p_id ?q = ?i |- context [one_if (?i =? _)] => rewrite <- Hid
         end.
    all: match goal with
         | Hin : In ?q (products (store _)) |- context [version_or_1 (p_version ?q)] =>
             rewrite (version_or_1_pos _ (Hv q Hin))
         end.
    all: eapply version_after_update; eauto.
Qed.

(** X23. Served one after the other with no other connection writing, and as
    long as the product is not deleted and no statement binds a stock or a
    quantity outside the store's integers, the version of a product is the
    version it had plus the number of its mutations among the requests
    answered with success: each successful stock adjustment or general
    update of the product, each successful creation or deletion of a sale
    of it, and each successful sale edit that changes the quantity, for the
    product the edit is computed against and for the product the sale
    leaves, adds exactly one; no other request changes the version. *)
Theorem version_counts_successful_mutations
    (pid : Z) (rs : list Request) (c : Connection) (p : Product) :
  ids_unique (store c) -> versions_positive (store c) -> saved c = None ->
  Forall (keeps_product pid) rs ->
  logged_since binds_int64 (log c) (log (serve_all alone rs c)) ->
  select_product_by_id pid (store c) = Some p ->
  exists p', select_product_by_id pid (store (serve_all alone rs c)) = Some p' /\
             p_version p' = p_version p + successful_mutations pid rs c.
Proof.
  intros Hu Hv Hs Hk _. revert c p Hu Hv Hs.
  induction Hk as [|r rs Hr _ IH]; intros c p Hu Hv Hs Hp;
    cbn [serve_all successful_mutations].
  - exists p. split; [exact Hp | lia].
  - pose proof (handle_version_count r c pid p Hu Hv Hs Hr Hp) as H.
    unfold wp in H. destruct H as (p1 & Hp1 & Hv1).
    destruct (IH (serve alone r c) p1 (serve_unique r c Hu Hs) (serve_positive r c Hu Hs Hv)
                 (saved_release _) Hp1) as (p' & Hp' & Hv').
    exists p'. split; [exact Hp'|]. rewrite Hv', Hv1. lia.
Qed.

(** ** Concrete runs of the further properties *)

Lemma create_sale_takes_quantity_witness :
  exists p p1,
    select_product_by_name 7 "apples" Demo.shop = Some p /\
    select_product_by_name 7 "apples"
      (store (snd (create_sale alone Demo.order 7 (connect Demo.shop)))) = Some p1 /\
    p_stock p1 = p_stock p - 4 /\ p_version p1 = p_version p + 1.
Proof.
  destruct (create_sale_takes_quantity (connect Demo.shop)
              (snd (create_sale alone Demo.order 7 (connect Demo.shop))) Demo.order 7
              (mkSale 2 7 "apples" 4 None None None None) eq_refl)
    as (p & p1 & H1 & H2 & _ & H3 & _ & H4 & _).
  exists p, p1. repeat split; assumption.
Defined.

Lemma create_sale_checks_references_witness :
  create_sale alone (mkSaleCreate "plums" 1 None None None None) 7 (connect Demo.shop)
  = (Raise (ProductNameUnknown "plums"), connect Demo.shop).
Proof.
  exact (proj1 (create_sale_checks_references alone (connect Demo.shop)
                  (mkSaleCreate "plums" 1 None None None None) 7) eq_refl).
Defined.



Lemma update_sale_without_fields_witness :
  exists c',
    update_sale alone 1 Scenes.nothing 7 (connect Demo.shop) = (Raise NoFields, c') /\
    store c' = Demo.shop.
Proof.
  destruct (update_sale_without_fields alone (connect Demo.shop) 1 7 Scenes.nothing
              Demo.sold Demo.apples eq_refl eq_refl eq_refl eq_refl) as (c' & H1 & H2 & _).
  exists c'. split; assumption.
Defined.

Lemma sale_of_a_missing_product_cannot_be_edited_witness :
  update_sale alone 1 Demo.walk_in 7 (connect Demo.orphaned)
  = (Raise (ProductNameUnknown "apples"), connect Demo.orphaned).
Proof.
  exact (sale_of_a_missing_product_cannot_be_edited alone (connect Demo.orphaned) 1 7
           Demo.walk_in Demo.sold eq_refl eq_refl).
Defined.

Lemma unchanged_quantity_moves_no_stock_witness :
  products (store (snd (update_sale alone 1 Demo.rename_only 7 (connect Demo.shop))))
  = products Demo.shop.
Proof.
  exact (proj1 (unchanged_quantity_moves_no_stock (connect Demo.shop)
                  (snd (update_sale alone 1 Demo.rename_only 7 (connect Demo.shop)))
                  1 7 Demo.rename_only Demo.sold
                  (mkSale 1 7 "pears" 5 (Some 3) None None None)
                  eq_refl eq_refl eq_refl)).
Defined.

Lemma failed_request_changes_nothing_witness :
  store (snd (handle alone (CreateSale 7 Scenes.too_many) (connect Demo.shop))) = Demo.shop /\
  fst (handle alone (UpdateProduct 7 1 Scenes.unname) Scenes.one_unnamed) = Raise Unexpected /\
  store (release (snd (handle alone (UpdateProduct 7 1 Scenes.unname) Scenes.one_unnamed)))
  = store Scenes.one_unnamed.
Proof.
  split; [|split; [reflexivity|]].
  - refine (proj1 (failed_request_changes_nothing (CreateSale 7 Scenes.too_many)
                     (connect Demo.shop) _ (StockShort 10 11) eq_refl _ eq_refl)).
    simpl. lia.
  - refine (proj2 (failed_request_changes_nothing (UpdateProduct 7 1 Scenes.unname)
                     Scenes.one_unnamed _ Unexpected eq_refl _ eq_refl)).
    vm_compute. discriminate.
Defined.

Lemma update_product_stock_at_version_witness :
  exists c',
    update_product_stock alone 1 Scenes.take_three 7 (connect Demo.shop)
    = (Ok (mkProduct 1 7 "apples" None 7 "kg" None 2), c').
Proof.
  destruct (proj2 (update_product_stock_at_version (connect Demo.shop) 1 7 Scenes.take_three
                     Demo.apples eq_refl)) as (c' & H & _).
  - repeat constructor; simpl; intuition discriminate.
  - simpl. lia.
  - simpl. lia.
  - reflexivity.
  - simpl. lia.
  - unfold int64. simpl. lia.
  - exists c'. exact H.
Defined.


Lemma create_product_registers_a_name_witness :
  create_product alone Demo.plums 7
    (snd (create_product alone Demo.plums 7 (connect Demo.shop)))
  = (Raise (NameTaken "plums"), snd (create_product alone Demo.plums 7 (connect Demo.shop))).
Proof.
  exact (proj2 (proj2 (proj2 (proj2 (proj2
           (create_product_registers_a_name (connect Demo.shop)
              (snd (create_product alone Demo.plums 7 (connect Demo.shop))) Demo.plums 7
              (mkProduct 3 7 "plums" None 20 "kg" None 1) eq_refl))))) Demo.plums eq_refl).
Defined.

Lemma product_supplier_reference_witness :
  create_product alone Scenes.from_nowhere 7 (connect Demo.shop)
  = (Raise SupplierUnknown, connect Demo.shop).
Proof.
  exact (proj1 (product_supplier_reference alone (connect Demo.shop) 7)
           Scenes.from_nowhere 0 eq_refl eq_refl eq_refl).
Defined.

Lemma update_product_refusals_witness :
  update_product alone 1 Scenes.stale_recount 7 (connect Demo.shop)
  = (Raise (VersionMismatch 1 4), connect Demo.shop).
Proof.
  refine (proj1 (update_product_refusals alone (connect Demo.shop) 1 7 Scenes.stale_recount
                   Demo.apples eq_refl) 4 eq_refl _).
  discriminate.
Defined.

Lemma update_product_writes_over_others_witness :
  (exists c',
     update_product Scenes.rival 1 Demo.recount 7 (connect Demo.shop)
     = (Ok (mkProduct 1 7 "apples" None 50 "kg" None 3), c')) /\
  (exists c',
     update_product Scenes.planter 1 Scenes.to_plums 7 (connect Demo.shop)
     = (Raise Unexpected, c') /\
     store (release c') = Scenes.planter Demo.shop).
Proof.
  split.
  - destruct (update_product_writes_over_others Scenes.rival (connect Demo.shop) 1 7
                Demo.recount Demo.apples (mkProduct 1 7 "apples" None 3 "kg" None 2)
                eq_refl eq_refl) as [Hfree _].
    + repeat split.
    + reflexivity.
    + reflexivity.
    + destruct Hfree as (c' & H & _).
      * intros name E. discriminate E.
      * intros n E. inversion E. unfold int64. lia.
      * exists c'. exact H.
  - destruct (update_product_writes_over_others Scenes.planter (connect Demo.shop) 1 7
                Scenes.to_plums Demo.apples Demo.apples eq_refl eq_refl) as [_ Htaken].
    + repeat split.
    + reflexivity.
    + reflexivity.
    + destruct (Htaken "plums"%string (mkProduct 3 7 "plums" None 20 "kg" None 1)
                  eq_refl eq_refl) as (c' & H1 & _ & H2 & _).
      exists c'. split; assumption.
Defined.

Lemma delete_product_keeps_its_sales_witness :
  exists c',
    delete_product alone 1 7 (connect Demo.shop) = (Ok tt, c') /\
    sales (store c') = [Demo.sold] /\
    exists c'', delete_sale alone 1 7 c' = (Ok tt, c'') /\ products (store c'') = [Demo.pears].
Proof.
  destruct (delete_product_keeps_its_sales (connect Demo.shop) 1 7 Demo.apples eq_refl)
    as (c' & H1 & H2 & _ & H3 & _ & _ & H4).
  exists c'. split; [exact H1|]. split; [exact H3|].
  destruct (H4 1 Demo.sold eq_refl eq_refl) as (c'' & H5 & H6 & _).
  - intros x [<-|[<-|[]]] _ E; [reflexivity | discriminate E].
  - exists c''. split; [exact H5|]. rewrite H6, H2. reflexivity.
Defined.

Lemma reads_are_scoped_and_find_what_was_written_witness :
  get_product 3 7 (snd (create_product alone Demo.plums 7 (connect Demo.shop)))
  = (Ok (mkProduct 3 7 "plums" None 20 "kg" None 1),
     snd (create_product alone Demo.plums 7 (connect Demo.shop))).
Proof.
  exact (proj2 (proj2 (proj2 (reads_are_scoped_and_find_what_was_written
                                (connect Demo.shop) 7)))
           Demo.plums (mkProduct 3 7 "plums" None 20 "kg" None 1) _ eq_refl).
Defined.


Lemma get_sales_pages_cover_the_matches_witness :
  Permutation
    (List.concat
       (map (fun i => page_items (get_sales Scenes.any_text Scenes.as_written
                                    (Z.of_nat i + 1) 1 None None None None 7
                                    (connect Scenes.market)))
            (seq 0 1)))
    [Demo.sold].
Proof.
  refine (proj2 (get_sales_pages_cover_the_matches Scenes.any_text Scenes.as_written
                   (connect Scenes.market) 1 None None None None 7 _)).
  lia.
Defined.

Lemma product_names_stay_unique_witness :
  names_unique (store (serve_all alone Demo.plum_season
                         (snd (create_product alone Demo.plums 7 (connect Demo.shop))))).
Proof.
  refine (proj1 (product_names_stay_unique Demo.plum_season
                   (snd (create_product alone Demo.plums 7 (connect Demo.shop)))
                   _ _ _ eq_refl)).
  - repeat constructor; simpl; discriminate.
  - repeat constructor; simpl; intuition discriminate.
  - repeat constructor; simpl; intuition discriminate.
Defined.

Lemma version_conflict_leaves_no_trace_witness :
  store (release (snd (handle Scenes.rival (CreateSale 7 Demo.order) (connect Demo.shop))))
  = Demo.shop \/
  store (release (snd (handle Scenes.rival (CreateSale 7 Demo.order) (connect Demo.shop))))
  = Scenes.rival Demo.shop.
Proof.
  refine (proj2 (version_conflict_leaves_no_trace Scenes.rival (CreateSale 7 Demo.order)
                   (connect Demo.shop) _ StockChanged eq_refl _ eq_refl eq_refl)).
  simpl. lia.
Defined.

Lemma requests_leave_other_users_alone_witness :
  foreign 7 (store (serve alone (CreateSale 7 Demo.order) (connect Scenes.market)))
  = ([mkProduct 3 8 "apples" None 4 "kg" None 1], [mkSale 2 8 "apples" 1 None None None None]).
Proof.
  exact (requests_leave_other_users_alone (CreateSale 7 Demo.order) (connect Scenes.market)
           eq_refl).
Defined.

Lemma version_counts_successful_mutations_witness :
  exists p',
    select_product_by_id 1 (store (serve_all alone Demo.busy_day (connect Demo.shop)))
    = Some p' /\
    p_version p' = 1 + 3.
Proof.
  destruct (version_counts_successful_mutations 1 Demo.busy_day (connect Demo.shop)
              Demo.apples) as (p' & H1 & H2).
  - repeat constructor; simpl; intuition discriminate.
  - intros x [<-|[<-|[]]]; simpl; lia.
  - reflexivity.
  - repeat constructor.
  - vm_compute log.
    repeat first [ apply since_now | apply since_commit | apply since_rollback
                 | apply since_statement;
                   [ simpl; unfold int64; intros;
                     repeat match goal with
                            | H : Some _ = Some _ |- _ => inversion H; subst; clear H
                            | H : None = Some _ |- _ => discriminate H
                            end; lia | ] ].
  - reflexivity.
  - exists p'. split; [exact H1 | rewrite H2; reflexivity].
Defined.
